(** * GithubInsight: a shallow embedding of the server and its properties

    The development follows [server/routes.ts], [server/services/openrouter.ts]
    and [server/storage.ts].  JavaScript values are embedded as follows:

    - strings are [string]s (one [ascii] per code unit; the case mappings act
      on the ASCII letters);
    - integral numbers are [Z]; numbers obtained by a division are exact
      rationals [Q] (the double computed by the engine is the one nearest to
      that rational);
    - [null]/[undefined] is [None]; a thrown exception is [Throw];
    - the network, the clock, the locale and the random generator are inputs of
      the functions that consult them. *)

From Stdlib Require Import ZArith QArith Qround String Ascii List Bool Lia.
From Stdlib Require Import Numbers.DecimalString.
Import ListNotations.

Open Scope string_scope.
Open Scope Z_scope.

(** ** JavaScript primitives used by the server *)

Module Js.

(** The reply carried by an axios error: its status and the [message] and
    [error] members of its body. *)
Record AxiosResponse : Type :=
  { status : Z; dataMessage : option string; dataError : option string }.

(** Exceptions that the handlers distinguish. *)
Inductive Exn : Type :=
| ZodError (message : string)
| AxiosError (response : option AxiosResponse) (message : string)
| TypeError (message : string)
| Error (message : string).

Inductive Result (A : Type) : Type :=
| Ok (a : A)
| Throw (e : Exn).

Arguments Ok {A} a.
Arguments Throw {A} e.

Definition bind {A B : Type} (r : Result A) (k : A -> Result B) : Result B :=
  match r with
  | Ok a => k a
  | Throw e => Throw e
  end.

Definition isOk {A : Type} (r : Result A) : bool :=
  match r with Ok _ => true | Throw _ => false end.

(** What an [axios] request does: it resolves with the reply's body, or
    rejects with an axios error that carries the reply (a status outside
    2xx) or no reply at all (the request never completed). *)
Inductive Reply (A : Type) : Type :=
| Resolved (data : A)
| Rejected (response : option AxiosResponse) (message : string).

Arguments Resolved {A} data.
Arguments Rejected {A} response message.

(** [await axios.get(...)] inside a [try] block. *)
Definition await {A : Type} (r : Reply A) : Result A :=
  match r with
  | Resolved data => Ok data
  | Rejected response message => Throw (AxiosError response message)
  end.

(** [l[i]] for an index computed at run time. *)
Definition item {A : Type} (l : list A) (i : Z) : option A :=
  if i <? 0 then None else nth_error l (Z.to_nat i).

(** [l.slice(-n)]. *)
Definition lastN {A : Type} (n : nat) (l : list A) : list A :=
  skipn (length l - n) l.

(** [LF] is the line feed written [\n] in the source. *)
Definition LF : string := String (ascii_of_nat 10) "".

(** [`${n}`] and [n.toString()] for an integral number. *)
Definition showZ (n : Z) : string := NilZero.string_of_int (Z.to_int n).

Definition lowerChar (c : ascii) : ascii :=
  let n := nat_of_ascii c in
  if ((65 <=? n)%nat && (n <=? 90)%nat)%bool then ascii_of_nat (n + 32) else c.

(** [s.toLowerCase()]. *)
Fixpoint toLowerCase (s : string) : string :=
  match s with
  | EmptyString => EmptyString
  | String c s' => String (lowerChar c) (toLowerCase s')
  end.

(** [s.includes(pat)]. *)
Fixpoint includes (s pat : string) : bool :=
  prefix pat s ||
  match s with
  | EmptyString => false
  | String _ s' => includes s' pat
  end.

(** [s.endsWith(suf)]. *)
Fixpoint endsWith (s suf : string) : bool :=
  String.eqb s suf ||
  match s with
  | EmptyString => false
  | String _ s' => endsWith s' suf
  end.

(** [s.split(sep)] for a one-character separator. *)
Fixpoint split (sep : ascii) (s : string) : list string :=
  match s with
  | EmptyString => [EmptyString]
  | String c s' =>
      if Ascii.eqb c sep then EmptyString :: split sep s'
      else match split sep s' with
           | [] => [String c EmptyString]
           | w :: ws => String c w :: ws
           end
  end.

(** [s.replace(/\/$/, "")]: one slash is removed, at the very end only. *)
Fixpoint stripTrailingSlash (s : string) : string :=
  match s with
  | EmptyString => EmptyString
  | String c s' =>
      if (Ascii.eqb c "/" && String.eqb s' EmptyString)%bool then EmptyString
      else String c (stripTrailingSlash s')
  end.

(** [s.slice(0, n)]. *)
Definition slice0 (n : nat) (s : string) : string := substring 0 n s.

(** Truthiness of a possibly undefined string: [!!s]. *)
Definition truthy (s : option string) : bool :=
  match s with
  | None => false
  | Some s => negb (String.eqb s EmptyString)
  end.

(** [`${s}`] for a possibly undefined string. *)
Definition render (s : option string) : string :=
  match s with
  | None => "undefined"
  | Some s => s
  end.

(** [`${s}`] for a possibly null string. *)
Definition renderNull (s : option string) : string :=
  match s with
  | None => "null"
  | Some s => s
  end.

(** [x.toFixed(1)]: the integer [n] for which [n / 10] is nearest to [x]
    (the larger one on a tie), printed with one decimal; a negative [x] is
    printed as its opposite after a minus sign. *)
Definition toFixed1abs (x : Q) : string :=
  let n := Qfloor (x * 10 + (1 # 2)) in
  showZ (n / 10) ++ "." ++ showZ (n mod 10).

Definition toFixed1 (x : Q) : string :=
  if Qle_bool 0 x then toFixed1abs x else "-" ++ toFixed1abs (- x).

(** [Math.round(x)]. *)
Definition round (x : Q) : Z := Qfloor (x + (1 # 2)).

End Js.

Import Js.

(** ** Relative time ([getRelativeTimeString], routes.ts) *)

(** [now] and [date] are the two instants in milliseconds:
    [new Date().getTime()] and [date.getTime()]. *)
Definition getRelativeTimeString (now date : Z) : string :=
  let diffInSeconds := (now - date) / 1000 in
  if diffInSeconds <? 60 then "just now"
  else
    let diffInMinutes := diffInSeconds / 60 in
    if diffInMinutes <? 60 then
      showZ diffInMinutes ++ " minute" ++ (if diffInMinutes >? 1 then "s" else "") ++ " ago"
    else
      let diffInHours := diffInMinutes / 60 in
      if diffInHours <? 24 then
        showZ diffInHours ++ " hour" ++ (if diffInHours >? 1 then "s" else "") ++ " ago"
      else
        let diffInDays := diffInHours / 24 in
        if diffInDays <? 30 then
          showZ diffInDays ++ " day" ++ (if diffInDays >? 1 then "s" else "") ++ " ago"
        else
          let diffInMonths := diffInDays / 30 in
          if diffInMonths <? 12 then
            showZ diffInMonths ++ " month" ++ (if diffInMonths >? 1 then "s" else "") ++ " ago"
          else
            let diffInYears := diffInMonths / 12 in
            showZ diffInYears ++ " year" ++ (if diffInYears >? 1 then "s" else "") ++ " ago".

(** The relative-time rule as the specification words it: thresholds on the
    elapsed seconds, and a plural mark exactly when the count is not one. *)
Definition ago (n : Z) (unit : string) : string :=
  showZ n ++ " " ++ unit ++ (if n =? 1 then "" else "s") ++ " ago".

Definition relative_time_spec (s : Z) : string :=
  if s <? 60 then "just now"
  else if s <? 3600 then ago (s / 60) "minute"
  else if s <? 86400 then ago (s / 3600) "hour"
  else if s <? 30 * 86400 then ago (s / 86400) "day"
  else
    let days := s / 86400 in
    let months := days / 30 in
    if months <? 12 then ago months "month" else ago (months / 12) "year".

(** ** Completion provider ([analyzeCode], services/openrouter.ts) *)

Module OpenRouter.

Record Message : Type := { role : string; content : string }.

(** The body of a successful reply: [choices[i].message.content], when the
    [choices] member is there. *)
Record OpenRouterResponse : Type := { choices : option (list string) }.

Definition PostOutcome : Type := Reply OpenRouterResponse.

Record Request : Type :=
  { url : string; model : string; messages : list Message; authorization : string }.

Definition DQ : string := String (ascii_of_nat 34) "".

Definition systemPrompt : string :=
  "You are a senior software developer specializing in code analysis and explanation. " ++ LF ++
  "Your task is to analyze the provided code file within the context of the repository structure." ++ LF ++
  LF ++
  "Your analysis MUST be formatted with clear, visually structured markdown:" ++ LF ++
  "- Use " ++ DQ ++ "##" ++ DQ ++ " for main section headers (like " ++ DQ ++ "## SUMMARY" ++ DQ ++ ")" ++ LF ++
  "- Use " ++ DQ ++ "###" ++ DQ ++ " for sub-section headers" ++ LF ++
  "- Use bullet points (" ++ DQ ++ "- " ++ DQ ++ " prefix) for listing features or points" ++ LF ++
  "- Use numbered lists (1., 2., etc.) for steps or prioritized items" ++ LF ++
  "- Use **bold** for important concepts, class names, or method names" ++ LF ++
  "- Use code formatting `like this` for inline code references" ++ LF ++
  LF ++
  "Your analysis MUST include these clearly formatted sections:" ++ LF ++
  LF ++
  "## SUMMARY" ++ LF ++
  "A concise overview of the file's purpose and significance (3-5 sentences)" ++ LF ++
  LF ++
  "## PURPOSE & FUNCTIONALITY" ++ LF ++
  "Detailed explanation of what this code does" ++ LF ++
  LF ++
  "## KEY COMPONENTS" ++ LF ++
  "Important classes, functions, or modules with descriptions" ++ LF ++
  LF ++
  "## DEPENDENCIES & IMPORTS" ++ LF ++
  "External libraries and internal file dependencies" ++ LF ++
  LF ++
  "## CODE INTERACTIONS" ++ LF ++
  "How this code connects to other parts of the system" ++ LF ++
  LF ++
  "## RECOMMENDATIONS" ++ LF ++
  "Potential optimizations or improvements" ++ LF ++
  LF ++
  "Format your response professionally with consistent heading hierarchy, clean bullet points, and proper spacing between sections for easy scanning.".

Definition userPrompt (directoryStructure codeContent filePath : string) : string :=
  "I need you to analyze the following code file:" ++ LF ++
  LF ++
  "Repository structure:" ++ LF ++
  "```" ++ LF ++
  directoryStructure ++ LF ++
  "```" ++ LF ++
  LF ++
  codeContent ++ LF ++
  LF ++
  "Please provide a detailed analysis of " ++ filePath ++ " using the required formatting structure.".

(** The body of the [try] block: the request, then the first choice. *)
Definition attempt (post : Request -> PostOutcome) (apiKey : string)
    (msgs : list Message) : Result string :=
  bind (await (post {| url := "https://openrouter.ai/api/v1/chat/completions";
                       model := "anthropic/claude-3-haiku";
                       messages := msgs;
                       authorization := "Bearer " ++ apiKey |}))
    (fun data =>
       match choices data with
       | Some (first :: _) => Ok first
       | Some [] | None => Throw (Error "No response from OpenRouter API")
       end).

(** The [catch] block that encloses it: every exception leaves it as a new
    plain [Error]. *)
Definition rethrow (e : Exn) : Exn :=
  match e with
  | AxiosError (Some response) message =>
      Error ("OpenRouter API error: " ++
             (if truthy (dataError response) then render (dataError response) else message))
  | _ => Error "Failed to analyze code with OpenRouter"
  end.

(** [apiKey] is [process.env.OPENROUTER_API_KEY]; [post] is the completion
    provider as seen through [axios.post]. *)
Definition analyzeCode (apiKey : option string) (post : Request -> PostOutcome)
    (directoryStructure codeContent filePath : string) : Result string :=
  if negb (truthy apiKey) then Throw (Error "OpenRouter API key is not configured")
  else
    let msgs :=
      [ {| role := "system"; content := systemPrompt |};
        {| role := "user"; content := userPrompt directoryStructure codeContent filePath |} ] in
    match attempt post (render apiKey) msgs with
    | Ok analysis => Ok analysis
    | Throw e => Throw (rethrow e)
    end.

End OpenRouter.

(** ** Data model (shared/schema.ts, client/src/lib/types.ts) *)

Record LanguageData : Type :=
  { name : string; percentage : Q; color : string }.

(** [month] is [months[date.getMonth()]], undefined when the index is not one
    of the twelve. *)
Record CommitActivity : Type :=
  { month : option string; count : Z }.

Inductive Level : Type := High | Medium | Low.

Record ComplexFile : Type :=
  { path : string; complexity : Z; level : Level }.

Inductive DependencyStatus : Type := UpToDate | UpdateAvailable | Outdated.

Record Dependency : Type :=
  { dep_name : string; version : string; dep_status : DependencyStatus }.

(** A row of the [repositories] table; [description] and [language] are the
    nullable text columns that the generator dereferences. *)
Record Repository : Type :=
  { id : string;
    fullName : string;
    description : option string;
    ownerAvatar : string;
    stars : string;
    forks : string;
    openIssues : string;
    language : option string;
    createdAt : string;
    lastUpdated : string;
    codeQuality : Z;
    codeCoverage : Z;
    commitFrequency : string;
    activeContributors : Z;
    languages : list LanguageData;
    commitActivity : list CommitActivity;
    complexFiles : list ComplexFile;
    dependencies : list Dependency }.

(** ** The record cache ([MemStorage], storage.ts) *)

Module MemStorage.

(** The [repositories] map: a JavaScript [Map] keeps its keys in insertion
    order, and [set] on a key that is there replaces the value in place. *)
Definition t : Type := list (string * Repository).

Definition empty : t := [].

Fixpoint set (key : string) (value : Repository) (m : t) : t :=
  match m with
  | [] => [(key, value)]
  | (k, v) :: m' =>
      if String.eqb k key then (key, value) :: m' else (k, v) :: set key value m'
  end.

Fixpoint get (key : string) (m : t) : option Repository :=
  match m with
  | [] => None
  | (k, v) :: m' => if String.eqb k key then Some v else get key m'
  end.

Definition values (m : t) : list Repository := map snd m.

Definition getRepository (repositories : t) (id : string) : option Repository :=
  get id repositories.

Definition getRepositoryByFullName (repositories : t) (name : string)
  : option Repository :=
  find (fun repo => String.eqb (fullName repo) name) (values repositories).

Definition createRepository (repositories : t) (repo : Repository)
  : Repository * t :=
  (repo, set (id repo) repo repositories).

End MemStorage.

(** ** The metadata provider, as seen through [axios.get] *)

Module GitHub.

Record RepoInfo : Type :=
  { id : Z;
    full_name : string;
    description : option string;
    language : option string;
    avatar_url : string;
    stargazers_count : Z;
    forks_count : Z;
    open_issues_count : Z;
    languages_url : string;
    created_at : string;
    updated_at : string }.

Record WeekData : Type := { week : Z; total : Z }.

(** The body of the commit-activity reply: missing ([null], [undefined] or
    an empty body), an array of weekly buckets, or something else (the
    provider answers with an object while it computes the statistics). *)
Inductive CommitData : Type :=
| Missing
| Weeks (weeks : list WeekData)
| NotArray.

Inductive ItemType : Type := blob | tree | commit.

Record TreeItem : Type := { path : string; type : ItemType }.

(** One function per endpoint, from the requested address to the reply.
    The language map is the list of its entries in [Object.entries] order;
    the body of a file reply is its [content] member, decoded from base64,
    when it has one. *)
Record Api : Type :=
  { getRepo : string -> Reply RepoInfo;
    getLanguages : string -> Reply (list (string * Z));
    getCommitActivity : string -> Reply CommitData;
    getTree : string -> Reply (list TreeItem);
    getContents : string -> Reply (option string) }.

End GitHub.

(** ** What a request reads from its surroundings *)

(** [now] is [new Date().getTime()]; [random i] is the result of the [i]-th
    call of [Math.random()]; [getMonth t] is [new Date(t).getMonth()] in the
    server's time zone; [daysBefore t n] is the instant reached by
    [setDate(getDate() - n)] from [t]; [getTime s] is
    [new Date(s).getTime()]; [toLongDate s] is the [en-US] long form of
    [new Date(s)]; [today] is [new Date().toLocaleDateString()]. *)
Record Env : Type :=
  { now : Z;
    random : nat -> Q;
    getMonth : Z -> nat;
    daysBefore : Z -> Z -> Z;
    getTime : string -> Z;
    toLongDate : string -> string;
    today : string }.

(** ** Ingestion ([fetchRepositoryData], [formatNumber], routes.ts) *)

Definition formatNumber (num : Z) : string :=
  if num >=? 1000000 then toFixed1 (inject_Z num / 1000000) ++ "M"
  else if num >=? 1000 then toFixed1 (inject_Z num / 1000) ++ "k"
  else showZ num.

(** Requests to the provider are counted: a computation takes the number of
    requests issued so far and returns the new number with its result. *)
Definition Counting (A : Type) : Type := nat -> Result A * nat.

Definition ret {A : Type} (a : A) : Counting A := fun n => (Ok a, n).

Definition andThen {A B : Type} (m : Counting A) (k : A -> Counting B) : Counting B :=
  fun n =>
    match m n with
    | (Ok a, n') => k a n'
    | (Throw e, n') => (Throw e, n')
    end.

Definition request {A : Type} (r : Reply A) : Counting A :=
  fun n => (await r, S n).

Notation "x <- m ;; k" := (andThen m (fun x => k))
  (at level 61, m at next level, right associativity).

Definition totalBytesOf (languagesData : list (string * Z)) : Z :=
  fold_left (fun totalBytes entry => totalBytes + snd entry) languagesData 0.

Definition languageColors : list (string * string) :=
  [ ("JavaScript", "#f1e05a"); ("TypeScript", "#3178c6"); ("HTML", "#e34c26");
    ("CSS", "#563d7c"); ("Python", "#3572A5"); ("Java", "#b07219");
    ("Go", "#00ADD8"); ("Rust", "#dea584"); ("C", "#555555");
    ("C++", "#f34b7d"); ("C#", "#178600") ].

Fixpoint lookup (key : string) (table : list (string * string)) : option string :=
  match table with
  | [] => None
  | (k, v) :: table' => if String.eqb k key then Some v else lookup key table'
  end.

(** [Object.entries(languagesData).map(...)]; the divisor is
    [totalBytes || 1]. *)
Definition languagesOf (languagesData : list (string * Z)) : list LanguageData :=
  let totalBytes := totalBytesOf languagesData in
  map (fun entry =>
         let bytes := snd entry in
         {| name := fst entry;
            percentage :=
              (inject_Z bytes / inject_Z (if totalBytes =? 0 then 1 else totalBytes)) * 100;
            color := match lookup (fst entry) languageColors with
                     | Some c => c
                     | None => "#808080"
                     end |})
      languagesData.

Definition months : list string :=
  ["Jan"; "Feb"; "Mar"; "Apr"; "May"; "Jun"; "Jul"; "Aug"; "Sep"; "Oct"; "Nov"; "Dec"].

(** [commitActivityResponse.data || []]. *)
Definition commitDataOf (data : GitHub.CommitData) : GitHub.CommitData :=
  match data with
  | GitHub.Missing => GitHub.Weeks []
  | _ => data
  end.

Definition commitActivityOf (env : Env) (commitData : GitHub.CommitData)
  : list CommitActivity :=
  match commitData with
  | GitHub.Weeks weeks =>
      map (fun weekData =>
             {| month := nth_error months (getMonth env (GitHub.week weekData * 1000));
                count := GitHub.total weekData |})
          (lastN 7 weeks)
  | _ =>
      map (fun index =>
             {| month := nth_error months
                           (getMonth env (daysBefore env (now env) (Z.of_nat index * 7)));
                count := 0 |})
          (seq 0 7)
  end.

Definition averageWeeklyCommitsOf (commitData : GitHub.CommitData) : Q :=
  match commitData with
  | GitHub.Weeks weeks =>
      let n := Z.min (Z.of_nat (length weeks)) 12 in
      inject_Z (fold_left (fun sum week => sum + GitHub.total week) (lastN 12 weeks) 0)
      / inject_Z (if n =? 0 then 1 else n)
  | _ => 0
  end.

Definition complexFilesOf (repo : string) : list ComplexFile :=
  [ {| path := "src/core/" ++ repo ++ "Core.js"; complexity := 85; level := High |};
    {| path := "src/components/" ++ repo ++ "Component.js"; complexity := 65; level := Medium |};
    {| path := "src/utils/helpers.js"; complexity := 45; level := Low |} ].

Definition mockDependencies : list Dependency :=
  [ {| dep_name := "react"; version := "^18.2.0"; dep_status := UpToDate |};
    {| dep_name := "lodash"; version := "^4.17.21"; dep_status := UpToDate |};
    {| dep_name := "axios"; version := "^0.21.1"; dep_status := UpdateAvailable |} ].

Definition repoUrl (owner repo : string) : string :=
  "https://api.github.com/repos/" ++ owner ++ "/" ++ repo.

Definition fetchRepositoryData (env : Env) (api : GitHub.Api) (owner repo : string)
  : Counting Repository :=
  repoInfo <- request (GitHub.getRepo api (repoUrl owner repo)) ;;
  languagesData <- request (GitHub.getLanguages api (GitHub.languages_url repoInfo)) ;;
  data <- request (GitHub.getCommitActivity api
                     (repoUrl owner repo ++ "/stats/commit_activity")) ;;
  let commitData := commitDataOf data in
  ret {| id := showZ (GitHub.id repoInfo);
         fullName := GitHub.full_name repoInfo;
         description :=
           Some (if truthy (GitHub.description repoInfo)
                 then render (GitHub.description repoInfo)
                 else "A " ++ renderNull (GitHub.language repoInfo) ++ " repository");
         ownerAvatar := GitHub.avatar_url repoInfo;
         stars := formatNumber (GitHub.stargazers_count repoInfo);
         forks := formatNumber (GitHub.forks_count repoInfo);
         openIssues := formatNumber (GitHub.open_issues_count repoInfo);
         language :=
           Some (if truthy (GitHub.language repoInfo)
                 then render (GitHub.language repoInfo)
                 else "Unknown");
         createdAt := toLongDate env (GitHub.created_at repoInfo);
         lastUpdated :=
           getRelativeTimeString (now env) (getTime env (GitHub.updated_at repoInfo));
         codeQuality := Qfloor (70 + random env 0 * 25);
         codeCoverage := Qfloor (60 + random env 1 * 30);
         commitFrequency := showZ (round (averageWeeklyCommitsOf commitData)) ++ "/week";
         activeContributors := Qfloor (10 + random env 2 * 490);
         languages := languagesOf languagesData;
         commitActivity := commitActivityOf env commitData;
         complexFiles := complexFilesOf repo;
         dependencies := mockDependencies |}.

(** ** The request handlers ([registerRoutes], routes.ts) *)

Inductive Json : Type :=
| JRepository (repository : Repository)
| JMessage (message : string)
| JReadme (content filename : string)
| JAnalysis (fileName analysis : string).

Record Response : Type := { statusCode : Z; json : Json }.

(** The state that outlives a request, and the count of requests sent to the
    metadata provider. *)
Record Server : Type :=
  { repositories : MemStorage.t; requests : nat }.

(** The shared [catch] block of the handlers; [failure] is the message of the
    final [500]. *)
Definition respondTo (failure : string) (e : Exn) : Response :=
  match e with
  | ZodError message => {| statusCode := 400; json := JMessage message |}
  | AxiosError (Some response) _ =>
      {| statusCode := status response;
         json := JMessage ("GitHub API error: " ++
                           (if truthy (dataMessage response)
                            then render (dataMessage response)
                            else "Unknown error")) |}
  | _ => {| statusCode := 500; json := JMessage failure |}
  end.

(** [bodySchema.parse(req.body)] of [/api/analyze]; [isUrl] is the URL
    format test of the validation library. *)
Definition parseAnalyzeBody (isUrl : string -> bool) (url : string) : Result string :=
  if negb (isUrl url) then Throw (ZodError "Invalid URL format")
  else if negb (includes url "github.com") then Throw (ZodError "URL must be a GitHub repository")
  else Ok url.

Definition ownerAndRepo (url : string) : option string * option string :=
  let urlParts := split "/" (stripTrailingSlash url) in
  (item urlParts (Z.of_nat (length urlParts) - 2),
   item urlParts (Z.of_nat (length urlParts) - 1)).

Definition invalidRepositoryUrl : Response :=
  {| statusCode := 400;
     json := JMessage "Invalid GitHub repository URL. Format should be: https://github.com/owner/repo" |}.

(** [POST /api/analyze]. *)
Definition analyze (isUrl : string -> bool) (env : Env) (api : GitHub.Api)
    (body : string) (server : Server) : Response * Server :=
  match parseAnalyzeBody isUrl body with
  | Throw e => (respondTo "Failed to analyze repository" e, server)
  | Ok url =>
      let (owner, repo) := ownerAndRepo url in
      if (negb (truthy owner) || negb (truthy repo))%bool then (invalidRepositoryUrl, server)
      else
        match MemStorage.getRepositoryByFullName (repositories server)
                (render owner ++ "/" ++ render repo) with
        | Some existingRepo =>
            ({| statusCode := 200; json := JRepository existingRepo |}, server)
        | None =>
            match fetchRepositoryData env api (render owner) (render repo) (requests server) with
            | (Throw e, n) =>
                (respondTo "Failed to analyze repository" e,
                 {| repositories := repositories server; requests := n |})
            | (Ok repoData, n) =>
                let (savedRepo, stored) :=
                  MemStorage.createRepository (repositories server) repoData in
                ({| statusCode := 200; json := JRepository savedRepo |},
                 {| repositories := stored; requests := n |})
            end
        end
  end.

(** ** The document generator ([generateReadmeContent], routes.ts) *)

Record CustomSection : Type := { title : string; content : string }.

(** The options object of the request; a member that is not sent is [None]. *)
Record ReadmeOptions : Type :=
  { includeInstallation : option bool;
    includeUsage : option bool;
    includeContributing : option bool;
    includeLicense : option bool;
    customSections : option (list CustomSection) }.

(** A destructuring default: [{ member = fallback } = options]. *)
Definition orDefault {A : Type} (fallback : A) (member : option A) : A :=
  match member with
  | Some a => a
  | None => fallback
  end.

(** [repository.language === text]. *)
Definition languageIs (repository : Repository) (text : string) : bool :=
  match language repository with
  | Some l => String.eqb l text
  | None => false
  end.

(** [s.toLowerCase()] on a value that may be [null] or [undefined]. *)
Definition lowerOf (what : string) (s : option string) : Result string :=
  match s with
  | Some s => Ok (toLowerCase s)
  | None => Throw (TypeError ("Cannot read properties of " ++ what ++ " (reading 'toLowerCase')"))
  end.

Fixpoint appendAll (pieces : list string) : string :=
  match pieces with
  | [] => ""
  | piece :: rest => piece ++ appendAll rest
  end.

(** From the title down to the language list. *)
Definition readmeHead (repository : Repository) (repoName : option string)
    (lowerDescription : string) : string :=
  "# " ++ render repoName ++ LF ++ LF ++
  renderNull (description repository) ++ LF ++ LF ++
  "![GitHub stars](https://img.shields.io/github/stars/" ++ fullName repository ++ "?style=social) " ++
  "![License](https://img.shields.io/github/license/" ++ fullName repository ++ ") " ++
  "![Last commit](https://img.shields.io/github/last-commit/" ++ fullName repository ++ ")" ++ LF ++ LF ++
  "## Overview" ++ LF ++ LF ++
  "This repository contains a " ++ renderNull (language repository) ++ " project that " ++
    lowerDescription ++ "." ++ LF ++ LF ++
  "## Languages" ++ LF ++ LF ++
  appendAll (map (fun lang => "- " ++ name lang ++ ": " ++ toFixed1 (percentage lang) ++ "%" ++ LF)
                 (languages repository)) ++
  LF.

Definition readmeInstallation (repository : Repository) (repoName : option string) : string :=
  "## Installation" ++ LF ++ LF ++
  "```bash" ++ LF ++
  "# Clone the repository" ++ LF ++
  "git clone https://github.com/" ++ fullName repository ++ ".git" ++ LF ++ LF ++
  "# Change directory" ++ LF ++
  "cd " ++ render repoName ++ LF ++ LF ++
  "# Install dependencies" ++ LF ++
  (if (languageIs repository "JavaScript" || languageIs repository "TypeScript")%bool then
     "npm install" ++ LF
   else if languageIs repository "Python" then
     "pip install -r requirements.txt" ++ LF
   else if languageIs repository "Java" then
     "mvn install" ++ LF
   else
     "# Install dependencies according to your package manager" ++ LF) ++
  "```" ++ LF ++ LF.

Definition readmeUsage (repository : Repository) (repoName : option string) : Result string :=
  bind
    (if (languageIs repository "JavaScript" || languageIs repository "TypeScript")%bool then
       bind (lowerOf "undefined" repoName) (fun lowerName =>
       Ok ("javascript" ++ LF ++
           "import { " ++ render repoName ++ " } from '" ++ lowerName ++ "';" ++ LF ++ LF ++
           "// Initialize the component" ++ LF ++
           "const " ++ lowerName ++ " = new " ++ render repoName ++ "();" ++ LF ++
           lowerName ++ ".start();" ++ LF))
     else if languageIs repository "Python" then
       bind (lowerOf "undefined" repoName) (fun lowerName =>
       Ok ("python" ++ LF ++
           "from " ++ lowerName ++ " import " ++ render repoName ++ LF ++ LF ++
           "# Initialize the component" ++ LF ++
           lowerName ++ " = " ++ render repoName ++ "()" ++ LF ++
           lowerName ++ ".start()" ++ LF))
     else if languageIs repository "Java" then
       bind (lowerOf "undefined" repoName) (fun lowerName =>
       Ok ("java" ++ LF ++
           "import com.example." ++ render repoName ++ ";" ++ LF ++ LF ++
           "// Initialize the component" ++ LF ++
           render repoName ++ " " ++ lowerName ++ " = new " ++ render repoName ++ "();" ++ LF ++
           lowerName ++ ".start();" ++ LF))
     else
       Ok (LF ++ "// Example usage code for " ++ render repoName ++ LF))
    (fun example =>
       Ok ("## Usage" ++ LF ++ LF ++ "```" ++ example ++ "```" ++ LF ++ LF)).

Definition readmeContributing : string :=
  "## Contributing" ++ LF ++ LF ++
  "Contributions are welcome! Please feel free to submit a Pull Request." ++ LF ++ LF ++
  "1. Fork the repository" ++ LF ++
  "2. Create your feature branch (`git checkout -b feature/amazing-feature`)" ++ LF ++
  "3. Commit your changes (`git commit -m 'Add some amazing feature'`)" ++ LF ++
  "4. Push to the branch (`git push origin feature/amazing-feature`)" ++ LF ++
  "5. Open a Pull Request" ++ LF ++ LF.

Definition readmeLicense : string :=
  "## License" ++ LF ++ LF ++
  "This project is licensed under the MIT License - see the LICENSE file for details." ++ LF ++ LF.

(** The body of the [forEach] over the custom sections. *)
Definition readmeCustom (section : CustomSection) : string :=
  if (negb (String.eqb (title section) "") && negb (String.eqb (content section) ""))%bool then
    "## " ++ title section ++ LF ++ LF ++
    content section ++ LF ++ LF
  else "".

Definition readmeFooter (today : string) : string :=
  "---" ++ LF ++ LF ++
  "Generated by GitHub Repository Analyzer on " ++ today ++ LF.

(** [today] is [new Date().toLocaleDateString()].  The text is built from
    top to bottom, so the first failing expression decides the exception. *)
Definition generateReadmeContent (today : string) (repository : Repository)
    (options : ReadmeOptions) : Result string :=
  let repoName := nth_error (split "/" (fullName repository)) 1 in
  bind (lowerOf "null" (description repository)) (fun lowerDescription =>
  bind (if orDefault true (includeUsage options)
        then readmeUsage repository repoName else Ok "") (fun usage =>
  Ok (readmeHead repository repoName lowerDescription ++
      (if orDefault true (includeInstallation options)
       then readmeInstallation repository repoName else "") ++
      usage ++
      (if orDefault true (includeContributing options) then readmeContributing else "") ++
      (if orDefault true (includeLicense options) then readmeLicense else "") ++
      appendAll (map readmeCustom (orDefault [] (customSections options))) ++
      readmeFooter today))).

(** [POST /api/readme/:id]; [options] is [req.body || {}]. *)
Definition readme (env : Env) (id : string) (options : ReadmeOptions)
    (server : Server) : Response :=
  match MemStorage.getRepository (repositories server) id with
  | None => {| statusCode := 404; json := JMessage "Repository not found" |}
  | Some repository =>
      match generateReadmeContent (today env) repository options with
      | Ok readmeContent => {| statusCode := 200; json := JReadme readmeContent "README.md" |}
      | Throw _ => {| statusCode := 500; json := JMessage "Failed to generate README" |}
      end
  end.

(** The options with another list of custom sections. *)
Definition withCustomSections (options : ReadmeOptions) (sections : list CustomSection)
  : ReadmeOptions :=
  {| includeInstallation := includeInstallation options;
     includeUsage := includeUsage options;
     includeContributing := includeContributing options;
     includeLicense := includeLicense options;
     customSections := Some sections |}.


(** ** Whole-repository analysis ([POST /api/analyze-repository-code]) *)

(** The completion provider with the configured credential. *)
Record Completion : Type :=
  { apiKey : option string;
    post : OpenRouter.Request -> OpenRouter.PostOutcome }.

(** The listing sent with the prompt: trees and blobs, one per line. *)
Definition directoryListing (tree : list GitHub.TreeItem) : string :=
  String.concat LF
    (map (fun item =>
            (match GitHub.type item with GitHub.tree => "directory" | _ => "file" end)
            ++ ": " ++ GitHub.path item)
         (filter (fun item =>
                    match GitHub.type item with
                    | GitHub.tree | GitHub.blob => true
                    | GitHub.commit => false
                    end)
                 tree)).

Definition importantFileExtensions : list string :=
  [".js"; ".ts"; ".jsx"; ".tsx"; ".py"; ".java"; ".php"; ".go"; ".rb"; ".c"; ".cpp"].

(** [path.match(/\.(min|bundle|compiled)\./i)] finds something: a dot, one of
    the three words in any case, a dot.  (Under the [i] flag a letter of these
    words is matched by its two ASCII forms only.) *)
Definition matchesBuildOutput (path : string) : bool :=
  let lowered := toLowerCase path in
  (includes lowered ".min." || includes lowered ".bundle." || includes lowered ".compiled.")%bool.

(** The predicate of the [filter] that selects the files to sample. *)
Definition isCodeFile (item : GitHub.TreeItem) : bool :=
  (match GitHub.type item with GitHub.blob => true | _ => false end
   && existsb (fun ext => endsWith (GitHub.path item) ext) importantFileExtensions
   && negb (includes (GitHub.path item) "node_modules/")
   && negb (includes (GitHub.path item) "vendor/")
   && negb (matchesBuildOutput (GitHub.path item)))%bool.

Definition codeFilesOf (tree : list GitHub.TreeItem) : list GitHub.TreeItem :=
  firstn 5 (filter isCodeFile tree).

(** [content.slice(0, 1000)] followed by the mark of a cut. *)
Definition excerpt (content : string) : string :=
  slice0 1000 content ++ (if (1000 <? String.length content)%nat then "..." else "").

Definition sampleBlock (path content : string) : string :=
  LF ++ "File: " ++ path ++ LF ++ "```" ++ LF ++ excerpt content ++ LF ++ "```" ++ LF.

(** The loop over the selected files: a request that fails, or a reply
    without content to decode, is caught inside the loop and the file is
    passed over. *)
Definition sampleCodeOf (api : GitHub.Api) (owner repo : string)
    (codeFiles : list GitHub.TreeItem) : string :=
  fold_left
    (fun sampleCode file =>
       match GitHub.getContents api
               (repoUrl owner repo ++ "/contents/" ++ GitHub.path file) with
       | Resolved (Some content) => sampleCode ++ sampleBlock (GitHub.path file) content
       | _ => sampleCode
       end)
    codeFiles "".

(** [bodySchema.parse(req.body)]: [repositoryId] is the member of the body,
    when it is a string. *)
Definition parseRepositoryId (repositoryId : option string) : Result string :=
  match repositoryId with
  | None => Throw (ZodError "Required")
  | Some id =>
      if String.eqb id "" then Throw (ZodError "Repository ID is required") else Ok id
  end.

Definition analyzeRepositoryCode (api : GitHub.Api) (llm : Completion)
    (body : option string) (server : Server) : Response :=
  let outcome :=
    bind (parseRepositoryId body) (fun repositoryId =>
    match MemStorage.getRepository (repositories server) repositoryId with
    | None => Ok {| statusCode := 404; json := JMessage "Repository not found" |}
    | Some repository =>
        let parts := split "/" (fullName repository) in
        let owner := render (nth_error parts 0) in
        let repo := render (nth_error parts 1) in
        bind (await (GitHub.getTree api
                       (repoUrl owner repo ++ "/git/trees/HEAD?recursive=1"))) (fun tree =>
        let dirStructure := directoryListing tree in
        let codeFiles := codeFilesOf tree in
        let sampleCode := sampleCodeOf api owner repo codeFiles in
        bind (OpenRouter.analyzeCode (apiKey llm) (post llm)
                dirStructure sampleCode "entire repository") (fun analysis =>
        Ok {| statusCode := 200; json := JAnalysis (fullName repository) analysis |}))
    end) in
  match outcome with
  | Ok response => response
  | Throw e => respondTo "Failed to analyze repository" e
  end.

(** ** Searching a document for a heading *)













(** The sum of the byte counts of a language map. *)
Fixpoint bytesSum (languagesData : list (string * Z)) : Z :=
  match languagesData with
  | [] => 0
  | entry :: rest => snd entry + bytesSum rest
  end.

(** The host of an absolute address: what stands between the double slash
    and the next slash. *)
Definition hostOf (url : string) : option string := item (split "/" url) 2.

(** ** A small world on which the definitions are run *)

Module Sample.

(** Stands for the URL format test on the addresses used below. *)
Definition isUrl (s : string) : bool := (prefix "https://" s || prefix "http://" s)%bool.

Definition env : Env :=
  {| now := 1762041600000;
     random := fun _ => (1 # 2)%Q;
     getMonth := fun t => Z.to_nat ((t / 2629746000) mod 12);
     daysBefore := fun t n => t - n * 86400000;
     getTime := fun _ => 1761955200000;
     toLongDate := fun s => s;
     today := "11/2/2026" |}.

(** The same surroundings at a later request: the random generator answers
    otherwise. *)
Definition later : Env :=
  {| now := 1762045200000;
     random := fun _ => (1 # 10)%Q;
     getMonth := fun t => Z.to_nat ((t / 2629746000) mod 12);
     daysBefore := fun t n => t - n * 86400000;
     getTime := fun _ => 1761955200000;
     toLongDate := fun s => s;
     today := "11/2/2026" |}.

Definition helloWorld : GitHub.RepoInfo :=
  {| GitHub.id := 1296269;
     GitHub.full_name := "octocat/Hello-World";
     GitHub.description := Some "My first repository on GitHub!";
     GitHub.language := None;
     GitHub.avatar_url := "https://avatars.githubusercontent.com/u/583231?v=4";
     GitHub.stargazers_count := 2500;
     GitHub.forks_count := 1400;
     GitHub.open_issues_count := 999;
     GitHub.languages_url := "https://api.github.com/repos/octocat/Hello-World/languages";
     GitHub.created_at := "2011-01-26T19:01:12Z";
     GitHub.updated_at := "2025-11-01T00:00:00Z" |}.

Definition notFound {A : Type} : Reply A :=
  Rejected (Some {| status := 404; dataMessage := Some "Not Found"; dataError := None |})
           "Request failed with status code 404".

Definition files : list GitHub.TreeItem :=
  [ {| GitHub.path := "src"; GitHub.type := GitHub.tree |};
    {| GitHub.path := "src/index.ts"; GitHub.type := GitHub.blob |};
    {| GitHub.path := "node_modules/left-pad/index.js"; GitHub.type := GitHub.blob |};
    {| GitHub.path := "vendor/lib.php"; GitHub.type := GitHub.blob |};
    {| GitHub.path := "dist/app.MIN.js"; GitHub.type := GitHub.blob |};
    {| GitHub.path := "README.md"; GitHub.type := GitHub.blob |};
    {| GitHub.path := "src/a.py"; GitHub.type := GitHub.blob |};
    {| GitHub.path := "src/b.go"; GitHub.type := GitHub.blob |};
    {| GitHub.path := "src/c.rb"; GitHub.type := GitHub.blob |};
    {| GitHub.path := "src/d.c"; GitHub.type := GitHub.blob |};
    {| GitHub.path := "src/e.cpp"; GitHub.type := GitHub.blob |} ].

(** The provider matches owner and name without regard to case and answers
    with the name in its own spelling; here it knows one repository, with
    [commits] as its commit activity; the request for one of its files
    fails and another file comes without content. *)
Definition api (commits : GitHub.CommitData) : GitHub.Api :=
  {| GitHub.getRepo := fun url =>
       if String.eqb (toLowerCase url) "https://api.github.com/repos/octocat/hello-world"
       then Resolved helloWorld else notFound;
     GitHub.getLanguages := fun url =>
       if String.eqb (toLowerCase url) "https://api.github.com/repos/octocat/hello-world/languages"
       then Resolved [("Ruby", 300); ("Shell", 100)] else notFound;
     GitHub.getCommitActivity := fun url =>
       if String.eqb (toLowerCase url)
            "https://api.github.com/repos/octocat/hello-world/stats/commit_activity"
       then Resolved commits else notFound;
     GitHub.getTree := fun url =>
       if String.eqb url "https://api.github.com/repos/octocat/Hello-World/git/trees/HEAD?recursive=1"
       then Resolved files else notFound;
     GitHub.getContents := fun url =>
       if String.eqb url "https://api.github.com/repos/octocat/Hello-World/contents/src/a.py"
       then notFound
       else if String.eqb url "https://api.github.com/repos/octocat/Hello-World/contents/src/d.c"
       then Resolved None
       else Resolved (Some "print(1)") |}.

Definition server : Server := {| repositories := MemStorage.empty; requests := 0 |}.

(** A record that ingestion never produces: no description, and a name
    without a second segment. *)
Definition bare (description : option string) (language : option string) : Repository :=
  {| id := "1";
     fullName := "solo";
     description := description;
     ownerAvatar := "";
     stars := "0";
     forks := "0";
     openIssues := "0";
     language := language;
     createdAt := "January 26, 2011";
     lastUpdated := "just now";
     codeQuality := 70;
     codeCoverage := 60;
     commitFrequency := "0/week";
     activeContributors := 10;
     languages := [];
     commitActivity := [];
     complexFiles := [];
     dependencies := mockDependencies |}.

Definition helloRecord : Repository :=
  {| id := "1296269";
     fullName := "octocat/Hello-World";
     description := Some "My first repository on GitHub!";
     ownerAvatar := "https://avatars.githubusercontent.com/u/583231?v=4";
     stars := "2.5k";
     forks := "1.4k";
     openIssues := "999";
     language := Some "C#";
     createdAt := "January 26, 2011";
     lastUpdated := "1 day ago";
     codeQuality := 82;
     codeCoverage := 75;
     commitFrequency := "0/week";
     activeContributors := 255;
     languages := languagesOf [("C#", 300); ("Shell", 100)];
     commitActivity := [];
     complexFiles := complexFilesOf "Hello-World";
     dependencies := mockDependencies |}.

(** A server that has ingested the record, and a completion provider that
    answers. *)
Definition stocked : Server :=
  {| repositories := MemStorage.set "1296269" helloRecord MemStorage.empty;
     requests := 3 |}.

Definition llm : Completion :=
  {| apiKey := Some "sk-or-1";
     post := fun _ => Resolved {| OpenRouter.choices := Some ["## SUMMARY"] |} |}.

Definition options (installation : option bool) (sections : list CustomSection)
  : ReadmeOptions :=
  {| includeInstallation := installation;
     includeUsage := None;
     includeContributing := None;
     includeLicense := None;
     customSections := Some sections |}.

End Sample.

(** ** The user table ([MemStorage], storage.ts) *)

Module MemUsers.

(** What [createUser] receives, and what it stores: the members of the
    argument, and the identifier. *)
Record InsertUser : Type := { username : string; password : string }.

Record User : Type := { id : Z; insertUser : InsertUser }.

(** The [users] map, in insertion order, and the [currentId] counter. *)
Record t : Type := { users : list (Z * User); currentId : Z }.

(** [new MemStorage()]. *)
Definition empty : t := {| users := []; currentId := 1 |}.

Fixpoint set (key : Z) (value : User) (m : list (Z * User)) : list (Z * User) :=
  match m with
  | [] => [(key, value)]
  | (k, v) :: m' =>
      if k =? key then (key, value) :: m' else (k, v) :: set key value m'
  end.

Fixpoint get (key : Z) (m : list (Z * User)) : option User :=
  match m with
  | [] => None
  | (k, v) :: m' => if k =? key then Some v else get key m'
  end.

Definition getUser (storage : t) (id : Z) : option User :=
  get id (users storage).

Definition getUserByUsername (storage : t) (name : string) : option User :=
  find (fun user => String.eqb (username (insertUser user)) name)
       (map snd (users storage)).

(** [const id = this.currentId++]. *)
Definition createUser (storage : t) (insert : InsertUser) : User * t :=
  let id := currentId storage in
  let user := {| id := id; insertUser := insert |} in
  (user, {| users := set id user (users storage); currentId := currentId storage + 1 |}).

(** The storage after a series of registrations. *)
Definition createAll (inserts : list InsertUser) (storage : t) : t :=
  fold_left (fun s insert => snd (createUser s insert)) inserts storage.

End MemUsers.

(** The entries that a series of registrations adds, the first of them
    under the identifier [start]. *)
Fixpoint numbered (start : Z) (inserts : list MemUsers.InsertUser)
  : list (Z * MemUsers.User) :=
  match inserts with
  | [] => []
  | insert :: rest =>
      (start, {| MemUsers.id := start; MemUsers.insertUser := insert |})
        :: numbered (start + 1) rest
  end.

(** Every key of the user table is an identifier handed out before. *)
Definition handedOut (storage : MemUsers.t) : Prop :=
  Forall (fun entry => fst entry < MemUsers.currentId storage) (MemUsers.users storage).

(** A record table in which every record stands under its own identifier,
    and no identifier stands twice. *)
Definition keyed (m : MemStorage.t) : Prop :=
  Forall (fun entry => fst entry = id (snd entry)) m /\ NoDup (map fst m).

(** The record tables that [createRepository] builds from the empty one. *)
Definition createdFrom (repos : list Repository) : MemStorage.t :=
  fold_left (fun m repo => snd (MemStorage.createRepository m repo)) repos MemStorage.empty.

(** A record as ingestion writes it: its description and its primary language
    are texts, and not empty ones. *)
Definition described (repository : Repository) : Prop :=
  (exists d, description repository = Some d /\ d <> "")
  /\ (exists l, language repository = Some l /\ l <> "").

(** A server whose table is keyed and holds such records only. *)
Definition ingested (server : Server) : Prop :=
  keyed (repositories server)
  /\ Forall described (MemStorage.values (repositories server)).

(** ** Single-file analysis ([POST /api/analyze-file], routes.ts) *)

(** [bodySchema.parse(req.body)]: the members are checked in the order of the
    schema, and the first complaint is the one reported. *)
Definition parseAnalyzeFileBody (repositoryId filePath : option string)
  : Result (string * string) :=
  match repositoryId with
  | None => Throw (ZodError "Required")
  | Some id =>
      if String.eqb id "" then Throw (ZodError "Repository ID is required")
      else
        match filePath with
        | None => Throw (ZodError "Required")
        | Some path =>
            if String.eqb path "" then Throw (ZodError "File path is required")
            else Ok (id, path)
        end
  end.

(** [filePath.split('/').pop() || filePath]. *)
Definition fileNameOf (filePath : string) : string :=
  let name := last (split "/" filePath) "" in
  if String.eqb name "" then filePath else name.

(** [Buffer.from(content, 'base64')] on the [content] member of the reply. *)
Definition decode (content : option string) : Result string :=
  match content with
  | Some text => Ok text
  | None =>
      Throw (TypeError "The first argument must be of type string or an instance of Buffer, ArrayBuffer, or Array or an Array-like Object. Received undefined")
  end.

(** The two addresses requested for a file of a stored repository;
    [[owner, repo] = repository.fullName.split('/')]. *)
Definition fileContentUrl (fullName filePath : string) : string :=
  let parts := split "/" fullName in
  repoUrl (render (nth_error parts 0)) (render (nth_error parts 1))
  ++ "/contents/" ++ filePath.

Definition dirStructureUrl (fullName : string) : string :=
  let parts := split "/" fullName in
  repoUrl (render (nth_error parts 0)) (render (nth_error parts 1))
  ++ "/git/trees/HEAD?recursive=1".

(** The code part of the prompt: the whole file between two fences. *)
Definition codeContentOf (filePath fileContent : string) : string :=
  "File: " ++ filePath ++ LF ++ LF ++ "```" ++ LF ++ fileContent ++ LF ++ "```".

(** [POST /api/analyze-file]. *)
Definition analyzeFile (api : GitHub.Api) (llm : Completion)
    (bodyId bodyPath : option string) (server : Server) : Response :=
  let outcome :=
    bind (parseAnalyzeFileBody bodyId bodyPath) (fun parsed =>
    let repositoryId := fst parsed in
    let filePath := snd parsed in
    match MemStorage.getRepository (repositories server) repositoryId with
    | None => Ok {| statusCode := 404; json := JMessage "Repository not found" |}
    | Some repository =>
        bind (await (GitHub.getContents api
                       (fileContentUrl (fullName repository) filePath))) (fun fileData =>
        bind (await (GitHub.getTree api
                       (dirStructureUrl (fullName repository)))) (fun tree =>
        bind (decode fileData) (fun fileContent =>
        let dirStructure := directoryListing tree in
        let codeContent := codeContentOf filePath fileContent in
        bind (OpenRouter.analyzeCode (apiKey llm) (post llm)
                dirStructure codeContent filePath) (fun analysis =>
        Ok {| statusCode := 200; json := JAnalysis (fileNameOf filePath) analysis |}))))
    end) in
  match outcome with
  | Ok response => response
  | Throw e => respondTo "Failed to analyze file" e
  end.

(** The request that [analyzeCode] sends. *)
Definition completionRequest (apiKey directoryStructure codeContent filePath : string)
  : OpenRouter.Request :=
  {| OpenRouter.url := "https://openrouter.ai/api/v1/chat/completions";
     OpenRouter.model := "anthropic/claude-3-haiku";
     OpenRouter.messages :=
       [ {| OpenRouter.role := "system"; OpenRouter.content := OpenRouter.systemPrompt |};
         {| OpenRouter.role := "user";
            OpenRouter.content :=
              OpenRouter.userPrompt directoryStructure codeContent filePath |} ];
     OpenRouter.authorization := "Bearer " ++ apiKey |}.

(** ** The client: the address form ([formSchema], repository-input.tsx) *)

Module RepositoryInput.

(** [formSchema.parse({ repoUrl })]: the value, or the message of the first
    issue. *)
Definition formSchema (repoUrl : string) : Result string :=
  if (String.length repoUrl <? 1)%nat then Throw (ZodError "Repository URL is required")
  else if negb (includes repoUrl "github.com/")
  then Throw (ZodError "Please enter a valid GitHub repository URL")
  else Ok repoUrl.

End RepositoryInput.

(** ** The client: the file explorer (file-explorer.tsx) *)

Module FileExplorer.

Inductive FileType : Type := file | dir.

Record GitHubFile : Type := { name : string; path : string; type : FileType }.

(** The state of the component that the handlers below write; [fetched] is
    the list of the paths handed to [fetchFilesMutation.mutate], the latest
    first. *)
Record State : Type :=
  { currentPath : string;
    breadcrumbs : list string;
    selectedFile : option string;
    analysisResult : option (string * string);
    fetched : list string }.

Definition initial : State :=
  {| currentPath := ""; breadcrumbs := []; selectedFile := None;
     analysisResult := None; fetched := [] |}.

Definition loadFiles (path : string) (s : State) : State :=
  {| selectedFile := None;
     analysisResult := None;
     breadcrumbs := if String.eqb path "" then [] else split "/" path;
     currentPath := path;
     fetched := path :: fetched s |}.

(** [l.slice(0, fin)]: a negative [fin] counts from the end. *)
Definition slice {A : Type} (fin : Z) (l : list A) : list A :=
  let len := Z.of_nat (length l) in
  firstn (Z.to_nat (if fin <? 0 then Z.max (len + fin) 0 else Z.min fin len)) l.

Definition handleFileClick (clicked : GitHubFile) (s : State) : State :=
  match type clicked with
  | dir => loadFiles (path clicked) s
  | file =>
      {| selectedFile := Some (path clicked);
         analysisResult := None;
         breadcrumbs := breadcrumbs s;
         currentPath := currentPath s;
         fetched := fetched s |}
  end.

Definition handleBreadcrumbClick (index : Z) (s : State) : State :=
  if index =? -1 then loadFiles "" s
  else loadFiles (String.concat "/" (slice (index + 1) (breadcrumbs s))) s.

(** [handleAnalyzeRepositoryClick], up to the request that it starts. *)
Definition handleAnalyzeRepositoryClick (s : State) : State :=
  {| selectedFile := selectedFile s;
     analysisResult := None;
     breadcrumbs := breadcrumbs s;
     currentPath := currentPath s;
     fetched := fetched s |}.

(** [handleExploreClick]. *)
Definition handleExploreClick (s : State) : State := loadFiles "" s.

(** What the user can do in the explorer, and a session: the clicks handled
    one after the other from the initial state. *)
Inductive Click : Type :=
| Explore
| OnFile (clicked : GitHubFile)
| OnBreadcrumb (index : Z)
| AnalyzeRepository.

Definition handle (s : State) (click : Click) : State :=
  match click with
  | Explore => handleExploreClick s
  | OnFile clicked => handleFileClick clicked s
  | OnBreadcrumb index => handleBreadcrumbClick index s
  | AnalyzeRepository => handleAnalyzeRepositoryClick s
  end.

Definition session (clicks : list Click) : State := fold_left handle clicks initial.

End FileExplorer.

(** ** The client: the commit chart (commit-chart.tsx) *)

Module CommitChart.

(** A bar: the percentage of its [height] and the last component of its
    [rgba] colour. *)
Record Bar : Type := { height : Q; alpha : Q }.

Inductive View : Type :=
| NoData
| Chart (bars : list Bar) (labels : list (option string)).

(** [list.map((activity, index) => ...)], from [index] on. *)
Fixpoint barsFrom (index : Z) (maxCommitCount : Z) (commitActivity : list CommitActivity)
  : list Bar :=
  match commitActivity with
  | [] => []
  | activity :: rest =>
      let heightPercentage :=
        (inject_Z (count activity)
         / inject_Z (if maxCommitCount =? 0 then 1 else maxCommitCount) * 100)%Q in
      {| height := if Qeq_bool heightPercentage 0 then 5 else heightPercentage;
         alpha := (1 # 2) + inject_Z index * (7 # 100) |}
      :: barsFrom (index + 1) maxCommitCount rest
  end.

Definition commitChart (commitActivity : list CommitActivity) : View :=
  match commitActivity with
  | [] => NoData
  | first :: rest =>
      let maxCommitCount := fold_left Z.max (map count rest) (count first) in
      Chart (barsFrom 0 maxCommitCount commitActivity) (map month commitActivity)
  end.

End CommitChart.

(** ** The client: the options of the generator (readme-generator.tsx) *)

Module ReadmeGenerator.

(** The four keys that the check boxes toggle. *)
Inductive Key : Type := installation | usage | contributing | license.

Definition sameKey (a b : Key) : bool :=
  match a, b with
  | installation, installation | usage, usage
  | contributing, contributing | license, license => true
  | _, _ => false
  end.

(** The initial state of [options]. *)
Definition initial : ReadmeOptions :=
  {| includeInstallation := Some true;
     includeUsage := Some true;
     includeContributing := Some true;
     includeLicense := Some true;
     customSections := None |}.

(** [!prev[option]] for a member that may be missing. *)
Definition flip (member : option bool) : option bool :=
  Some (negb (orDefault false member)).

(** [{ ...prev, [option]: !prev[option] }]. *)
Definition toggleOption (option : Key) (prev : ReadmeOptions) : ReadmeOptions :=
  {| includeInstallation :=
       if sameKey option installation then flip (includeInstallation prev)
       else includeInstallation prev;
     includeUsage :=
       if sameKey option usage then flip (includeUsage prev) else includeUsage prev;
     includeContributing :=
       if sameKey option contributing then flip (includeContributing prev)
       else includeContributing prev;
     includeLicense :=
       if sameKey option license then flip (includeLicense prev) else includeLicense prev;
     customSections := customSections prev |}.

(** The options after a sequence of clicks on the check boxes. *)
Definition afterClicks (clicks : list Key) : ReadmeOptions :=
  fold_left (fun prev option => toggleOption option prev) clicks initial.

Definition clicksOn (key : Key) (clicks : list Key) : nat :=
  length (filter (sameKey key) clicks).

End ReadmeGenerator.

(** ** Sampling, as the specification words it *)

(** A file that qualifies for the sample: a blob with an allow-listed
    extension whose path contains neither [node_modules/] nor [vendor/] nor a
    dot, one of the words min, bundle, compiled in any case, and a dot. *)
Definition qualifies (file : GitHub.TreeItem) : Prop :=
  GitHub.type file = GitHub.blob
  /\ (exists ext stem,
        In ext [".js"; ".ts"; ".jsx"; ".tsx"; ".py"; ".java"; ".php"; ".go"; ".rb"; ".c";
                ".cpp"]
        /\ GitHub.path file = stem ++ ext)
  /\ (forall pre post, GitHub.path file <> pre ++ "node_modules/" ++ post)
  /\ (forall pre post, GitHub.path file <> pre ++ "vendor/" ++ post)
  /\ (forall pre word post,
        In (toLowerCase word) ["min"; "bundle"; "compiled"] ->
        GitHub.path file <> pre ++ "." ++ word ++ "." ++ post).

(** What is shown of a content: all of it when it has at most 1000
    characters, its first 1000 characters and three dots when it is longer. *)
Definition cutAt1000 (content shown : string) : Prop :=
  ((String.length content <= 1000)%nat -> shown = content)
  /\ ((1000 < String.length content)%nat ->
      exists kept rest,
        content = kept ++ rest /\ String.length kept = 1000%nat /\ shown = kept ++ "...").

(** The part of the sample that a selected file accounts for: a fenced block
    under the path of the file, with its content cut, when the request for
    the file at the provider was answered with a content; nothing
    otherwise. *)
Definition sampled (api : GitHub.Api) (owner repo : string) (file : GitHub.TreeItem)
    (block : string) : Prop :=
  match GitHub.getContents api
          ("https://api.github.com/repos/" ++ owner ++ "/" ++ repo ++ "/contents/"
           ++ GitHub.path file) with
  | Resolved (Some content) =>
      exists shown,
        cutAt1000 content shown
        /\ block = LF ++ "File: " ++ GitHub.path file ++ LF ++ "```" ++ LF
                   ++ shown ++ LF ++ "```" ++ LF
  | _ => block = ""
  end.

(** ** Ingestions one after the other *)

(** One request to [POST /api/analyze]: the clock and the provider as they
    are when the request is handled, and the address submitted. *)
Record Ingestion : Type :=
  { clock : Env; upstream : GitHub.Api; address : string }.

(** The requests of a list handled in order, with their answers. *)
Fixpoint analyzeAll (isUrl : string -> bool) (ingestions : list Ingestion) (server : Server)
  : list Response * Server :=
  match ingestions with
  | [] => ([], server)
  | ingestion :: rest =>
      let (response, server') :=
        analyze isUrl (clock ingestion) (upstream ingestion) (address ingestion) server in
      let (responses, server'') := analyzeAll isUrl rest server' in
      (response :: responses, server'')
  end.

(** An answer that leaves the record [r] alone: it carries no record, or it
    carries [r], or it carries a record with another identifier and another
    full name. *)
Definition sparing (r : Repository) (response : Response) : Prop :=
  forall r', json response = JRepository r' ->
             r' = r \/ (id r' <> id r /\ fullName r' <> fullName r).

(** * Properties *)

Section Strings.

Lemma append_assoc (a b c : string) : (a ++ b) ++ c = a ++ (b ++ c).
Proof.
  induction a as [|x a IH]; cbn; [reflexivity|now rewrite IH].
Qed.

Lemma append_nil_r (a : string) : a ++ "" = a.
Proof.
  induction a as [|x a IH]; cbn; [reflexivity|now rewrite IH].
Qed.

Lemma length_append (a b : string) :
  String.length (a ++ b) = (String.length a + String.length b)%nat.
Proof.
  induction a as [|x a IH]; cbn; [reflexivity|now rewrite IH].
Qed.

Lemma Ok_injective {A : Type} (a b : A) : Ok a = Ok b -> a = b.
Proof.
  intros H. now inversion H.
Qed.

End Strings.

Section RelativeTime.

Lemma plural_mark (n : Z) : 1 <= n -> (if n >? 1 then "s" else "") = (if n =? 1 then "" else "s").
Proof.
  intros Hn.
  destruct (Z.gtb_spec n 1), (Z.eqb_spec n 1); auto; lia.
Qed.

Lemma ago_source (n : Z) (unit : string) :
  1 <= n ->
  showZ n ++ " " ++ unit ++ (if n >? 1 then "s" else "") ++ " ago" = ago n unit.
Proof.
  intros Hn. unfold ago. now rewrite plural_mark.
Qed.

End RelativeTime.

(** C4.  For a non-negative number [s] of elapsed seconds the relative-time
    function answers "just now" below a minute, then counts whole minutes
    (below an hour), hours (below a day), days (below thirty days), months of
    thirty days (below twelve months) and years of twelve months, with the
    plural mark exactly when the count differs from one; the five boundary
    values of the specification come out as stated. *)
Theorem C4_relative_time :
  (forall now date s : Z,
      0 <= s -> (now - date) / 1000 = s ->
      getRelativeTimeString now date = relative_time_spec s)
  /\ getRelativeTimeString 59000 0 = "just now"
  /\ getRelativeTimeString 60000 0 = "1 minute ago"
  /\ getRelativeTimeString 3599000 0 = "59 minutes ago"
  /\ getRelativeTimeString 3600000 0 = "1 hour ago"
  /\ getRelativeTimeString 86399000 0 = "23 hours ago".
Proof.
  split; [| repeat split; reflexivity].
  intros now date s Hs Hd.
  unfold getRelativeTimeString, relative_time_spec. rewrite Hd. clear Hd now date.
  cbv zeta.
  replace (s / 60 / 60 / 24) with (s / 86400)
    by (rewrite !Z.div_div by lia; reflexivity).
  replace (s / 60 / 60) with (s / 3600)
    by (rewrite !Z.div_div by lia; reflexivity).
  change (30 * 86400) with 2592000.
  destruct (Z.ltb_spec s 60) as [|H60]; [reflexivity|].
  destruct (Z.ltb_spec (s / 60) 60) as [Hm|Hm], (Z.ltb_spec s 3600) as [Hm'|Hm'];
    try (exfalso; Z.to_euclidean_division_equations; lia).
  { change (" minute" ++ ?x) with (" " ++ "minute" ++ x).
    apply (ago_source (s / 60) "minute"). Z.to_euclidean_division_equations; lia. }
  destruct (Z.ltb_spec (s / 3600) 24) as [Hh|Hh], (Z.ltb_spec s 86400) as [Hh'|Hh'];
    try (exfalso; Z.to_euclidean_division_equations; lia).
  { apply (ago_source (s / 3600) "hour"). Z.to_euclidean_division_equations; lia. }
  destruct (Z.ltb_spec (s / 86400) 30) as [Hd|Hd], (Z.ltb_spec s 2592000) as [Hd'|Hd'];
    try (exfalso; Z.to_euclidean_division_equations; lia).
  { apply (ago_source (s / 86400) "day"). Z.to_euclidean_division_equations; lia. }
  destruct (Z.ltb_spec (s / 86400 / 30) 12) as [Hy|Hy].
  { apply (ago_source (s / 86400 / 30) "month"). Z.to_euclidean_division_equations; lia. }
  apply (ago_source (s / 86400 / 30 / 12) "year"). Z.to_euclidean_division_equations; lia.
Qed.

Lemma C4_relative_time_witness :
  getRelativeTimeString 7200000 0 = relative_time_spec 7200.
Proof.
  apply (proj1 C4_relative_time 7200000 0 7200); [lia | reflexivity].
Defined.

(** ** The completion provider *)

(** C2.  When the completion provider answers with an empty list of choices,
    [analyzeCode] raises "No response from OpenRouter API" inside its own
    [try] block; the enclosing [catch] replaces it, so the caller receives the
    same error as for a request that never completed, and nothing that tells
    the two apart. *)
Theorem C2_empty_choices_error (key dir code path message : string) :
  key <> "" ->
  let empty := fun _ : OpenRouter.Request =>
                 Resolved {| OpenRouter.choices := Some [] |} in
  let down := fun _ : OpenRouter.Request => Rejected None message in
  OpenRouter.analyzeCode (Some key) empty dir code path
    = Throw (Error "Failed to analyze code with OpenRouter")
  /\ OpenRouter.analyzeCode (Some key) empty dir code path
    = OpenRouter.analyzeCode (Some key) down dir code path
  /\ OpenRouter.analyzeCode (Some key) empty dir code path
    <> Throw (Error "No response from OpenRouter API").
Proof.
  intros Hkey empty down.
  unfold OpenRouter.analyzeCode, truthy.
  destruct (String.eqb_spec key "") as [->|_]; [contradiction|].
  cbn. repeat split. discriminate.
Qed.

Lemma C2_empty_choices_error_witness :
  OpenRouter.analyzeCode (Some "sk-or-1")
      (fun _ => Resolved {| OpenRouter.choices := Some [] |})
      "file: a.ts" "File: a.ts" "a.ts"
    = Throw (Error "Failed to analyze code with OpenRouter").
Proof.
  apply (C2_empty_choices_error "sk-or-1" "file: a.ts" "File: a.ts" "a.ts" "timeout").
  discriminate.
Defined.

(** ** Ingestion *)

Section Ingestion.

Lemma lastN_length {A : Type} (n : nat) (l : list A) :
  length (lastN n l) = Nat.min (length l) n.
Proof.
  unfold lastN. rewrite length_skipn. lia.
Qed.

(** A successful ingestion has received the three replies. *)
Lemma fetchRepositoryData_ok env api owner repo n r n' :
  fetchRepositoryData env api owner repo n = (Ok r, n') ->
  exists repoInfo languagesData data,
    GitHub.getRepo api (repoUrl owner repo) = Resolved repoInfo
    /\ GitHub.getLanguages api (GitHub.languages_url repoInfo) = Resolved languagesData
    /\ GitHub.getCommitActivity api (repoUrl owner repo ++ "/stats/commit_activity")
       = Resolved data
    /\ fullName r = GitHub.full_name repoInfo
    /\ languages r = languagesOf languagesData
    /\ commitActivity r = commitActivityOf env (commitDataOf data)
    /\ n' = (n + 3)%nat.
Proof.
  unfold fetchRepositoryData, andThen, request, ret.
  destruct (GitHub.getRepo api _) as [repoInfo|] eqn:E1; cbn; [|discriminate].
  destruct (GitHub.getLanguages api _) as [languagesData|] eqn:E2; cbn; [|discriminate].
  destruct (GitHub.getCommitActivity api _) as [data|] eqn:E3; cbn; [|discriminate].
  intros H. inversion H; subst; clear H. cbn.
  exists repoInfo, languagesData, data. repeat split; auto. lia.
Qed.

End Ingestion.

(** C1 (as amended).  The commit activity of an ingested record never has
    more than 7 entries.  When the provider answers with an array of weekly
    buckets, the record has one entry for each of the last 7 of them, in
    order and with the week's total as count, hence fewer than 7 entries for
    a shorter array; when the body is missing the list is empty; when the
    body is not an array, exactly 7 entries are synthesized, all with
    count 0. *)
Theorem C1_commit_activity env api owner repo n r n' :
  fetchRepositoryData env api owner repo n = (Ok r, n') ->
  exists data,
    GitHub.getCommitActivity api (repoUrl owner repo ++ "/stats/commit_activity")
      = Resolved data
    /\ (length (commitActivity r) <= 7)%nat
    /\ match data with
       | GitHub.Weeks weeks =>
           length (commitActivity r) = Nat.min (length weeks) 7
           /\ map count (commitActivity r) = map GitHub.total (lastN 7 weeks)
       | GitHub.Missing => commitActivity r = []
       | GitHub.NotArray =>
           length (commitActivity r) = 7%nat
           /\ Forall (fun a => count a = 0) (commitActivity r)
       end.
Proof.
  intros H.
  destruct (fetchRepositoryData_ok _ _ _ _ _ _ _ H)
    as (repoInfo & languagesData & data & _ & _ & E & _ & _ & -> & _).
  exists data. split; [exact E|].
  destruct data as [|weeks|]; cbn.
  - split; [lia|reflexivity].
  - rewrite length_map, lastN_length, map_map. cbn.
    split; [lia|]. split; reflexivity.
  - split; [lia|]. split; [reflexivity|]. repeat constructor.
Qed.

Lemma C1_commit_activity_witness :
  exists r n',
    fetchRepositoryData Sample.env (Sample.api GitHub.NotArray) "octocat" "Hello-World" 0%nat
      = (Ok r, n')
    /\ length (commitActivity r) = 7%nat.
Proof.
  eexists _, _. split; [reflexivity|].
  destruct (C1_commit_activity Sample.env (Sample.api GitHub.NotArray)
              "octocat" "Hello-World" 0%nat _ _ eq_refl) as (data & E & _ & H).
  vm_compute in E. injection E as <-. exact (proj1 H).
Defined.

(** The claim as first stated (always exactly 7 entries) fails for an empty
    array of weekly buckets: the record then has no commit activity. *)
Lemma C1_counterexample :
  exists r n',
    fetchRepositoryData Sample.env (Sample.api (GitHub.Weeks [])) "octocat" "Hello-World" 0%nat
      = (Ok r, n')
    /\ length (commitActivity r) <> 7%nat.
Proof.
  eexists _, _. split; [reflexivity|]. cbn. discriminate.
Qed.

(** ** Language percentages *)

Section Languages.



Lemma bytesSum_nonneg (l : list (string * Z)) :
  Forall (fun entry => 0 <= snd entry) l -> 0 <= bytesSum l.
Proof.
  induction 1; cbn in *; lia.
Qed.

Lemma bytesSum_zero (l : list (string * Z)) :
  Forall (fun entry => 0 <= snd entry) l -> bytesSum l = 0 ->
  Forall (fun entry => snd entry = 0) l.
Proof.
  induction 1 as [|e l He Hl IH]; cbn in *; intros Hs; constructor.
  - pose proof (bytesSum_nonneg l Hl). lia.
  - apply IH. pose proof (bytesSum_nonneg l Hl). lia.
Qed.




End Languages.



(** ** The cache *)

Section Cache.

Lemma find_after_set (p : Repository -> bool) (key : string) (value : Repository)
    (m : MemStorage.t) :
  find p (MemStorage.values m) = None ->
  p value = true ->
  find p (MemStorage.values (MemStorage.set key value m)) = Some value.
Proof.
  unfold MemStorage.values.
  induction m as [|[k v] m IH]; cbn; intros Hnone Hp.
  - now rewrite Hp.
  - destruct (p v) eqn:Hv; [discriminate|].
    destruct (String.eqb k key); cbn.
    + now rewrite Hp.
    + rewrite Hv. now apply IH.
Qed.

Lemma respondTo_not_repository (failure : string) (e : Exn) (r : Repository) :
  json (respondTo failure e) <> JRepository r.
Proof.
  destruct e as [m|[resp|] m|m|m]; cbn; discriminate.
Qed.

Lemma find_set_same (p : Repository -> bool) (key : string) (r : Repository)
    (m : MemStorage.t) :
  find p (MemStorage.values m) = Some r ->
  p r = true ->
  find p (MemStorage.values (MemStorage.set key r m)) = Some r.
Proof.
  unfold MemStorage.values.
  induction m as [|[k v] m IH]; cbn; intros Hfind Hp; [discriminate|].
  destruct (String.eqb k key); cbn.
  - now rewrite Hp.
  - destruct (p v); [exact Hfind|now apply IH].
Qed.

Lemma find_set_other (p : Repository -> bool) (key : string) (r value : Repository)
    (m : MemStorage.t) :
  Forall (fun entry => fst entry = id (snd entry)) m ->
  find p (MemStorage.values m) = Some r ->
  p value = false ->
  key <> id r ->
  find p (MemStorage.values (MemStorage.set key value m)) = Some r.
Proof.
  unfold MemStorage.values.
  induction 1 as [|[k v] m Hk _ IH]; cbn; intros Hfind Hp Hkey; [discriminate|].
  cbn in Hk. destruct (String.eqb_spec k key) as [E|_]; cbn.
  - rewrite Hp. destruct (p v); [|exact Hfind].
    injection Hfind as ->. congruence.
  - destruct (p v); [exact Hfind|now apply IH].
Qed.

Lemma set_own_key (value : Repository) (m : MemStorage.t) :
  Forall (fun entry => fst entry = id (snd entry)) m ->
  Forall (fun entry => fst entry = id (snd entry)) (MemStorage.set (id value) value m).
Proof.
  induction 1 as [|[k v] m Hk Hm IH]; cbn.
  - now repeat constructor.
  - destruct (String.eqb k (id value)); constructor; cbn; auto.
Qed.

(** An answer from the cache. *)
Lemma answer_from_cache isUrl env api url server owner repo r :
  parseAnalyzeBody isUrl url = Ok url ->
  ownerAndRepo url = (owner, repo) ->
  truthy owner = true -> truthy repo = true ->
  MemStorage.getRepositoryByFullName (repositories server) (render owner ++ "/" ++ render repo)
  = Some r ->
  analyze isUrl env api url server
  = ({| statusCode := 200; json := JRepository r |}, server).
Proof.
  intros Hparse Hsplit Ho Hr Hget. unfold analyze.
  now rewrite Hparse, Hsplit, Ho, Hr, Hget.
Qed.

(** What an ingestion that answers with a record of the submitted owner/name
    pair leaves behind: the record is the one found under its full name. *)
Lemma record_left_behind isUrl env api url server r server1 :
  analyze isUrl env api url server
    = ({| statusCode := 200; json := JRepository r |}, server1) ->
  fullName r = render (fst (ownerAndRepo url)) ++ "/" ++ render (snd (ownerAndRepo url)) ->
  truthy (fst (ownerAndRepo url)) = true
  /\ truthy (snd (ownerAndRepo url)) = true
  /\ MemStorage.getRepositoryByFullName (repositories server1) (fullName r) = Some r
  /\ (Forall (fun entry => fst entry = id (snd entry)) (repositories server) ->
      Forall (fun entry => fst entry = id (snd entry)) (repositories server1)).
Proof.
  intros H1 Hname. unfold analyze in H1.
  destruct (parseAnalyzeBody isUrl url) as [url'|e] eqn:Hp1.
  2:{ apply (f_equal (fun x => json (fst x))) in H1. cbn in H1.
      now apply respondTo_not_repository in H1. }
  assert (url' = url) as ->.
  { unfold parseAnalyzeBody in Hp1.
    destruct (negb (isUrl url)); [discriminate|].
    destruct (negb (includes url "github.com")); [discriminate|]. congruence. }
  destruct (ownerAndRepo url) as [owner repo]. cbn [fst snd] in *.
  destruct (truthy owner); [|discriminate]. destruct (truthy repo); [|discriminate].
  cbn [negb orb] in H1. split; [reflexivity|]. split; [reflexivity|].
  rewrite Hname.
  destruct (MemStorage.getRepositoryByFullName (repositories server) _) as [existing|] eqn:Hget.
  - inversion H1; subst. split; [exact Hget|trivial].
  - destruct (fetchRepositoryData env api _ _ _) as [[repoData|e] n] eqn:Hfetch.
    2:{ apply (f_equal (fun x => json (fst x))) in H1. cbn in H1.
        now apply respondTo_not_repository in H1. }
    cbn in H1. inversion H1; subst; clear H1. cbn [repositories]. split.
    + unfold MemStorage.getRepositoryByFullName in *.
      apply find_after_set; [exact Hget|]. rewrite Hname. apply String.eqb_refl.
    + apply set_own_key.
Qed.

(** An ingestion whose answer spares the record keeps it where it is. *)
Lemma record_kept isUrl env api url server response server' r :
  Forall (fun entry => fst entry = id (snd entry)) (repositories server) ->
  MemStorage.getRepositoryByFullName (repositories server) (fullName r) = Some r ->
  analyze isUrl env api url server = (response, server') ->
  sparing r response ->
  Forall (fun entry => fst entry = id (snd entry)) (repositories server')
  /\ MemStorage.getRepositoryByFullName (repositories server') (fullName r) = Some r.
Proof.
  intros Hown Hfound Hstep Hspare. unfold analyze in Hstep.
  destruct (parseAnalyzeBody isUrl url) as [url'|e]; [|inversion Hstep; subst; now split].
  destruct (ownerAndRepo url') as [owner repo].
  destruct (negb (truthy owner) || negb (truthy repo))%bool;
    [inversion Hstep; subst; now split|].
  destruct (MemStorage.getRepositoryByFullName (repositories server) (_ ++ _));
    [inversion Hstep; subst; now split|].
  destruct (fetchRepositoryData env api _ _ _) as [[repoData|e] n];
    [|inversion Hstep; subst; now split].
  cbn in Hstep. inversion Hstep; subst; clear Hstep. cbn [repositories].
  split; [now apply set_own_key|].
  unfold MemStorage.getRepositoryByFullName in *.
  destruct (Hspare repoData eq_refl) as [->|[Hid Hfull]].
  - apply find_set_same; [exact Hfound|apply String.eqb_refl].
  - apply find_set_other; trivial. now apply String.eqb_neq.
Qed.

Lemma record_kept_all isUrl ingestions server responses server' r :
  Forall (fun entry => fst entry = id (snd entry)) (repositories server) ->
  MemStorage.getRepositoryByFullName (repositories server) (fullName r) = Some r ->
  analyzeAll isUrl ingestions server = (responses, server') ->
  Forall (sparing r) responses ->
  MemStorage.getRepositoryByFullName (repositories server') (fullName r) = Some r.
Proof.
  revert server responses. induction ingestions as [|ingestion rest IH];
    intros server responses Hown Hfound Hall Hspare; cbn [analyzeAll] in Hall.
  - inversion Hall; subst. exact Hfound.
  - destruct (analyze isUrl _ _ _ server) as [response server1] eqn:Hstep.
    destruct (analyzeAll isUrl rest server1) as [others server2] eqn:Hrest.
    inversion Hall; subst; clear Hall. inversion Hspare as [|? ? Hfirst Hothers]; subst.
    destruct (record_kept _ _ _ _ _ _ _ _ Hown Hfound Hstep Hfirst) as [Hown1 Hfound1].
    exact (IH _ _ Hown1 Hfound1 Hrest Hothers).
Qed.

End Cache.

(** C3 (as amended).  When an ingestion has answered with a record whose
    [fullName] is the owner/name pair of the submitted address, the next
    ingestion of an address that passes validation and has the same
    owner/name pair answers with the same record and leaves the server as it
    was: the cache is not written and no request is sent to the metadata
    provider, whatever the provider or the clock would have said.  The same
    holds for a later ingestion, after any number of ingestions in between,
    when every record of the cache stood under its own identifier before the
    first ingestion and every answer in between spared the record: it carried no record, or that
    record, or a record with another identifier and another full name. *)
Theorem C3_second_ingest_cached :
  (forall isUrl env1 api1 env2 api2 url1 url2 server r server1,
      analyze isUrl env1 api1 url1 server
        = ({| statusCode := 200; json := JRepository r |}, server1) ->
      fullName r
        = render (fst (ownerAndRepo url1)) ++ "/" ++ render (snd (ownerAndRepo url1)) ->
      parseAnalyzeBody isUrl url2 = Ok url2 ->
      ownerAndRepo url2 = ownerAndRepo url1 ->
      analyze isUrl env2 api2 url2 server1
        = ({| statusCode := 200; json := JRepository r |}, server1))
  /\ (forall isUrl env1 api1 env2 api2 url1 url2 server r server1 between responses server2,
         Forall (fun entry => fst entry = id (snd entry)) (repositories server) ->
         analyze isUrl env1 api1 url1 server
           = ({| statusCode := 200; json := JRepository r |}, server1) ->
         fullName r
           = render (fst (ownerAndRepo url1)) ++ "/" ++ render (snd (ownerAndRepo url1)) ->
         analyzeAll isUrl between server1 = (responses, server2) ->
         Forall (sparing r) responses ->
         parseAnalyzeBody isUrl url2 = Ok url2 ->
         ownerAndRepo url2 = ownerAndRepo url1 ->
         analyze isUrl env2 api2 url2 server2
           = ({| statusCode := 200; json := JRepository r |}, server2)).
Proof.
  split.
  - intros isUrl env1 api1 env2 api2 url1 url2 server r server1 H1 Hname Hparse Hsame.
    destruct (record_left_behind _ _ _ _ _ _ _ H1 Hname) as (Ho & Hr & Hfound & _).
    apply (answer_from_cache isUrl env2 api2 url2 server1
             (fst (ownerAndRepo url1)) (snd (ownerAndRepo url1)));
      [exact Hparse | rewrite Hsame; apply surjective_pairing | exact Ho | exact Hr |].
    now rewrite <- Hname.
  - intros isUrl env1 api1 env2 api2 url1 url2 server r server1 between responses server2
           Hown H1 Hname Hbetween Hspared Hparse Hsame.
    destruct (record_left_behind _ _ _ _ _ _ _ H1 Hname) as (Ho & Hr & Hfound & Hown1).
    apply (answer_from_cache isUrl env2 api2 url2 server2
             (fst (ownerAndRepo url1)) (snd (ownerAndRepo url1)));
      [exact Hparse | rewrite Hsame; apply surjective_pairing | exact Ho | exact Hr |].
    rewrite <- Hname.
    exact (record_kept_all _ _ _ _ _ _ (Hown1 Hown) Hfound Hbetween Hspared).
Qed.

Lemma C3_second_ingest_cached_witness :
  exists r server1 responses server2,
    analyze Sample.isUrl Sample.env (Sample.api GitHub.NotArray)
      "https://github.com/octocat/Hello-World" Sample.server
      = ({| statusCode := 200; json := JRepository r |}, server1)
    /\ analyzeAll Sample.isUrl
         [ {| clock := Sample.later; upstream := Sample.api GitHub.NotArray;
              address := "https://github.com/octocat/Spoon-Knife" |};
           {| clock := Sample.later; upstream := Sample.api GitHub.NotArray;
              address := "https://github.com/octocat/Hello-World/" |} ]
         server1
       = (responses, server2)
    /\ analyze Sample.isUrl Sample.later (Sample.api GitHub.NotArray)
         "https://github.com/octocat/Hello-World/" server2
       = ({| statusCode := 200; json := JRepository r |}, server2).
Proof.
  eexists _, _, _, _. split; [reflexivity|]. split; [reflexivity|].
  eapply (proj2 C3_second_ingest_cached Sample.isUrl Sample.env (Sample.api GitHub.NotArray)
           Sample.later (Sample.api GitHub.NotArray)
           "https://github.com/octocat/Hello-World"
           "https://github.com/octocat/Hello-World/" Sample.server _ _
           [ {| clock := Sample.later; upstream := Sample.api GitHub.NotArray;
                address := "https://github.com/octocat/Spoon-Knife" |};
             {| clock := Sample.later; upstream := Sample.api GitHub.NotArray;
                address := "https://github.com/octocat/Hello-World/" |} ] _ _).
  - constructor.
  - reflexivity.
  - reflexivity.
  - reflexivity.
  - constructor; [intros r' H; discriminate H|].
    constructor; [|constructor].
    intros r' H. left. symmetry. now injection H.
  - reflexivity.
  - reflexivity.
Defined.

(** The claim as first stated fails when the provider spells the name
    differently from the address: the provider ignores case, the record keeps
    the provider's spelling, the cache is searched with the address's
    spelling, and the second ingestion sends three more requests. *)
Lemma C3_counterexample :
  exists r server1,
    analyze Sample.isUrl Sample.env (Sample.api GitHub.NotArray)
      "https://github.com/Octocat/hello-world" Sample.server
      = ({| statusCode := 200; json := JRepository r |}, server1)
    /\ requests server1 = 3%nat
    /\ requests (snd (analyze Sample.isUrl Sample.env (Sample.api GitHub.NotArray)
                        "https://github.com/Octocat/hello-world" server1)) = 6%nat.
Proof.
  eexists _, _. split; [reflexivity|]. split; reflexivity.
Qed.

(** The proviso on the ingestions in between cannot be dropped: when the same
    repository is ingested in between under a spelling that misses the cache,
    the record fetched then takes the place of the first one under the same
    identifier, and a later ingestion under the first spelling answers with
    that record, still without any request to the provider. *)
Lemma respelled_ingestion_replaces_record :
  exists r server1 r' server2,
    analyze Sample.isUrl Sample.env (Sample.api GitHub.NotArray)
      "https://github.com/octocat/Hello-World" Sample.server
      = ({| statusCode := 200; json := JRepository r |}, server1)
    /\ analyze Sample.isUrl Sample.later (Sample.api GitHub.NotArray)
         "https://github.com/Octocat/hello-world" server1
       = ({| statusCode := 200; json := JRepository r' |}, server2)
    /\ analyze Sample.isUrl Sample.later (Sample.api GitHub.NotArray)
         "https://github.com/octocat/Hello-World" server2
       = ({| statusCode := 200; json := JRepository r' |}, server2)
    /\ codeQuality r = 82 /\ codeQuality r' = 72.
Proof.
  eexists _, _, _, _. repeat split; reflexivity.
Qed.

(** ** Owner and name of a repository address *)

Section Address.

Lemma split_not_nil (sep : ascii) (s : string) : split sep s <> [].
Proof.
  destruct s as [|c s]; cbn; [discriminate|].
  destruct (Ascii.eqb c sep); [discriminate|].
  destruct (split sep s); discriminate.
Qed.

Lemma split_app (sep : ascii) (a b : string) :
  split sep (a ++ String sep b) = (split sep a ++ split sep b)%list.
Proof.
  induction a as [|c a IH]; cbn.
  - now rewrite Ascii.eqb_refl.
  - destruct (Ascii.eqb c sep); [now rewrite IH|].
    rewrite IH. pose proof (split_not_nil sep a) as Hne.
    destruct (split sep a); [contradiction|reflexivity].
Qed.

Lemma includes_cons (c : ascii) (s : string) :
  includes (String c s) "/" = (Ascii.eqb c "/" || includes s "/")%bool.
Proof.
  cbn [includes prefix].
  destruct (ascii_dec "/" c) as [<-|Hne].
  - rewrite Ascii.eqb_refl. now destruct s.
  - destruct (Ascii.eqb_spec c "/") as [->|_]; [contradiction|reflexivity].
Qed.

Lemma split_no_slash (w : string) : includes w "/" = false -> split "/" w = [w].
Proof.
  induction w as [|c w IH]; [reflexivity|].
  rewrite includes_cons. intros H. apply orb_false_iff in H as [Hc Hw].
  cbn. rewrite Hc, (IH Hw). reflexivity.
Qed.

Lemma strip_added_slash (u : string) : stripTrailingSlash (u ++ "/") = u.
Proof.
  induction u as [|c u IH]; [reflexivity|].
  cbn. rewrite IH.
  replace (String.eqb (u ++ "/") "") with false by (now destruct u).
  now rewrite andb_false_r.
Qed.

Lemma strip_no_slash (a w : string) :
  w <> "" -> includes w "/" = false -> stripTrailingSlash (a ++ w) = a ++ w.
Proof.
  intros Hw Hs. induction a as [|c a IH]; cbn.
  - clear Hw. induction w as [|c w IH]; [reflexivity|].
    rewrite includes_cons in Hs. apply orb_false_iff in Hs as [Hc Hs].
    cbn. rewrite Hc, (IH Hs). reflexivity.
  - rewrite IH.
    replace (String.eqb (a ++ w) "") with false; [now rewrite andb_false_r|].
    destruct a; cbn; [|reflexivity]. destruct w; [contradiction|reflexivity].
Qed.

Lemma item_last_two {A : Type} (l : list A) (a b : A) :
  let l' := (l ++ [a; b])%list in
  item l' (Z.of_nat (length l') - 2) = Some a
  /\ item l' (Z.of_nat (length l') - 1) = Some b.
Proof.
  cbn zeta. unfold item. rewrite length_app. cbn [length].
  destruct (Z.ltb_spec (Z.of_nat (length l + 2) - 2) 0); [lia|].
  destruct (Z.ltb_spec (Z.of_nat (length l + 2) - 1) 0); [lia|].
  replace (Z.to_nat (Z.of_nat (length l + 2) - 2)) with (length l + 0)%nat by lia.
  replace (Z.to_nat (Z.of_nat (length l + 2) - 1)) with (length l + 1)%nat by lia.
  rewrite !nth_error_app2 by lia.
  replace (length l + 0 - length l)%nat with 0%nat by lia.
  replace (length l + 1 - length l)%nat with 1%nat by lia.
  split; reflexivity.
Qed.

Lemma strip_address (base owner repo : string) :
  repo <> "" -> includes repo "/" = false ->
  stripTrailingSlash (base ++ "/" ++ owner ++ "/" ++ repo)
    = base ++ "/" ++ owner ++ "/" ++ repo.
Proof.
  intros Hr Hs.
  replace (base ++ "/" ++ owner ++ "/" ++ repo)
    with ((base ++ "/" ++ owner ++ "/") ++ repo)
    by (now rewrite !append_assoc).
  now apply strip_no_slash.
Qed.

Lemma ownerAndRepo_slash (u : string) :
  stripTrailingSlash u = u -> ownerAndRepo (u ++ "/") = ownerAndRepo u.
Proof.
  intros H. unfold ownerAndRepo. now rewrite strip_added_slash, H.
Qed.

Lemma ownerAndRepo_segments (base owner repo : string) :
  repo <> "" -> includes owner "/" = false -> includes repo "/" = false ->
  ownerAndRepo (base ++ "/" ++ owner ++ "/" ++ repo) = (Some owner, Some repo).
Proof.
  intros Hr Ho Hs. unfold ownerAndRepo.
  rewrite strip_address by assumption.
  change (base ++ "/" ++ owner ++ "/" ++ repo)
    with (base ++ String "/" (owner ++ String "/" repo)).
  rewrite !split_app, (split_no_slash owner Ho), (split_no_slash repo Hs).
  cbn [app].
  destruct (item_last_two (split "/" base) owner repo) as [-> ->]. reflexivity.
Qed.

End Address.

(** C9 (as amended).  For an address made of a base, an owner and a non-empty
    name, neither containing a slash, the extraction yields that owner and
    name both for the address and for the address followed by a slash.  When
    an extracted segment is missing or empty, when the address is not a
    well-formed URL, or when it does not contain the text [github.com],
    ingestion answers 400 with a message, stores nothing and sends no request
    to the provider.  In every other case the address is accepted, whatever
    its host: the answer is the record found in the cache under the
    owner/name pair, or else the outcome of fetching that owner and name from
    the provider. *)
Theorem C9_owner_and_repo :
  (forall base owner repo : string,
      repo <> "" -> includes owner "/" = false -> includes repo "/" = false ->
      ownerAndRepo (base ++ "/" ++ owner ++ "/" ++ repo) = (Some owner, Some repo)
      /\ ownerAndRepo ((base ++ "/" ++ owner ++ "/" ++ repo) ++ "/") = (Some owner, Some repo))
  /\ (forall isUrl env api url server,
         truthy (fst (ownerAndRepo url)) = false
         \/ truthy (snd (ownerAndRepo url)) = false
         \/ isUrl url = false
         \/ includes url "github.com" = false ->
         exists message,
           analyze isUrl env api url server
             = ({| statusCode := 400; json := JMessage message |}, server))
  /\ (forall isUrl env api url server,
         truthy (fst (ownerAndRepo url)) = true ->
         truthy (snd (ownerAndRepo url)) = true ->
         isUrl url = true ->
         includes url "github.com" = true ->
         let owner := render (fst (ownerAndRepo url)) in
         let repo := render (snd (ownerAndRepo url)) in
         analyze isUrl env api url server
         = match MemStorage.getRepositoryByFullName (repositories server)
                   (owner ++ "/" ++ repo) with
           | Some existingRepo =>
               ({| statusCode := 200; json := JRepository existingRepo |}, server)
           | None =>
               match fetchRepositoryData env api owner repo (requests server) with
               | (Ok repoData, n) =>
                   ({| statusCode := 200; json := JRepository repoData |},
                    {| repositories :=
                         MemStorage.set (id repoData) repoData (repositories server);
                       requests := n |})
               | (Throw e, n) =>
                   (respondTo "Failed to analyze repository" e,
                    {| repositories := repositories server; requests := n |})
               end
           end).
Proof.
  split; [|split].
  - intros base owner repo Hr Ho Hs.
    pose proof (ownerAndRepo_segments base owner repo Hr Ho Hs) as H.
    split; [exact H|].
    rewrite ownerAndRepo_slash; [exact H|]. now apply strip_address.
  - intros isUrl env api url server H.
    unfold analyze, parseAnalyzeBody.
    destruct (isUrl url); cbn [negb]; cbv iota beta; [|eexists; reflexivity].
    destruct (includes url "github.com"); cbn [negb]; cbv iota beta; [|eexists; reflexivity].
    destruct (ownerAndRepo url) as [owner repo]. cbn [fst snd] in H.
    destruct H as [H|[H|[H|H]]]; try discriminate; rewrite H; cbn [negb orb];
      [|rewrite orb_true_r]; eexists; reflexivity.
  - intros isUrl env api url server Ho Hr Hurl Hhub owner repo.
    unfold analyze, parseAnalyzeBody. rewrite Hurl, Hhub. cbn [negb]. cbv iota beta.
    subst owner repo. destruct (ownerAndRepo url) as [owner repo]. cbn [fst snd] in *.
    rewrite Ho, Hr. cbn [negb orb].
    destruct (MemStorage.getRepositoryByFullName _ _); [reflexivity|].
    destruct (fetchRepositoryData env api _ _ _) as [[repoData|e] n]; reflexivity.
Qed.

Lemma C9_owner_and_repo_witness :
  ownerAndRepo ("https://github.com" ++ "/" ++ "octocat" ++ "/" ++ "Hello-World")
    = (Some "octocat", Some "Hello-World")
  /\ ownerAndRepo (("https://github.com" ++ "/" ++ "octocat" ++ "/" ++ "Hello-World") ++ "/")
    = (Some "octocat", Some "Hello-World")
  /\ (exists message,
        analyze Sample.isUrl Sample.env (Sample.api GitHub.NotArray)
          "https://gitlab.com/octocat/Hello-World" Sample.server
        = ({| statusCode := 400; json := JMessage message |}, Sample.server))
  /\ (exists message,
        analyze Sample.isUrl Sample.env (Sample.api GitHub.NotArray)
          "https://github.com" Sample.server
        = ({| statusCode := 400; json := JMessage message |}, Sample.server))
  /\ fst (analyze Sample.isUrl Sample.env (Sample.api GitHub.NotArray)
            "https://example.org/github.com/octocat/Spoon-Knife" Sample.server)
     = {| statusCode := 404; json := JMessage "GitHub API error: Not Found" |}.
Proof.
  destruct C9_owner_and_repo as (Hparse & Hreject & Haccept).
  destruct (Hparse "https://github.com" "octocat" "Hello-World") as [H1 H2];
    [discriminate | reflexivity | reflexivity |].
  split; [exact H1|]. split; [exact H2|].
  split; [apply Hreject; right; right; right; reflexivity|].
  split; [apply Hreject; left; reflexivity|].
  rewrite Haccept; reflexivity.
Defined.

(** The claim as first stated fails for an address on another host whose
    text contains [github.com]: the test on the address is a search for that
    text, so the address is accepted and a record is returned. *)
Lemma C9_counterexample :
  hostOf "https://notgithub.com/octocat/Hello-World" = Some "notgithub.com"
  /\ exists r server1,
       analyze Sample.isUrl Sample.env (Sample.api GitHub.NotArray)
         "https://notgithub.com/octocat/Hello-World" Sample.server
       = ({| statusCode := 200; json := JRepository r |}, server1).
Proof.
  split; [reflexivity|]. eexists _, _. reflexivity.
Qed.

(** ** Whole-repository sampling *)

Section Sampling.

Lemma prefix_append (p post : string) : prefix p (p ++ post) = true.
Proof.
  induction p as [|c p IH]; cbn; [now destruct post|].
  destruct (ascii_dec c c); [exact IH|contradiction].
Qed.

Lemma includes_append (pre pat post : string) :
  includes (pre ++ pat ++ post) pat = true.
Proof.
  induction pre as [|c pre IH].
  - cbn [append]. destruct (pat ++ post) eqn:E; cbn [includes];
      rewrite <- E, prefix_append; reflexivity.
  - cbn [append includes]. rewrite IH. apply orb_true_r.
Qed.

Lemma prefix_split (p s : string) : prefix p s = true -> exists post, s = p ++ post.
Proof.
  revert s. induction p as [|c p IH]; intros s H.
  - now exists s.
  - destruct s as [|c' s]; cbn in H; [discriminate|].
    destruct (ascii_dec c c') as [<-|]; [|discriminate].
    destruct (IH s H) as [post ->]. now exists post.
Qed.

Lemma includes_split (s p : string) :
  includes s p = true -> exists pre post, s = pre ++ p ++ post.
Proof.
  induction s as [|c s IH]; cbn [includes]; intros H.
  - rewrite orb_false_r in H. apply prefix_split in H as [post ->]. now exists "", post.
  - apply orb_true_iff in H as [H|H].
    + apply prefix_split in H as [post ->]. now exists "", post.
    + destruct (IH H) as (pre & post & ->). now exists (String c pre), post.
Qed.

Lemma not_included (s pat : string) :
  includes s pat = false -> forall pre post, s <> pre ++ pat ++ post.
Proof.
  intros H pre post ->. now rewrite includes_append in H.
Qed.

Lemma endsWith_suffix (s suf : string) :
  endsWith s suf = true -> exists stem, s = stem ++ suf.
Proof.
  induction s as [|c s IH]; cbn [endsWith]; intros H.
  - rewrite orb_false_r in H. apply String.eqb_eq in H. now exists "".
  - apply orb_true_iff in H as [H|H].
    + apply String.eqb_eq in H. now exists "".
    + destruct (IH H) as [stem ->]. now exists (String c stem).
Qed.

Lemma endsWith_append (a b : string) : endsWith (a ++ b) b = true.
Proof.
  induction a as [|c a IH].
  - cbn [append]. destruct b; cbn [endsWith]; now rewrite String.eqb_refl.
  - cbn [append endsWith]. rewrite IH. apply orb_true_r.
Qed.

Lemma toLowerCase_append (a b : string) :
  toLowerCase (a ++ b) = toLowerCase a ++ toLowerCase b.
Proof.
  induction a as [|c a IH]; cbn; [reflexivity|now rewrite IH].
Qed.

Lemma not_build_output (path : string) :
  matchesBuildOutput path = false ->
  forall pre word post,
    In (toLowerCase word) ["min"; "bundle"; "compiled"] ->
    path <> pre ++ "." ++ word ++ "." ++ post.
Proof.
  unfold matchesBuildOutput. cbv zeta. intros H pre word post Hw ->.
  rewrite !toLowerCase_append in H.
  change (toLowerCase ".") with "." in H.
  apply orb_false_iff in H as [H H3]. apply orb_false_iff in H as [H1 H2].
  destruct Hw as [E|[E|[E|[]]]]; rewrite <- E in *.
  - apply (not_included _ _ H1 (toLowerCase pre) (toLowerCase post)).
    cbn. reflexivity.
  - apply (not_included _ _ H2 (toLowerCase pre) (toLowerCase post)).
    cbn. reflexivity.
  - apply (not_included _ _ H3 (toLowerCase pre) (toLowerCase post)).
    cbn. reflexivity.
Qed.

Lemma slice0_short (n : nat) (s : string) :
  (String.length s <= n)%nat -> slice0 n s = s.
Proof.
  unfold slice0. revert s. induction n as [|n IH]; intros [|c s] H; cbn in *;
    try reflexivity; try lia.
  rewrite IH by lia. reflexivity.
Qed.

Lemma slice0_long (n : nat) (s : string) :
  (n <= String.length s)%nat ->
  exists rest, s = slice0 n s ++ rest /\ String.length (slice0 n s) = n.
Proof.
  unfold slice0. revert s. induction n as [|n IH]; intros s H.
  - exists s. destruct s; split; reflexivity.
  - destruct s as [|c s]; cbn in H; [lia|].
    destruct (IH s) as (rest & E & L); [lia|].
    exists rest. cbn. rewrite L. split; [now rewrite <- E|reflexivity].
Qed.

Lemma sampleCodeOf_from (api : GitHub.Api) (owner repo : string)
    (codeFiles : list GitHub.TreeItem) (acc : string) :
  fold_left
    (fun sampleCode file =>
       match GitHub.getContents api
               (repoUrl owner repo ++ "/contents/" ++ GitHub.path file) with
       | Resolved (Some content) => sampleCode ++ sampleBlock (GitHub.path file) content
       | _ => sampleCode
       end)
    codeFiles acc
  = acc ++ appendAll
             (map (fun file =>
                     match GitHub.getContents api
                             (repoUrl owner repo ++ "/contents/" ++ GitHub.path file) with
                     | Resolved (Some content) => sampleBlock (GitHub.path file) content
                     | _ => ""
                     end)
                  codeFiles).
Proof.
  revert acc. induction codeFiles as [|file files IH]; intros acc; cbn [fold_left map appendAll].
  - now rewrite append_nil_r.
  - rewrite IH.
    destruct (GitHub.getContents api _) as [[content|]|];
      rewrite ?append_assoc; reflexivity.
Qed.

Lemma analyzeCode_throws (key : option string) (post : OpenRouter.Request -> OpenRouter.PostOutcome)
    (dir code path : string) (e : Exn) :
  OpenRouter.analyzeCode key post dir code path = Throw e -> exists message, e = Error message.
Proof.
  unfold OpenRouter.analyzeCode.
  destruct (negb (truthy key)); [intros [= <-]; eauto|].
  destruct (OpenRouter.attempt _ _ _) as [a|e']; [discriminate|].
  intros [= <-]. unfold OpenRouter.rethrow.
  destruct e' as [m|[resp|] m|m|m]; eauto.
Qed.

Lemma in_firstn {A : Type} (n : nat) (l : list A) (x : A) :
  In x (firstn n l) -> In x l.
Proof.
  intros H. rewrite <- (firstn_skipn n l). apply in_or_app. now left.
Qed.

Lemma included (s pat : string) :
  (forall pre post, s <> pre ++ pat ++ post) -> includes s pat = false.
Proof.
  intros H. destruct (includes s pat) eqn:E; [|reflexivity].
  apply includes_split in E as (pre & post & E). now apply H in E.
Qed.

Lemma toLowerCase_split (s a b : string) :
  toLowerCase s = a ++ b ->
  exists s1 s2, s = s1 ++ s2 /\ toLowerCase s1 = a /\ toLowerCase s2 = b.
Proof.
  revert s. induction a as [|c a IH]; intros s H.
  - now exists "", s.
  - destruct s as [|d s]; [discriminate|]. cbn in H. injection H as Hc Hs.
    destruct (IH s Hs) as (s1 & s2 & -> & H1 & H2).
    exists (String d s1), s2. cbn. now rewrite Hc, H1.
Qed.

Lemma lowerChar_dot (c : ascii) : lowerChar c = "."%char -> c = "."%char.
Proof.
  unfold lowerChar. cbv zeta.
  destruct ((65 <=? nat_of_ascii c)%nat && (nat_of_ascii c <=? 90)%nat)%bool eqn:E;
    [|trivial].
  apply andb_true_iff in E as [E1 E2].
  apply Nat.leb_le in E1. apply Nat.leb_le in E2.
  intros H. apply (f_equal nat_of_ascii) in H.
  rewrite nat_ascii_embedding in H by lia. cbn in H. lia.
Qed.

Lemma toLowerCase_dot (s rest : string) :
  toLowerCase s = "." ++ rest -> exists s', s = "." ++ s' /\ toLowerCase s' = rest.
Proof.
  destruct s as [|c s]; [discriminate|]. cbn. intros H. injection H as Hc Hs.
  apply lowerChar_dot in Hc. subst c. now exists s.
Qed.

Lemma build_word (path w : string) :
  includes (toLowerCase path) ("." ++ w ++ ".") = true ->
  exists pre word post, toLowerCase word = w /\ path = pre ++ "." ++ word ++ "." ++ post.
Proof.
  intros H. apply includes_split in H as (pre' & post' & H).
  apply toLowerCase_split in H as (pre & rest & -> & _ & H).
  rewrite !append_assoc in H.
  apply toLowerCase_dot in H as (rest1 & -> & H).
  apply toLowerCase_split in H as (word & rest2 & -> & Hw & H).
  apply toLowerCase_dot in H as (post & -> & _).
  now exists pre, word, post.
Qed.

Lemma build_output (path : string) :
  (forall pre word post,
      In (toLowerCase word) ["min"; "bundle"; "compiled"] ->
      path <> pre ++ "." ++ word ++ "." ++ post) ->
  matchesBuildOutput path = false.
Proof.
  intros H. unfold matchesBuildOutput. cbv zeta.
  destruct (includes (toLowerCase path) ".min.") eqn:E1.
  { apply (build_word path "min") in E1 as (pre & word & post & Hw & E).
    exfalso. apply (H pre word post); [rewrite Hw; now left|exact E]. }
  destruct (includes (toLowerCase path) ".bundle.") eqn:E2.
  { apply (build_word path "bundle") in E2 as (pre & word & post & Hw & E).
    exfalso. apply (H pre word post); [rewrite Hw; right; now left|exact E]. }
  destruct (includes (toLowerCase path) ".compiled.") eqn:E3; [|reflexivity].
  apply (build_word path "compiled") in E3 as (pre & word & post & Hw & E).
  exfalso. apply (H pre word post); [rewrite Hw; right; right; now left|exact E].
Qed.

(** The filter selects the files that qualify, and no others. *)
Lemma isCodeFile_qualifies (file : GitHub.TreeItem) :
  isCodeFile file = true <-> qualifies file.
Proof.
  unfold isCodeFile, qualifies. split.
  - intros Hsel.
    repeat (apply andb_true_iff in Hsel as [Hsel ?]).
    repeat match goal with H : negb _ = true |- _ => apply negb_true_iff in H end.
    split; [destruct (GitHub.type file); (reflexivity || discriminate)|].
    split.
    { match goal with H : existsb _ _ = true |- _ =>
        apply existsb_exists in H as (ext & Hext & Hends) end.
      apply endsWith_suffix in Hends as [stem Hstem]. now exists ext, stem. }
    split; [now apply not_included|].
    split; [now apply not_included|].
    now apply not_build_output.
  - intros (Htype & (ext & stem & Hext & Hpath) & Hmodules & Hvendor & Hbuild).
    rewrite Htype, (included _ _ Hmodules), (included _ _ Hvendor), (build_output _ Hbuild).
    cbn [negb andb]. rewrite !andb_true_r.
    apply existsb_exists. exists ext. split; [exact Hext|].
    rewrite Hpath. apply endsWith_append.
Qed.

Lemma excerpt_cut (content : string) : cutAt1000 content (excerpt content).
Proof.
  unfold cutAt1000, excerpt. split; intros Hlen.
  - destruct (Nat.ltb_spec 1000 (String.length content)); [lia|].
    now rewrite slice0_short, append_nil_r.
  - destruct (Nat.ltb_spec 1000 (String.length content)); [|lia].
    destruct (slice0_long 1000 content) as (rest & E & L); [lia|].
    exists (slice0 1000 content), rest. now repeat split.
Qed.

Lemma sampled_blocks (api : GitHub.Api) (owner repo : string)
    (codeFiles : list GitHub.TreeItem) :
  Forall2 (sampled api owner repo) codeFiles
    (map (fun file =>
            match GitHub.getContents api
                    (repoUrl owner repo ++ "/contents/" ++ GitHub.path file) with
            | Resolved (Some content) => sampleBlock (GitHub.path file) content
            | _ => ""
            end)
         codeFiles).
Proof.
  induction codeFiles as [|file files IH]; cbn [map]; constructor; [|exact IH].
  unfold sampled.
  replace ("https://api.github.com/repos/" ++ owner ++ "/" ++ repo ++ "/contents/"
           ++ GitHub.path file)
    with (repoUrl owner repo ++ "/contents/" ++ GitHub.path file)
    by (unfold repoUrl; now rewrite !append_assoc).
  destruct (GitHub.getContents api _) as [[content|]|]; try reflexivity.
  exists (excerpt content). split; [apply excerpt_cut|reflexivity].
Qed.

Lemma filter_firstn_complete {A : Type} (p : A -> bool) (n : nat) (l : list A) (x : A) :
  In x l -> p x = true ->
  In x (firstn n (filter p l)) \/ length (firstn n (filter p l)) = n.
Proof.
  intros Hin Hp.
  assert (Hx : In x (filter p l)) by (apply filter_In; now split).
  rewrite <- (firstn_skipn n (filter p l)) in Hx. apply in_app_or in Hx as [Hx|Hx].
  - now left.
  - right. rewrite length_firstn. apply Nat.min_l.
    destruct (Nat.le_gt_cases n (length (filter p l))) as [Hle|Hgt]; [exact Hle|].
    rewrite skipn_all2 in Hx by lia. contradiction.
Qed.

Lemma firstn_prefix {A : Type} (n : nat) (l : list A) :
  exists rest, l = (firstn n l ++ rest)%list /\ ((length (firstn n l) < n)%nat -> rest = []).
Proof.
  exists (skipn n l). split; [now rewrite firstn_skipn|].
  intros H. apply skipn_all2. rewrite length_firstn in H. lia.
Qed.

End Sampling.

(** C7.  Whole-repository sampling selects the first (at most 5) entries of
    the tree, in tree order, that qualify: the blobs with an allow-listed
    extension whose path contains neither [node_modules/] nor [vendor/] nor a
    dot, one of the words min, bundle, compiled in any case, and a dot.  The
    filter selects these files and no others, so that a qualifying entry of
    the tree is left out only when five were selected.  The sample is the
    concatenation, in order, of one block for each selected file: when the
    content of the file was obtained, the block is a line with its path and
    its content between fences, where the content is shown whole when it has
    at most 1000 characters and as its first 1000 characters followed by
    three dots when it is longer; a file whose request fails, or comes
    without content, contributes nothing and changes no other block.  The
    answer of the request is then decided by the completion provider alone:
    200 with the analysis, or 500 if the completion fails. *)
Theorem C7_repository_sampling (api : GitHub.Api) (tree : list GitHub.TreeItem) :
  let codeFiles := codeFilesOf tree in
  (length codeFiles <= 5)%nat
  /\ (exists rest, filter isCodeFile tree = (codeFiles ++ rest)%list
                   /\ ((length codeFiles < 5)%nat -> rest = []))
  /\ (forall file, isCodeFile file = true <-> qualifies file)
  /\ (forall file, In file codeFiles -> In file tree /\ qualifies file)
  /\ (forall file, In file tree -> qualifies file ->
                   In file codeFiles \/ length codeFiles = 5%nat)
  /\ (forall content, cutAt1000 content (excerpt content))
  /\ (forall owner repo,
        exists blocks,
          Forall2 (sampled api owner repo) codeFiles blocks
          /\ sampleCodeOf api owner repo codeFiles = appendAll blocks)
  /\ (forall llm id server repository,
        id <> "" ->
        MemStorage.getRepository (repositories server) id = Some repository ->
        let owner := render (nth_error (split "/" (fullName repository)) 0) in
        let repo := render (nth_error (split "/" (fullName repository)) 1) in
        GitHub.getTree api (repoUrl owner repo ++ "/git/trees/HEAD?recursive=1")
          = Resolved tree ->
        analyzeRepositoryCode api llm (Some id) server
        = match OpenRouter.analyzeCode (apiKey llm) (post llm) (directoryListing tree)
                  (sampleCodeOf api owner repo codeFiles) "entire repository" with
          | Ok analysis =>
              {| statusCode := 200; json := JAnalysis (fullName repository) analysis |}
          | Throw _ =>
              {| statusCode := 500; json := JMessage "Failed to analyze repository" |}
          end).
Proof.
  intros codeFiles. unfold codeFiles, codeFilesOf.
  split; [apply firstn_le_length|].
  split; [apply firstn_prefix|].
  split; [apply isCodeFile_qualifies|].
  split.
  { intros file Hin. apply in_firstn in Hin. apply filter_In in Hin as [Hin Hsel].
    split; [exact Hin|now apply isCodeFile_qualifies]. }
  split.
  { intros file Hin Hq. apply filter_firstn_complete; [exact Hin|].
    now apply isCodeFile_qualifies. }
  split; [apply excerpt_cut|].
  split.
  { intros owner repo. eexists. split; [apply sampled_blocks|]. apply sampleCodeOf_from. }
  intros llm id server repository Hid Hget Htree.
  unfold analyzeRepositoryCode, parseRepositoryId.
  destruct (String.eqb_spec id "") as [->|_]; [contradiction|].
  cbn [bind]. rewrite Hget. cbv zeta. rewrite Htree. cbn [await bind].
  fold (codeFilesOf tree).
  destruct (OpenRouter.analyzeCode _ _ _ _ _) as [analysis|e] eqn:E; cbn [bind]; [reflexivity|].
  apply analyzeCode_throws in E as [message ->]. reflexivity.
Qed.

Lemma C7_repository_sampling_witness :
  analyzeRepositoryCode (Sample.api GitHub.NotArray) Sample.llm (Some "1296269") Sample.stocked
    = {| statusCode := 200; json := JAnalysis "octocat/Hello-World" "## SUMMARY" |}
  /\ map GitHub.path (codeFilesOf Sample.files)
     = ["src/index.ts"; "src/a.py"; "src/b.go"; "src/c.rb"; "src/d.c"].
Proof.
  destruct (C7_repository_sampling (Sample.api GitHub.NotArray) Sample.files)
    as (_ & _ & _ & _ & _ & _ & _ & H).
  split; [|reflexivity].
  rewrite (H Sample.llm "1296269" Sample.stocked Sample.helloRecord);
    [reflexivity | discriminate | reflexivity | reflexivity].
Defined.

(** ** The document generator *)

Section Generator.

Lemma appendAll_app (a b : list string) :
  appendAll (a ++ b) = appendAll a ++ appendAll b.
Proof.
  induction a as [|x a IH]; cbn; [reflexivity|].
  now rewrite IH, append_assoc.
Qed.

Lemma readmeCustom_empty (section : CustomSection) :
  title section = "" \/ content section = "" -> readmeCustom section = "".
Proof.
  unfold readmeCustom. intros [-> | ->]; cbn; [reflexivity|].
  now rewrite andb_false_r.
Qed.


(** The four languages whose usage example needs the repository's name in
    lower case. *)
Lemma readmeUsage_defined (repository : Repository) (repoName : option string) :
  isOk (readmeUsage repository repoName)
  = match repoName with
    | Some _ => true
    | None => negb (languageIs repository "JavaScript" || languageIs repository "TypeScript"
                    || languageIs repository "Python" || languageIs repository "Java")
    end.
Proof.
  unfold readmeUsage.
  destruct repoName as [repoName|]; cbn [lowerOf bind];
    destruct (languageIs repository "JavaScript"), (languageIs repository "TypeScript"),
             (languageIs repository "Python"), (languageIs repository "Java");
    reflexivity.
Qed.

End Generator.

(** C6 (as amended).  For a record whose description is present (it may be
    empty) and whose [fullName] has a second segment, and for every options
    object, the generator returns a document; an empty language list or an
    absent primary language makes no difference.  Every record that
    ingestion produces has a description.  In general the generator
    returns a document exactly when the description is present and, if the
    name has no second segment, the usage block is left out or the primary
    language is none of JavaScript, TypeScript, Python and Java. *)
Theorem C6_generate_defined :
  (forall today repository options d repoName,
      description repository = Some d ->
      nth_error (split "/" (fullName repository)) 1 = Some repoName ->
      exists document, generateReadmeContent today repository options = Ok document)
  /\ (forall env api owner repo n repository n',
         fetchRepositoryData env api owner repo n = (Ok repository, n') ->
         description repository <> None)
  /\ (forall today repository options,
         isOk (generateReadmeContent today repository options)
         = match description repository with
           | None => false
           | Some _ =>
               match nth_error (split "/" (fullName repository)) 1 with
               | Some _ => true
               | None =>
                   negb (orDefault true (includeUsage options)
                         && (languageIs repository "JavaScript"
                             || languageIs repository "TypeScript"
                             || languageIs repository "Python"
                             || languageIs repository "Java"))
               end
           end).
Proof.
  assert (Hiff : forall today repository options,
             isOk (generateReadmeContent today repository options)
             = match description repository with
               | None => false
               | Some _ =>
                   match nth_error (split "/" (fullName repository)) 1 with
                   | Some _ => true
                   | None =>
                       negb (orDefault true (includeUsage options)
                             && (languageIs repository "JavaScript"
                                 || languageIs repository "TypeScript"
                                 || languageIs repository "Python"
                                 || languageIs repository "Java"))
                   end
               end).
  { intros today repository options. unfold generateReadmeContent. cbv zeta.
    destruct (description repository) as [d|]; cbn [lowerOf bind isOk]; [|reflexivity].
    destruct (orDefault true (includeUsage options)); cbn [andb negb bind].
    - pose proof (readmeUsage_defined repository
                    (nth_error (split "/" (fullName repository)) 1)) as Hu.
      destruct (readmeUsage repository _) as [usage|e]; cbn [bind isOk] in *; exact Hu.
    - now destruct (nth_error (split "/" (fullName repository)) 1). }
  split; [|split; [|exact Hiff]].
  2:{ intros env api owner repo n repository n'.
      unfold fetchRepositoryData, andThen, request, ret.
      destruct (await (GitHub.getRepo api _)); [|discriminate].
      destruct (await (GitHub.getLanguages api _)); [|discriminate].
      destruct (await (GitHub.getCommitActivity api _)); [|discriminate].
      intros H. inversion H; subst. cbn. discriminate. }
  intros today repository options d repoName Hd Hn.
  specialize (Hiff today repository options). rewrite Hd, Hn in Hiff.
  destruct (generateReadmeContent today repository options) as [document|e];
    [now exists document|discriminate].
Qed.

Lemma C6_generate_defined_witness :
  exists document,
    generateReadmeContent "11/2/2026" Sample.helloRecord (Sample.options None []) = Ok document.
Proof.
  apply (proj1 C6_generate_defined "11/2/2026" Sample.helloRecord (Sample.options None [])
           "My first repository on GitHub!" "Hello-World"); reflexivity.
Defined.

(** The claim as first stated fails for a record without description, and
    for a JavaScript record whose name has no second segment: the generator
    raises a type error. *)
Lemma C6_counterexample :
  generateReadmeContent "11/2/2026" (Sample.bare None (Some "Go")) (Sample.options None [])
    = Throw (TypeError "Cannot read properties of null (reading 'toLowerCase')")
  /\ generateReadmeContent "11/2/2026" (Sample.bare (Some "") (Some "JavaScript"))
       (Sample.options None [])
     = Throw (TypeError "Cannot read properties of undefined (reading 'toLowerCase')").
Proof.
  split; reflexivity.
Qed.

(** C10.  A custom section whose title or content is empty contributes no
    text at all, neither heading nor content, and the document is the one
    generated from the options without that entry. *)
Theorem C10_empty_custom_section today repository options before entry after :
  customSections options = Some (before ++ entry :: after)%list ->
  title entry = "" \/ content entry = "" ->
  readmeCustom entry = ""
  /\ generateReadmeContent today repository options
     = generateReadmeContent today repository
         (withCustomSections options (before ++ after)).
Proof.
  intros Hsections Hempty.
  pose proof (readmeCustom_empty entry Hempty) as Hentry.
  split; [exact Hentry|].
  unfold generateReadmeContent, withCustomSections. cbn [includeUsage includeInstallation
    includeContributing includeLicense customSections].
  rewrite Hsections. cbn [orDefault].
  rewrite !map_app, !appendAll_app. cbn [map appendAll]. rewrite Hentry.
  reflexivity.
Qed.

Lemma C10_empty_custom_section_witness :
  generateReadmeContent "11/2/2026" Sample.helloRecord
    (Sample.options None [ {| title := "Notes"; content := "x" |};
                           {| title := "Later"; content := "" |} ])
  = generateReadmeContent "11/2/2026" Sample.helloRecord
      (withCustomSections
         (Sample.options None [ {| title := "Notes"; content := "x" |};
                                {| title := "Later"; content := "" |} ])
         [ {| title := "Notes"; content := "x" |} ]).
Proof.
  apply (C10_empty_custom_section "11/2/2026" Sample.helloRecord
           (Sample.options None [ {| title := "Notes"; content := "x" |};
                                  {| title := "Later"; content := "" |} ])
           [ {| title := "Notes"; content := "x" |} ]
           {| title := "Later"; content := "" |} []).
  - reflexivity.
  - right. reflexivity.
Defined.

(** ** Occurrences of a pattern in a text *)

Section Search.

Variable pat : string.
Hypothesis pat_not_empty : pat <> "".















End Search.

(** ** The Installation heading *)

Section Heading.


















End Heading.

Section Pieces.










End Pieces.

Section Blocks.






End Blocks.

Section Document.



End Document.




(** * Further properties *)

(** ** The user table *)

Section Users.

Lemma users_set_fresh (key : Z) (value : MemUsers.User) (m : list (Z * MemUsers.User)) :
  Forall (fun entry => fst entry < key) m ->
  MemUsers.set key value m = (m ++ [(key, value)])%list.
Proof.
  induction 1 as [|[k v] m Hk Hm IH]; cbn; [reflexivity|].
  cbn in Hk. destruct (Z.eqb_spec k key); [lia|]. now rewrite IH.
Qed.

Lemma createAll_from (inserts : list MemUsers.InsertUser) (storage : MemUsers.t) :
  handedOut storage ->
  MemUsers.users (MemUsers.createAll inserts storage)
    = (MemUsers.users storage ++ numbered (MemUsers.currentId storage) inserts)%list
  /\ MemUsers.currentId (MemUsers.createAll inserts storage)
     = MemUsers.currentId storage + Z.of_nat (length inserts).
Proof.
  revert storage. induction inserts as [|insert rest IH]; intros storage Hs.
  - cbn. rewrite app_nil_r. split; [reflexivity|lia].
  - cbn [MemUsers.createAll fold_left]. fold (MemUsers.createAll rest).
    destruct (IH (snd (MemUsers.createUser storage insert))) as [Hu Hc].
    + unfold handedOut, MemUsers.createUser. cbn.
      rewrite users_set_fresh by exact Hs.
      apply Forall_app. split.
      * apply Forall_impl with (2 := Hs). intros entry. lia.
      * constructor; [cbn; lia|constructor].
    + unfold MemUsers.createAll in *. rewrite Hu, Hc. cbn.
      rewrite users_set_fresh by exact Hs.
      rewrite <- app_assoc. cbn. split; [reflexivity|lia].
Qed.

Lemma get_numbered (start : Z) (inserts : list MemUsers.InsertUser) (key : Z) :
  MemUsers.get key (numbered start inserts)
  = if ((start <=? key) && (key <? start + Z.of_nat (length inserts)))%bool
    then option_map (fun insert => {| MemUsers.id := key; MemUsers.insertUser := insert |})
                    (nth_error inserts (Z.to_nat (key - start)))
    else None.
Proof.
  revert start. induction inserts as [|insert rest IH]; intros start; cbn [numbered MemUsers.get length].
  - destruct (Z.leb_spec start key); cbn [andb]; [|reflexivity].
    destruct (Z.ltb_spec key (start + Z.of_nat 0)); [lia|reflexivity].
  - destruct (Z.eqb_spec start key) as [->|Hne].
    + rewrite Z.leb_refl. cbn [andb].
      destruct (Z.ltb_spec key (key + Z.of_nat (S (length rest)))); [|lia].
      now rewrite Z.sub_diag.
    + rewrite IH.
      destruct (Z.leb_spec (start + 1) key), (Z.leb_spec start key); try lia; cbn [andb].
      * replace (start + 1 + Z.of_nat (length rest)) with (start + Z.of_nat (S (length rest))) by lia.
        destruct (key <? start + Z.of_nat (S (length rest))); [|reflexivity].
        replace (Z.to_nat (key - start)) with (S (Z.to_nat (key - (start + 1)))) by lia.
        reflexivity.
      * reflexivity.
Qed.

Lemma find_numbered (p : MemUsers.InsertUser -> bool) (start : Z)
    (before after : list MemUsers.InsertUser) (insert : MemUsers.InsertUser) :
  Forall (fun i => p i = false) before -> p insert = true ->
  find (fun user => p (MemUsers.insertUser user))
       (map snd (numbered start (before ++ insert :: after)))
  = Some {| MemUsers.id := start + Z.of_nat (length before); MemUsers.insertUser := insert |}.
Proof.
  intros Hb Hp. revert start.
  induction Hb as [|i before Hi Hb IH]; intros start;
    cbn [numbered app map snd find MemUsers.insertUser length].
  - rewrite Hp. do 2 f_equal. cbn. lia.
  - rewrite Hi, IH. do 2 f_equal. lia.
Qed.

Lemma find_numbered_none (p : MemUsers.InsertUser -> bool) (start : Z)
    (inserts : list MemUsers.InsertUser) :
  Forall (fun i => p i = false) inserts ->
  find (fun user => p (MemUsers.insertUser user)) (map snd (numbered start inserts)) = None.
Proof.
  intros H. revert start. induction H as [|i rest Hi Hr IH]; intros start; cbn;
    [reflexivity|]. now rewrite Hi, IH.
Qed.

End Users.

(** X1.  Registrations hand out the identifiers 1, 2, 3, ... in order and
    never overwrite a user: after a series of registrations on a new
    storage, the [i]-th registered user is found under the identifier [i]
    with the members it was registered with, no user is found under any other
    identifier, and the counter stands one past the last identifier. *)
Theorem X1_users_numbered (inserts : list MemUsers.InsertUser) :
  let storage := MemUsers.createAll inserts MemUsers.empty in
  MemUsers.currentId storage = 1 + Z.of_nat (length inserts)
  /\ length (MemUsers.users storage) = length inserts
  /\ (forall i insert,
         nth_error inserts i = Some insert ->
         MemUsers.getUser storage (Z.of_nat i + 1)
         = Some {| MemUsers.id := Z.of_nat i + 1; MemUsers.insertUser := insert |})
  /\ (forall id, id < 1 \/ Z.of_nat (length inserts) < id ->
                 MemUsers.getUser storage id = None).
Proof.
  intros storage.
  destruct (createAll_from inserts MemUsers.empty) as [Hu Hc]; [constructor|].
  fold storage in Hu, Hc. cbn in Hu, Hc.
  assert (Hn : forall start l, length (numbered start l) = length l).
  { intros start l. revert start. induction l; intros start; cbn; [reflexivity|].
    now rewrite IHl. }
  split; [exact Hc|]. split; [now rewrite Hu, Hn|].
  unfold MemUsers.getUser. rewrite Hu. split.
  - intros i insert Hi. rewrite get_numbered.
    assert (i < length inserts)%nat by (apply nth_error_Some; congruence).
    destruct (Z.leb_spec 1 (Z.of_nat i + 1)); [|lia].
    destruct (Z.ltb_spec (Z.of_nat i + 1) (1 + Z.of_nat (length inserts))); [|lia].
    cbn [andb]. replace (Z.to_nat (Z.of_nat i + 1 - 1)) with i by lia.
    now rewrite Hi.
  - intros id Hid. rewrite get_numbered.
    destruct (Z.leb_spec 1 id); cbn [andb]; [|reflexivity].
    destruct (Z.ltb_spec id (1 + Z.of_nat (length inserts))); [lia|reflexivity].
Qed.

Lemma X1_users_numbered_witness :
  MemUsers.getUser
    (MemUsers.createAll [ {| MemUsers.username := "ada"; MemUsers.password := "x" |};
                          {| MemUsers.username := "bob"; MemUsers.password := "y" |} ]
                        MemUsers.empty) 2
  = Some {| MemUsers.id := 2;
            MemUsers.insertUser := {| MemUsers.username := "bob"; MemUsers.password := "y" |} |}.
Proof.
  apply (proj1 (proj2 (proj2 (X1_users_numbered
           [ {| MemUsers.username := "ada"; MemUsers.password := "x" |};
             {| MemUsers.username := "bob"; MemUsers.password := "y" |} ]))) 1%nat).
  reflexivity.
Defined.

(** X2.  The storage does not check that a user name is new: a lookup by
    name answers with the earliest registration under that name, whatever was
    registered later, and with nothing exactly when no registration bears the
    name. *)
Theorem X2_first_username_wins (inserts : list MemUsers.InsertUser) (name : string) :
  let storage := MemUsers.createAll inserts MemUsers.empty in
  (Forall (fun insert => MemUsers.username insert <> name) inserts ->
   MemUsers.getUserByUsername storage name = None)
  /\ (forall before insert after,
         inserts = (before ++ insert :: after)%list ->
         Forall (fun i => MemUsers.username i <> name) before ->
         MemUsers.username insert = name ->
         MemUsers.getUserByUsername storage name
         = Some {| MemUsers.id := 1 + Z.of_nat (length before);
                   MemUsers.insertUser := insert |}).
Proof.
  intros storage.
  destruct (createAll_from inserts MemUsers.empty) as [Hu _]; [constructor|].
  fold storage in Hu. cbn in Hu.
  unfold MemUsers.getUserByUsername. rewrite Hu. split.
  - intros H.
    apply (find_numbered_none (fun i => String.eqb (MemUsers.username i) name)).
    apply Forall_impl with (2 := H). intros i Hi. now apply String.eqb_neq.
  - intros before insert after -> Hb Hi.
    apply (find_numbered (fun i => String.eqb (MemUsers.username i) name)).
    + apply Forall_impl with (2 := Hb). intros i Hne. now apply String.eqb_neq.
    + now apply String.eqb_eq.
Qed.

Lemma X2_first_username_wins_witness :
  MemUsers.getUserByUsername
    (MemUsers.createAll [ {| MemUsers.username := "ada"; MemUsers.password := "x" |};
                          {| MemUsers.username := "bob"; MemUsers.password := "y" |};
                          {| MemUsers.username := "bob"; MemUsers.password := "z" |} ]
                        MemUsers.empty) "bob"
  = Some {| MemUsers.id := 2;
            MemUsers.insertUser := {| MemUsers.username := "bob"; MemUsers.password := "y" |} |}.
Proof.
  apply (proj2 (X2_first_username_wins _ "bob")
           [ {| MemUsers.username := "ada"; MemUsers.password := "x" |} ]
           {| MemUsers.username := "bob"; MemUsers.password := "y" |}
           [ {| MemUsers.username := "bob"; MemUsers.password := "z" |} ]).
  - reflexivity.
  - repeat constructor. discriminate.
  - reflexivity.
Defined.

(** ** The record table *)

Section Records.

Lemma get_set_same (key : string) (value : Repository) (m : MemStorage.t) :
  MemStorage.get key (MemStorage.set key value m) = Some value.
Proof.
  induction m as [|[k v] m IH]; cbn.
  - now rewrite String.eqb_refl.
  - destruct (String.eqb k key) eqn:E; cbn; [now rewrite String.eqb_refl|now rewrite E].
Qed.

Lemma get_set_other (key other : string) (value : Repository) (m : MemStorage.t) :
  other <> key ->
  MemStorage.get other (MemStorage.set key value m) = MemStorage.get other m.
Proof.
  intros Hne. induction m as [|[k v] m IH]; cbn.
  - destruct (String.eqb_spec key other); [congruence|reflexivity].
  - destruct (String.eqb_spec k key) as [->|Hk]; cbn.
    + destruct (String.eqb_spec key other); [congruence|reflexivity].
    + destruct (String.eqb k other); [reflexivity|exact IH].
Qed.

Lemma keys_set (key : string) (value : Repository) (m : MemStorage.t) :
  map fst (MemStorage.set key value m)
  = match MemStorage.get key m with
    | Some _ => map fst m
    | None => (map fst m ++ [key])%list
    end.
Proof.
  induction m as [|[k v] m IH]; cbn; [reflexivity|].
  destruct (String.eqb_spec k key) as [->|Hk]; cbn; [reflexivity|].
  rewrite IH. now destruct (MemStorage.get key m).
Qed.

Lemma get_none_keys (key : string) (m : MemStorage.t) :
  MemStorage.get key m = None -> ~ In key (map fst m).
Proof.
  induction m as [|[k v] m IH]; cbn; [tauto|].
  destruct (String.eqb_spec k key); [discriminate|]. intros H [E|E]; [congruence|].
  now apply IH.
Qed.

Lemma keyed_set (repo : Repository) (m : MemStorage.t) :
  keyed m -> keyed (MemStorage.set (id repo) repo m).
Proof.
  intros [Hk Hd]. split.
  - clear Hd. induction Hk as [|[k v] m Hkv Hm IH]; cbn.
    + now repeat constructor.
    + destruct (String.eqb k (id repo)); constructor; auto.
  - rewrite keys_set. destruct (MemStorage.get (id repo) m) eqn:E; [exact Hd|].
    apply NoDup_app; [exact Hd|repeat constructor; intros []|].
    intros key Hkey [<-|[]]. now apply (get_none_keys (id repo) m).
Qed.

Lemma keyed_get (m : MemStorage.t) (r : Repository) :
  keyed m -> In r (MemStorage.values m) -> MemStorage.get (id r) m = Some r.
Proof.
  unfold MemStorage.values. intros [Hk Hd] Hin.
  induction m as [|[k v] m IH]; [contradiction|].
  inversion Hk as [|? ? Hkv Hm]; subst. inversion Hd as [|? ? Hnin Hd']; subst.
  cbn in *. destruct Hin as [->|Hin].
  - now rewrite Hkv, String.eqb_refl.
  - destruct (String.eqb_spec k (id r)) as [E|_]; [|now apply IH].
    apply in_map_iff in Hin as ([k' v'] & Hv & Hin'). cbn in Hv. subst v'.
    rewrite Forall_forall in Hm. pose proof (Hm _ Hin') as Hk'. cbn in Hk'.
    exfalso. apply Hnin. rewrite E, <- Hk'.
    apply in_map_iff. exists (k', r). split; [reflexivity|exact Hin'].
Qed.

Lemma createdFrom_keyed (repos : list Repository) : keyed (createdFrom repos).
Proof.
  unfold createdFrom.
  assert (H : forall m, keyed m ->
                keyed (fold_left (fun m repo => snd (MemStorage.createRepository m repo)) repos m)).
  { induction repos as [|r repos IH]; intros m Hm; cbn [fold_left]; [exact Hm|].
    apply IH. now apply keyed_set. }
  apply H. split; constructor.
Qed.

Lemma get_after (after : list Repository) (m : MemStorage.t) (r : Repository) :
  Forall (fun later => id later <> id r) after ->
  MemStorage.get (id r) m = Some r ->
  MemStorage.get (id r)
    (fold_left (fun m repo => snd (MemStorage.createRepository m repo)) after m) = Some r.
Proof.
  intros H. revert m. induction H as [|later after Hl Ha IH]; intros m Hm; cbn [fold_left];
    [exact Hm|].
  apply IH. cbn. rewrite get_set_other by congruence. exact Hm.
Qed.

End Records.

(** X3.  Storing a record and reading it back: [createRepository] returns
    the record it was given, the record is then found under its identifier,
    and what is found under any other identifier is what was found before. *)
Theorem X3_create_then_get (m : MemStorage.t) (repo : Repository) :
  fst (MemStorage.createRepository m repo) = repo
  /\ MemStorage.getRepository (snd (MemStorage.createRepository m repo)) (id repo) = Some repo
  /\ (forall other, other <> id repo ->
        MemStorage.getRepository (snd (MemStorage.createRepository m repo)) other
        = MemStorage.getRepository m other).
Proof.
  unfold MemStorage.getRepository. cbn. split; [reflexivity|].
  split; [apply get_set_same|]. intros other Hne. now apply get_set_other.
Qed.

Lemma X3_create_then_get_witness :
  MemStorage.getRepository
    (snd (MemStorage.createRepository (repositories Sample.stocked) (Sample.bare None None)))
    "1296269"
  = MemStorage.getRepository (repositories Sample.stocked) "1296269".
Proof.
  apply (proj2 (proj2 (X3_create_then_get (repositories Sample.stocked)
                         (Sample.bare None None)))).
  discriminate.
Defined.

(** X4.  Whatever records are stored one after the other in a new table,
    every record stands under its own identifier and no identifier stands
    twice; so the table never holds more entries than records were stored,
    every record of the table is found under its identifier, and a record
    stored after all others with the same identifier is the one found (the
    last write wins). *)
Theorem X4_table_keyed (repos : list Repository) :
  let m := createdFrom repos in
  keyed m
  /\ (length m <= length repos)%nat
  /\ (forall r, In r (MemStorage.values m) -> MemStorage.getRepository m (id r) = Some r)
  /\ (forall before r after,
         repos = (before ++ r :: after)%list ->
         Forall (fun later => id later <> id r) after ->
         MemStorage.getRepository m (id r) = Some r).
Proof.
  intros m. pose proof (createdFrom_keyed repos) as Hk. fold m in Hk.
  split; [exact Hk|]. split; [|split].
  - unfold m, createdFrom.
    assert (H : forall start,
               (length (fold_left (fun m repo => snd (MemStorage.createRepository m repo))
                                  repos start)
                <= length start + length repos)%nat).
    { clear m Hk.
      induction repos as [|r repos IH]; intros start; cbn [fold_left length]; [lia|].
      specialize (IH (snd (MemStorage.createRepository start r))).
      assert (length (snd (MemStorage.createRepository start r)) <= S (length start))%nat.
      { cbn. rewrite <- (length_map fst), keys_set.
        destruct (MemStorage.get (id r) start); rewrite ?length_app, !length_map; cbn; lia. }
      lia. }
    apply (H MemStorage.empty).
  - intros r Hin. now apply keyed_get.
  - intros before r after -> Hafter. unfold m, createdFrom, MemStorage.getRepository.
    rewrite fold_left_app. cbn [fold_left].
    apply get_after; [exact Hafter|]. cbn. apply get_set_same.
Qed.

Lemma X4_table_keyed_witness :
  MemStorage.getRepository
    (createdFrom [Sample.bare None None; Sample.helloRecord; Sample.bare (Some "d") None])
    "1"
  = Some (Sample.bare (Some "d") None).
Proof.
  apply (proj2 (proj2 (proj2 (X4_table_keyed
           [Sample.bare None None; Sample.helloRecord; Sample.bare (Some "d") None])))
           [Sample.bare None None; Sample.helloRecord] (Sample.bare (Some "d") None) []).
  - reflexivity.
  - constructor.
Defined.

(** X5.  The lookup by full name answers with a stored record of that name,
    and with nothing only if no stored record has the name; after a record
    is stored in a table that had none of its name, the lookup by its name
    answers with that record. *)
Theorem X5_lookup_by_full_name (m : MemStorage.t) (name : string) :
  match MemStorage.getRepositoryByFullName m name with
  | Some r => In r (MemStorage.values m) /\ fullName r = name
  | None => forall r, In r (MemStorage.values m) -> fullName r <> name
  end
  /\ (forall repo,
         MemStorage.getRepositoryByFullName m name = None ->
         fullName repo = name ->
         MemStorage.getRepositoryByFullName (snd (MemStorage.createRepository m repo)) name
         = Some repo).
Proof.
  unfold MemStorage.getRepositoryByFullName. split.
  - destruct (find _ _) as [r|] eqn:E.
    + apply find_some in E as [Hin Hn]. split; [exact Hin|now apply String.eqb_eq].
    + intros r Hin. apply (find_none _ _ E) in Hin. now apply String.eqb_neq.
  - intros repo Hnone Hname. cbn.
    apply (find_after_set _ _ _ _ Hnone). now apply String.eqb_eq.
Qed.

Lemma X5_lookup_by_full_name_witness :
  MemStorage.getRepositoryByFullName
    (snd (MemStorage.createRepository MemStorage.empty Sample.helloRecord))
    "octocat/Hello-World"
  = Some Sample.helloRecord.
Proof.
  apply (proj2 (X5_lookup_by_full_name MemStorage.empty "octocat/Hello-World"));
    reflexivity.
Defined.

(** ** Ingestion as a step of the server *)

Section Steps.

Lemma values_set (P : Repository -> Prop) (key : string) (value : Repository)
    (m : MemStorage.t) :
  Forall P (MemStorage.values m) -> P value ->
  Forall P (MemStorage.values (MemStorage.set key value m)).
Proof.
  unfold MemStorage.values. intros H Hv.
  induction m as [|[k v] m IH]; cbn in *.
  - now repeat constructor.
  - inversion H; subst. destruct (String.eqb k key); cbn; constructor; auto.
Qed.

(** What the three requests of an ingestion can give. *)
Lemma fetchRepositoryData_cases env api owner repo n :
  match fetchRepositoryData env api owner repo n with
  | (Ok repository, n') => n' = (n + 3)%nat /\ described repository
  | (Throw e, n') =>
      exists reply message k,
        e = AxiosError reply message /\ n' = (n + k)%nat /\ (1 <= k <= 3)%nat
  end.
Proof.
  unfold fetchRepositoryData, andThen, request, ret.
  destruct (GitHub.getRepo api _) as [repoInfo|reply m]; cbn [await].
  2:{ exists reply, m, 1%nat. repeat split; lia. }
  destruct (GitHub.getLanguages api _) as [languagesData|reply m]; cbn [await].
  2:{ exists reply, m, 2%nat. repeat split; lia. }
  destruct (GitHub.getCommitActivity api _) as [data|reply m]; cbn [await].
  2:{ exists reply, m, 3%nat. repeat split; lia. }
  split; [lia|]. unfold described. cbn [description language]. split; eexists; split;
    try reflexivity.
  - destruct (GitHub.description repoInfo) as [d|]; cbn; [|discriminate].
    destruct (String.eqb_spec d ""); cbn; [discriminate|assumption].
  - destruct (GitHub.language repoInfo) as [l|]; cbn; [|discriminate].
    destruct (String.eqb_spec l ""); cbn; [discriminate|assumption].
Qed.

Lemma keeps_without_record (server : Server) (response : Response) (n : nat) :
  ingested server ->
  (requests server <= n <= requests server + 3)%nat ->
  (forall r, json response <> JRepository r) ->
  let server' := {| repositories := repositories server; requests := n |} in
  ingested server'
  /\ (requests server <= requests server' <= requests server + 3)%nat
  /\ (forall key r,
         MemStorage.getRepository (repositories server) key = Some r ->
         exists r', MemStorage.getRepository (repositories server') key = Some r')
  /\ (forall r,
         json response = JRepository r ->
         MemStorage.getRepository (repositories server') (id r) = Some r /\ described r).
Proof.
  intros Hs Hn Hr server'. split; [exact Hs|]. split; [exact Hn|]. split.
  - intros key r Hget. now exists r.
  - intros r E. now apply Hr in E.
Qed.

Lemma analyze_keeps isUrl env api url server response server' :
  ingested server ->
  analyze isUrl env api url server = (response, server') ->
  ingested server'
  /\ (requests server <= requests server' <= requests server + 3)%nat
  /\ (forall key r,
         MemStorage.getRepository (repositories server) key = Some r ->
         exists r', MemStorage.getRepository (repositories server') key = Some r')
  /\ (forall r,
         json response = JRepository r ->
         MemStorage.getRepository (repositories server') (id r) = Some r /\ described r).
Proof.
  intros Hs H. unfold analyze in H. destruct server as [repos n0]. cbn [repositories requests] in *.
  destruct (parseAnalyzeBody isUrl url) as [url'|e].
  2:{ inversion H; subst; clear H.
      apply (keeps_without_record {| repositories := repos; requests := n0 |} _ n0);
        [exact Hs|cbn; lia|apply respondTo_not_repository]. }
  destruct (ownerAndRepo url') as [owner repo].
  destruct (negb (truthy owner) || negb (truthy repo))%bool.
  { inversion H; subst; clear H.
    apply (keeps_without_record {| repositories := repos; requests := n0 |} _ n0);
      [exact Hs|cbn; lia|discriminate]. }
  destruct (MemStorage.getRepositoryByFullName repos _) as [existing|] eqn:Hget.
  { inversion H; subst; clear H. destruct Hs as [Hk Hd]. cbn [repositories requests] in *.
    split; [now split|]. split; [lia|]. split; [intros key r Hr; now exists r|].
    cbn. intros r [= <-]. apply find_some in Hget as [Hin _].
    split; [now apply keyed_get|]. rewrite Forall_forall in Hd. now apply Hd. }
  pose proof (fetchRepositoryData_cases env api (render owner) (render repo) n0) as Hf.
  destruct (fetchRepositoryData env api _ _ _) as [[repoData|e] n].
  - destruct Hf as [-> Hdesc]. cbn in H. inversion H; subst; clear H.
    destruct Hs as [Hk Hd]. cbn [repositories requests] in *.
    split; [split; [now apply keyed_set|now apply values_set]|].
    split; [lia|]. split.
    + intros key r Hr. unfold MemStorage.getRepository in *.
      destruct (String.eqb_spec key (id repoData)) as [->|Hne].
      * exists repoData. apply get_set_same.
      * exists r. now rewrite get_set_other.
    + cbn. intros r [= <-]. split; [apply get_set_same|exact Hdesc].
  - destruct Hf as (reply & m & k & -> & -> & Hk3). inversion H; subst; clear H.
    apply (keeps_without_record {| repositories := repos; requests := n0 |} _ (n0 + k));
      [exact Hs|cbn; lia|intros r; destruct reply; cbn; discriminate].
Qed.

Lemma generate_defined today repository options d repoName :
  description repository = Some d ->
  nth_error (split "/" (fullName repository)) 1 = Some repoName ->
  exists document, generateReadmeContent today repository options = Ok document.
Proof.
  intros Hd Hn. unfold generateReadmeContent. cbv zeta. rewrite Hd, Hn. cbn [lowerOf bind].
  destruct (orDefault true (includeUsage options)); cbn [bind]; [|eexists; reflexivity].
  pose proof (readmeUsage_defined repository (Some repoName)) as Hu.
  destruct (readmeUsage repository (Some repoName)) as [usage|e]; cbn [bind isOk] in *;
    [eexists; reflexivity|discriminate].
Qed.

End Steps.

(** X6.  An ingestion keeps the server in order.  If every stored record
    stands under its own identifier, once, with a description and a primary
    language that are not empty, then this is so after the request as well;
    the request sends at most three requests to the provider; whatever was
    found under an identifier before is still found under it (perhaps
    replaced); and a record that the answer carries is stored under its
    identifier and has a description and a primary language. *)
Theorem X6_analyze_keeps_order isUrl env api url server response server' :
  ingested server ->
  analyze isUrl env api url server = (response, server') ->
  ingested server'
  /\ (requests server <= requests server' <= requests server + 3)%nat
  /\ (forall key r,
         MemStorage.getRepository (repositories server) key = Some r ->
         exists r', MemStorage.getRepository (repositories server') key = Some r')
  /\ (forall r,
         json response = JRepository r ->
         MemStorage.getRepository (repositories server') (id r) = Some r /\ described r).
Proof.
  apply analyze_keeps.
Qed.

Lemma X6_analyze_keeps_order_witness :
  ingested (snd (analyze Sample.isUrl Sample.env (Sample.api GitHub.NotArray)
                   "https://github.com/octocat/Hello-World" Sample.server)).
Proof.
  destruct (X6_analyze_keeps_order Sample.isUrl Sample.env (Sample.api GitHub.NotArray)
              "https://github.com/octocat/Hello-World" Sample.server
              (fst (analyze Sample.isUrl Sample.env (Sample.api GitHub.NotArray)
                      "https://github.com/octocat/Hello-World" Sample.server))
              (snd (analyze Sample.isUrl Sample.env (Sample.api GitHub.NotArray)
                      "https://github.com/octocat/Hello-World" Sample.server)))
    as [H _].
  - split; [split|]; constructor.
  - apply surjective_pairing.
  - exact H.
Defined.

(** X7.  Ingestion, then generation.  When an ingestion on a server in order
    answers with a record whose full name has a second segment, a request for
    the README of that record's identifier is answered with status 200 and a
    document, for every options object and whatever the date. *)
Theorem X7_readme_after_analyze isUrl env api url server response server' r name
    env' options :
  ingested server ->
  analyze isUrl env api url server = (response, server') ->
  json response = JRepository r ->
  nth_error (split "/" (fullName r)) 1 = Some name ->
  exists document,
    readme env' (id r) options server'
    = {| statusCode := 200; json := JReadme document "README.md" |}.
Proof.
  intros Hs Ha Hr Hn.
  destruct (analyze_keeps _ _ _ _ _ _ _ Hs Ha) as (_ & _ & _ & Hstored).
  destruct (Hstored r Hr) as [Hget [[d [Hd _]] _]].
  unfold readme. rewrite Hget.
  destruct (generate_defined (today env') r options d name Hd Hn) as [document ->].
  now exists document.
Qed.

Lemma X7_readme_after_analyze_witness :
  exists document,
    readme Sample.env "1296269" (Sample.options None []) Sample.stocked
    = {| statusCode := 200; json := JReadme document "README.md" |}.
Proof.
  apply (X7_readme_after_analyze Sample.isUrl Sample.env (Sample.api GitHub.NotArray)
           "https://github.com/octocat/Hello-World" Sample.stocked
           {| statusCode := 200; json := JRepository Sample.helloRecord |}
           Sample.stocked Sample.helloRecord "Hello-World" Sample.env
           (Sample.options None [])).
  - split; [split|]; repeat constructor; try (intros []).
    + eexists. split; [reflexivity|discriminate].
    + eexists. split; [reflexivity|discriminate].
  - reflexivity.
  - reflexivity.
  - reflexivity.
Defined.

(** X8.  A refusal of the provider is passed on.  For a well-formed address
    whose owner/name pair is not in the cache, when the request for the
    repository is rejected, the answer carries the status of the provider's
    reply and its message after "GitHub API error: " ("Unknown error" when
    the reply has none), or status 500 when there was no reply at all; one
    request has been sent and nothing is stored. *)
Theorem X8_analyze_passes_refusal isUrl env api url server owner repo reply message :
  parseAnalyzeBody isUrl url = Ok url ->
  ownerAndRepo url = (Some owner, Some repo) ->
  owner <> "" -> repo <> "" ->
  MemStorage.getRepositoryByFullName (repositories server) (owner ++ "/" ++ repo) = None ->
  GitHub.getRepo api (repoUrl owner repo) = Rejected reply message ->
  analyze isUrl env api url server
  = (match reply with
     | Some response =>
         {| statusCode := status response;
            json := JMessage ("GitHub API error: " ++
                              match dataMessage response with
                              | Some text => if String.eqb text "" then "Unknown error" else text
                              | None => "Unknown error"
                              end) |}
     | None => {| statusCode := 500; json := JMessage "Failed to analyze repository" |}
     end,
     {| repositories := repositories server; requests := S (requests server) |}).
Proof.
  intros Hparse Hsplit Ho Hr Hmiss Hrej.
  unfold analyze. rewrite Hparse, Hsplit. cbn [truthy render].
  destruct (String.eqb_spec owner ""); [contradiction|].
  destruct (String.eqb_spec repo ""); [contradiction|].
  cbn [negb orb]. rewrite Hmiss.
  unfold fetchRepositoryData, andThen, request. rewrite Hrej. cbn [await].
  destruct reply as [response|]; [|reflexivity].
  cbn [respondTo]. destruct (dataMessage response) as [text|]; cbn [truthy render];
    [|reflexivity].
  now destruct (String.eqb text "").
Qed.

Lemma X8_analyze_passes_refusal_witness :
  analyze Sample.isUrl Sample.env (Sample.api GitHub.NotArray)
    "https://github.com/octocat/Spoon-Knife" Sample.server
  = ({| statusCode := 404; json := JMessage "GitHub API error: Not Found" |},
     {| repositories := MemStorage.empty; requests := 1 |}).
Proof.
  apply (X8_analyze_passes_refusal Sample.isUrl Sample.env (Sample.api GitHub.NotArray)
           "https://github.com/octocat/Spoon-Knife" Sample.server "octocat" "Spoon-Knife"
           (Some {| status := 404; dataMessage := Some "Not Found"; dataError := None |})
           "Request failed with status code 404");
    (reflexivity || discriminate).
Defined.

Section Slashes.

Lemma item_last {A : Type} (l : list A) (a : A) :
  item (l ++ [a]) (Z.of_nat (length (l ++ [a])) - 1) = Some a.
Proof.
  unfold item. rewrite length_app. cbn [length].
  destruct (Z.ltb_spec (Z.of_nat (length l + 1) - 1) 0); [lia|].
  replace (Z.to_nat (Z.of_nat (length l + 1) - 1)) with (length l + 0)%nat by lia.
  rewrite nth_error_app2 by lia.
  replace (length l + 0 - length l)%nat with 0%nat by lia. reflexivity.
Qed.

Lemma ownerAndRepo_two_slashes (u : string) : snd (ownerAndRepo (u ++ "//")) = Some "".
Proof.
  unfold ownerAndRepo. cbn [snd].
  replace (u ++ "//") with ((u ++ "/") ++ "/") by (now rewrite append_assoc).
  rewrite strip_added_slash.
  change (u ++ "/") with (u ++ String "/" "").
  rewrite split_app. apply item_last.
Qed.

End Slashes.

(** X9.  One trailing slash is forgiven, two are not: an address that ends
    with two slashes is answered with status 400 and a message, whatever
    precedes them; nothing is requested and nothing is stored. *)
Theorem X9_two_trailing_slashes isUrl env api (u : string) server :
  exists message,
    analyze isUrl env api (u ++ "//") server
    = ({| statusCode := 400; json := JMessage message |}, server).
Proof.
  unfold analyze, parseAnalyzeBody.
  destruct (isUrl (u ++ "//")); cbn [negb]; cbv iota beta; [|eexists; reflexivity].
  destruct (includes (u ++ "//") "github.com"); cbn [negb]; cbv iota beta;
    [|eexists; reflexivity].
  pose proof (ownerAndRepo_two_slashes u) as H.
  destruct (ownerAndRepo (u ++ "//")) as [owner repo]. cbn [snd] in H. subst repo.
  cbn [truthy String.eqb negb]. rewrite orb_true_r. eexists. reflexivity.
Qed.

Section Files.

Lemma last_split (dir name : string) :
  includes name "/" = false -> last (split "/" (dir ++ "/" ++ name)) "" = name.
Proof.
  intros H. change (dir ++ "/" ++ name) with (dir ++ String "/" name).
  rewrite split_app, (split_no_slash name H). apply last_last.
Qed.

End Files.

(** X10.  The name reported for an analysed file is the last segment of its
    path: for a path [dir/name] whose last segment [name] has no slash the
    name is [name], and the whole path when that segment is empty (a path
    that ends with a slash). *)
Theorem X10_file_name (dir name : string) :
  includes name "/" = false ->
  fileNameOf (dir ++ "/" ++ name)
  = if String.eqb name "" then dir ++ "/" ++ name else name.
Proof.
  intros H. unfold fileNameOf. now rewrite (last_split dir name H).
Qed.

Lemma X10_file_name_witness :
  fileNameOf "client/src/App.tsx" = "App.tsx".
Proof.
  apply (X10_file_name "client/src" "App.tsx"). reflexivity.
Defined.

(** X11.  An answer of the file route with status 200 and an analysis is
    always the analysis of that file: the body named a stored repository
    and a path, the content of the file and the tree of the repository were
    both obtained, and the analysis is what the completion service returned
    for the listing of that tree and the whole content of the file between
    fences; the name in the answer is the file name of the path. *)
Theorem X11_file_analysis api llm bodyId bodyPath server name analysis :
  analyzeFile api llm bodyId bodyPath server
  = {| statusCode := 200; json := JAnalysis name analysis |} ->
  exists id path repository content tree,
    bodyId = Some id /\ bodyPath = Some path /\ id <> "" /\ path <> ""
    /\ MemStorage.getRepository (repositories server) id = Some repository
    /\ GitHub.getContents api (fileContentUrl (fullName repository) path)
       = Resolved (Some content)
    /\ GitHub.getTree api (dirStructureUrl (fullName repository)) = Resolved tree
    /\ OpenRouter.analyzeCode (apiKey llm) (post llm) (directoryListing tree)
         (codeContentOf path content) path = Ok analysis
    /\ name = fileNameOf path.
Proof.
  unfold analyzeFile, parseAnalyzeFileBody.
  destruct bodyId as [id|]; [|discriminate].
  destruct (String.eqb_spec id ""); [discriminate|].
  destruct bodyPath as [path|]; [|discriminate].
  destruct (String.eqb_spec path ""); [discriminate|].
  cbn [bind fst snd].
  destruct (MemStorage.getRepository _ id) as [repository|] eqn:Hrepo; [|discriminate].
  destruct (GitHub.getContents _ _) as [fileData|reply message] eqn:Hfile; cbn [await bind];
    [|destruct reply; discriminate].
  destruct (GitHub.getTree _ _) as [tree|reply message] eqn:Htree; cbn [await bind];
    [|destruct reply; discriminate].
  destruct fileData as [content|]; cbn [decode bind]; [|discriminate].
  destruct (OpenRouter.analyzeCode _ _ _ _ _) as [text|e] eqn:Hllm; cbn [bind].
  - intros [= <- <-]. exists id, path, repository, content, tree. repeat split; assumption.
  - apply analyzeCode_throws in Hllm as [m ->]. discriminate.
Qed.

Lemma X11_file_analysis_witness :
  exists id path repository content tree,
    Some "1296269" = Some id /\ Some "src/index.ts" = Some path /\ id <> "" /\ path <> ""
    /\ MemStorage.getRepository (repositories Sample.stocked) id = Some repository
    /\ GitHub.getContents (Sample.api GitHub.Missing) (fileContentUrl (fullName repository) path)
       = Resolved (Some content)
    /\ GitHub.getTree (Sample.api GitHub.Missing) (dirStructureUrl (fullName repository))
       = Resolved tree
    /\ OpenRouter.analyzeCode (apiKey Sample.llm) (post Sample.llm) (directoryListing tree)
         (codeContentOf path content) path = Ok "## SUMMARY"
    /\ "index.ts" = fileNameOf path.
Proof.
  apply (X11_file_analysis (Sample.api GitHub.Missing) Sample.llm
           (Some "1296269") (Some "src/index.ts") Sample.stocked "index.ts" "## SUMMARY").
  reflexivity.
Defined.

(** X12.  A file that the provider refuses is reported with the provider's
    own status and message, whatever the completion service would have
    answered: for a stored repository and a non-empty path, when the request
    for the content is rejected with a reply, the answer carries the status
    of that reply and its message after "GitHub API error: ". *)
Theorem X12_file_refused api llm id path server repository response message :
  id <> "" -> path <> "" ->
  MemStorage.getRepository (repositories server) id = Some repository ->
  GitHub.getContents api (fileContentUrl (fullName repository) path)
  = Rejected (Some response) message ->
  analyzeFile api llm (Some id) (Some path) server
  = {| statusCode := status response;
       json := JMessage ("GitHub API error: " ++
                         match dataMessage response with
                         | Some text => if String.eqb text "" then "Unknown error" else text
                         | None => "Unknown error"
                         end) |}.
Proof.
  intros Hid Hpath Hrepo Hfile. unfold analyzeFile, parseAnalyzeFileBody.
  destruct (String.eqb_spec id ""); [contradiction|].
  destruct (String.eqb_spec path ""); [contradiction|].
  cbn [bind fst snd]. rewrite Hrepo, Hfile. cbn [await bind respondTo].
  destruct (dataMessage response) as [text|]; cbn [truthy render]; [|reflexivity].
  now destruct (String.eqb text "").
Qed.

Lemma X12_file_refused_witness :
  analyzeFile (Sample.api GitHub.Missing) Sample.llm (Some "1296269") (Some "src/a.py")
    Sample.stocked
  = {| statusCode := 404; json := JMessage "GitHub API error: Not Found" |}.
Proof.
  apply (X12_file_refused (Sample.api GitHub.Missing) Sample.llm "1296269" "src/a.py"
           Sample.stocked Sample.helloRecord
           {| status := 404; dataMessage := Some "Not Found"; dataError := None |}
           "Request failed with status code 404");
    (reflexivity || discriminate).
Defined.

(** X13.  A reply for a file that carries no content fails the whole file
    route, where the repository route passes such a file over.  For a stored
    repository and a non-empty path, when the content request is answered
    without content and the tree request is answered: the file route answers
    with status 500 and "Failed to analyze file", whatever the completion
    service would have answered; in the sample of the repository route a
    file of that path accounts for nothing, the sample being the one of the
    other files; and the repository route answers as the completion service
    decides. *)
Theorem X13_file_without_content api llm id path server repository tree :
  id <> "" -> path <> "" ->
  MemStorage.getRepository (repositories server) id = Some repository ->
  GitHub.getContents api (fileContentUrl (fullName repository) path) = Resolved None ->
  GitHub.getTree api (dirStructureUrl (fullName repository)) = Resolved tree ->
  let owner := render (nth_error (split "/" (fullName repository)) 0) in
  let repo := render (nth_error (split "/" (fullName repository)) 1) in
  analyzeFile api llm (Some id) (Some path) server
  = {| statusCode := 500; json := JMessage "Failed to analyze file" |}
  /\ (forall before file after,
         GitHub.path file = path ->
         sampleCodeOf api owner repo (before ++ file :: after)
         = sampleCodeOf api owner repo (before ++ after))
  /\ analyzeRepositoryCode api llm (Some id) server
     = match OpenRouter.analyzeCode (apiKey llm) (post llm) (directoryListing tree)
               (sampleCodeOf api owner repo (codeFilesOf tree)) "entire repository" with
       | Ok analysis =>
           {| statusCode := 200; json := JAnalysis (fullName repository) analysis |}
       | Throw _ =>
           {| statusCode := 500; json := JMessage "Failed to analyze repository" |}
       end.
Proof.
  intros Hid Hpath Hrepo Hfile Htree owner repo. split; [|split].
  - unfold analyzeFile, parseAnalyzeFileBody.
    destruct (String.eqb_spec id ""); [contradiction|].
    destruct (String.eqb_spec path ""); [contradiction|].
    cbn [bind fst snd]. rewrite Hrepo, Hfile. cbn [await bind].
    rewrite Htree. reflexivity.
  - intros before file after Hsame. unfold sampleCodeOf.
    rewrite !sampleCodeOf_from, !map_app, !appendAll_app. cbn [map appendAll].
    rewrite Hsame. unfold fileContentUrl in Hfile. cbv zeta in Hfile.
    fold owner repo in Hfile. rewrite Hfile. reflexivity.
  - unfold analyzeRepositoryCode, parseRepositoryId.
    destruct (String.eqb_spec id ""); [contradiction|].
    cbn [bind]. rewrite Hrepo. cbv zeta.
    unfold dirStructureUrl in Htree. cbv zeta in Htree. rewrite Htree. cbn [await bind].
    fold owner repo.
    destruct (OpenRouter.analyzeCode _ _ _ _ _) as [analysis|e] eqn:E; cbn [bind];
      [reflexivity|].
    apply analyzeCode_throws in E as [message ->]. reflexivity.
Qed.

Lemma X13_file_without_content_witness :
  analyzeFile (Sample.api GitHub.Missing) Sample.llm (Some "1296269") (Some "src/d.c")
    Sample.stocked
  = {| statusCode := 500; json := JMessage "Failed to analyze file" |}
  /\ analyzeRepositoryCode (Sample.api GitHub.Missing) Sample.llm (Some "1296269")
       Sample.stocked
     = {| statusCode := 200; json := JAnalysis "octocat/Hello-World" "## SUMMARY" |}.
Proof.
  destruct (X13_file_without_content (Sample.api GitHub.Missing) Sample.llm "1296269"
              "src/d.c" Sample.stocked Sample.helloRecord Sample.files)
    as (Hfile & _ & Hrepo); try reflexivity; try discriminate.
  split; [exact Hfile|]. rewrite Hrepo. reflexivity.
Defined.

(** X14.  The completion service returns an analysis exactly when a
    non-empty key is configured and the provider's reply to the request
    (the fixed model, the two messages, the key as bearer) has at least one
    choice; the analysis is then the first choice. *)
Theorem X14_analysis_is_first_choice key post dir code path analysis :
  OpenRouter.analyzeCode key post dir code path = Ok analysis
  <-> exists k rest,
        key = Some k /\ k <> ""
        /\ post (completionRequest k dir code path)
           = Resolved {| OpenRouter.choices := Some (analysis :: rest) |}.
Proof.
  unfold OpenRouter.analyzeCode, OpenRouter.attempt, completionRequest. split.
  - destruct key as [k|]; cbn [truthy negb]; [|discriminate].
    destruct (String.eqb_spec k ""); cbn [negb]; [discriminate|].
    cbn [render].
    destruct (post _) as [[[[|first rest]|]]|reply message] eqn:Hpost;
      cbn [await bind OpenRouter.choices]; try discriminate.
    intros [= <-]. now exists k, rest.
  - intros (k & rest & -> & Hk & Hpost). cbn [truthy negb render].
    destruct (String.eqb_spec k ""); [contradiction|]. cbn [negb].
    now rewrite Hpost.
Qed.

(** X15.  What the completion service reports when the provider rejects the
    request: with a reply, "OpenRouter API error: " followed by the error
    member of the reply, or by the message of the failure when the reply has
    no such member; without a reply, "Failed to analyze code with
    OpenRouter".  The failure is a plain error in each case. *)
Theorem X15_completion_refused k post dir code path reply message :
  k <> "" ->
  post (completionRequest k dir code path) = Rejected reply message ->
  OpenRouter.analyzeCode (Some k) post dir code path
  = Throw (Error
      match reply with
      | Some response =>
          "OpenRouter API error: " ++
          match dataError response with
          | Some text => if String.eqb text "" then message else text
          | None => message
          end
      | None => "Failed to analyze code with OpenRouter"
      end).
Proof.
  intros Hk Hpost.
  unfold OpenRouter.analyzeCode, OpenRouter.attempt. cbn [truthy negb render].
  destruct (String.eqb_spec k ""); [contradiction|]. cbn [negb].
  unfold completionRequest in Hpost. rewrite Hpost. cbn [await bind OpenRouter.rethrow].
  destruct reply as [response|]; [|reflexivity].
  destruct (dataError response) as [text|]; cbn [truthy render]; [|reflexivity].
  now destruct (String.eqb text "").
Qed.

Lemma X15_completion_refused_witness :
  OpenRouter.analyzeCode (Some "sk-or-1")
    (fun _ => Rejected (Some {| status := 402; dataMessage := None;
                                dataError := Some "Insufficient credits" |})
                       "Request failed with status code 402")
    "file: a.py" "print(1)" "a.py"
  = Throw (Error "OpenRouter API error: Insufficient credits").
Proof.
  apply (X15_completion_refused "sk-or-1"
           (fun _ => Rejected (Some {| status := 402; dataMessage := None;
                                       dataError := Some "Insufficient credits" |})
                              "Request failed with status code 402")
           "file: a.py" "print(1)" "a.py"
           (Some {| status := 402; dataMessage := None;
                    dataError := Some "Insufficient credits" |})
           "Request failed with status code 402");
    (reflexivity || discriminate).
Defined.

Section Metrics.

(** What a successful ingestion puts in the computed members of the record. *)
Lemma fetchRepositoryData_members env api owner repo n r n' :
  fetchRepositoryData env api owner repo n = (Ok r, n') ->
  exists repoInfo data,
    GitHub.getRepo api (repoUrl owner repo) = Resolved repoInfo
    /\ GitHub.getCommitActivity api (repoUrl owner repo ++ "/stats/commit_activity")
       = Resolved data
    /\ id r = showZ (GitHub.id repoInfo)
    /\ stars r = formatNumber (GitHub.stargazers_count repoInfo)
    /\ forks r = formatNumber (GitHub.forks_count repoInfo)
    /\ openIssues r = formatNumber (GitHub.open_issues_count repoInfo)
    /\ codeQuality r = Qfloor (70 + random env 0%nat * 25)
    /\ codeCoverage r = Qfloor (60 + random env 1%nat * 30)
    /\ activeContributors r = Qfloor (10 + random env 2%nat * 490)
    /\ commitFrequency r
       = showZ (round (averageWeeklyCommitsOf (commitDataOf data))) ++ "/week".
Proof.
  unfold fetchRepositoryData, andThen, request, ret.
  destruct (GitHub.getRepo api _) as [repoInfo|] eqn:E1; cbn [await]; [|discriminate].
  destruct (GitHub.getLanguages api _) as [languagesData|] eqn:E2; cbn [await]; [|discriminate].
  destruct (GitHub.getCommitActivity api _) as [data|] eqn:E3; cbn [await]; [|discriminate].
  intros H. apply (f_equal fst) in H. cbn [fst] in H. apply Ok_injective in H. subst r.
  exists repoInfo, data. repeat split; assumption || reflexivity.
Qed.

Lemma Qfloor_scaled (base span : Z) (x : Q) :
  0 <= span -> (0 <= x)%Q -> (x <= 1)%Q ->
  base <= Qfloor (inject_Z base + x * inject_Z span) <= base + span.
Proof.
  intros Hspan H0 H1. split.
  - rewrite <- (Qfloor_Z base) at 1. apply Qfloor_resp_le.
    rewrite <- (Qplus_0_r (inject_Z base)) at 1.
    apply Qplus_le_r. apply Qmult_le_0_compat; [exact H0|].
    change 0%Q with (inject_Z 0). now rewrite <- Zle_Qle.
  - rewrite <- (Qfloor_Z (base + span)). apply Qfloor_resp_le.
    rewrite inject_Z_plus. apply Qplus_le_r.
    rewrite <- (Qmult_1_l (inject_Z span)) at 2.
    apply Qmult_le_compat_r; [exact H1|].
    change 0%Q with (inject_Z 0). now rewrite <- Zle_Qle.
Qed.

End Metrics.

(** X16.  The three estimated figures of an ingested record stay within
    their ranges, whatever the random generator returns in its range from 0
    to 1: the code quality is between 70 and 95, the coverage between 60 and
    90, and the number of active contributors between 10 and 500. *)
Theorem X16_estimates_in_range env api owner repo n r n' :
  (forall i, (0 <= random env i)%Q /\ (random env i <= 1)%Q) ->
  fetchRepositoryData env api owner repo n = (Ok r, n') ->
  70 <= codeQuality r <= 95
  /\ 60 <= codeCoverage r <= 90
  /\ 10 <= activeContributors r <= 500.
Proof.
  intros Hrandom H.
  apply fetchRepositoryData_members in H
    as (repoInfo & data & _ & _ & _ & _ & _ & _ & -> & -> & -> & _).
  destruct (Hrandom 0%nat) as [Ha0 Ha1], (Hrandom 1%nat) as [Hb0 Hb1],
           (Hrandom 2%nat) as [Hc0 Hc1].
  repeat split.
  all: first [ apply (Qfloor_scaled 70 25 _ ltac:(lia) Ha0 Ha1)
             | apply (Qfloor_scaled 60 30 _ ltac:(lia) Hb0 Hb1)
             | apply (Qfloor_scaled 10 490 _ ltac:(lia) Hc0 Hc1) ].
Qed.

Lemma X16_estimates_in_range_witness :
  exists r n',
    fetchRepositoryData Sample.env (Sample.api GitHub.Missing) "octocat" "Hello-World" 0%nat
      = (Ok r, n')
    /\ 70 <= codeQuality r <= 95.
Proof.
  eexists _, _. split; [reflexivity|].
  refine (proj1 (X16_estimates_in_range Sample.env (Sample.api GitHub.Missing)
                   "octocat" "Hello-World" 0%nat _ _ _ eq_refl)).
  intros i. split; discriminate.
Defined.

Section Frequency.

Lemma total_bounds (lo hi : Z) (weeks : list GitHub.WeekData) (acc : Z) :
  Forall (fun week => lo <= GitHub.total week <= hi) weeks ->
  acc + lo * Z.of_nat (length weeks)
  <= fold_left (fun sum week => sum + GitHub.total week) weeks acc
  <= acc + hi * Z.of_nat (length weeks).
Proof.
  intros H. revert acc. induction H as [|week weeks Hweek _ IH]; intros acc.
  - cbn. lia.
  - cbn [fold_left length]. specialize (IH (acc + GitHub.total week)). lia.
Qed.

Lemma round_Z (z : Z) : round (inject_Z z) = z.
Proof.
  unfold round, Qfloor, Qplus, inject_Z. cbn [Qnum Qden Pos.mul].
  replace (z * 2 + 1 * 1) with (1 + z * 2) by lia.
  rewrite Z.div_add by lia. reflexivity.
Qed.

Lemma round_le (x y : Q) : (x <= y)%Q -> round x <= round y.
Proof.
  intros H. unfold round. apply Qfloor_resp_le. now apply Qplus_le_l.
Qed.

Lemma average_bounds (lo hi sum k : Z) :
  0 < k -> lo * k <= sum <= hi * k ->
  lo <= round (inject_Z sum / inject_Z k) <= hi.
Proof.
  intros Hk [Hlo Hhi].
  assert (Hpos : (0 < inject_Z k)%Q) by (change 0%Q with (inject_Z 0); now rewrite <- Zlt_Qlt).
  split.
  - rewrite <- (round_Z lo). apply round_le. apply Qle_shift_div_l; [exact Hpos|].
    rewrite <- inject_Z_mult. now rewrite <- Zle_Qle.
  - rewrite <- (round_Z hi). apply round_le. apply Qle_shift_div_r; [exact Hpos|].
    rewrite <- inject_Z_mult. now rewrite <- Zle_Qle.
Qed.

Lemma averageWeeklyCommitsOf_bounds (lo hi : Z) (weeks : list GitHub.WeekData) :
  weeks <> [] ->
  Forall (fun week => lo <= GitHub.total week <= hi) (lastN 12 weeks) ->
  lo <= round (averageWeeklyCommitsOf (GitHub.Weeks weeks)) <= hi.
Proof.
  intros Hne H. unfold averageWeeklyCommitsOf.
  pose proof (total_bounds lo hi _ 0 H) as Hsum. rewrite lastN_length in Hsum.
  assert (Hlen : (0 < length weeks)%nat) by (destruct weeks; [contradiction|cbn; lia]).
  replace (Z.of_nat (Nat.min (length weeks) 12)) with (Z.min (Z.of_nat (length weeks)) 12)
    in Hsum by lia.
  destruct (Z.eqb_spec (Z.min (Z.of_nat (length weeks)) 12) 0) as [E|_]; [lia|].
  apply average_bounds; lia.
Qed.

End Frequency.

(** X17.  The commit frequency of an ingested record is a whole number
    followed by "/week".  Without weekly data (no body, a body that is not an
    array, or an empty array) it is "0/week"; otherwise the number lies
    between the smallest and the largest total of the last twelve weeks
    reported: whenever these totals all lie between two bounds, so does the
    number. *)
Theorem X17_commit_frequency env api owner repo n r n' :
  fetchRepositoryData env api owner repo n = (Ok r, n') ->
  exists data,
    GitHub.getCommitActivity api (repoUrl owner repo ++ "/stats/commit_activity")
    = Resolved data
    /\ match data with
       | GitHub.Weeks (week :: weeks) =>
           exists average,
             commitFrequency r = showZ average ++ "/week"
             /\ forall lo hi,
                  Forall (fun week => lo <= GitHub.total week <= hi)
                         (lastN 12 (week :: weeks)) ->
                  lo <= average <= hi
       | _ => commitFrequency r = "0/week"
       end.
Proof.
  intros H.
  apply fetchRepositoryData_members in H
    as (repoInfo & data & _ & Hdata & _ & _ & _ & _ & _ & _ & _ & ->).
  exists data. split; [exact Hdata|].
  destruct data as [|[|week weeks]|]; try reflexivity.
  cbn [commitDataOf]. eexists. split; [reflexivity|].
  intros lo hi Hall. now apply averageWeeklyCommitsOf_bounds.
Qed.

Lemma X17_commit_frequency_witness :
  exists r n',
    fetchRepositoryData Sample.env
      (Sample.api (GitHub.Weeks [ {| GitHub.week := 1761436800; GitHub.total := 4 |};
                                  {| GitHub.week := 1762041600; GitHub.total := 7 |} ]))
      "octocat" "Hello-World" 0%nat
      = (Ok r, n')
    /\ exists average, commitFrequency r = showZ average ++ "/week" /\ 4 <= average <= 7.
Proof.
  eexists _, _. split; [reflexivity|].
  destruct (X17_commit_frequency Sample.env
              (Sample.api (GitHub.Weeks [ {| GitHub.week := 1761436800; GitHub.total := 4 |};
                                          {| GitHub.week := 1762041600; GitHub.total := 7 |} ]))
              "octocat" "Hello-World" 0%nat _ _ eq_refl) as (data & E & H).
  vm_compute in E. injection E as <-. destruct H as (average & Hr & Hbounds).
  exists average. split; [exact Hr|]. apply Hbounds. repeat constructor; cbn; lia.
Defined.

Section Counts.

Lemma toFixed1_ratio (num : Z) (d : positive) :
  0 <= num ->
  toFixed1 (inject_Z num / inject_Z (Zpos d))
  = let tenths := (20 * num + Zpos d) / (2 * Zpos d) in
    showZ (tenths / 10) ++ "." ++ showZ (tenths mod 10).
Proof.
  intros Hnum. unfold toFixed1.
  assert (Hle : Qle_bool 0 (inject_Z num / inject_Z (Zpos d)) = true).
  { apply Qle_bool_iff. unfold Qle, Qdiv, Qmult, Qinv, inject_Z. cbn [Qnum Qden]. lia. }
  rewrite Hle. unfold toFixed1abs.
  replace (Qfloor (inject_Z num / inject_Z (Zpos d) * 10 + (1 # 2)))
    with ((20 * num + Zpos d) / (2 * Zpos d)); [reflexivity|].
  unfold Qfloor, Qdiv, Qmult, Qplus, Qinv, inject_Z. cbn [Qnum Qden]. f_equal; lia.
Qed.

End Counts.

(** X18.  How a count is shown.  A count below 1000 is shown as it is.  From
    1000 up to 999999 it is shown in thousands with one decimal and the
    suffix "k", from 1000000 on in millions with the suffix "M"; the decimal
    is rounded to the nearest tenth, so that a count from 999951 to 999999
    is shown as "1000.0k".  Stated for the counts below 10^12 that do not
    lie half-way between two tenths: for these the quotient and the double
    nearest to it round to the same tenth. *)
Theorem X18_format_number (num : Z) :
  (1000 <= num < 1000000 -> num mod 100 <> 50) ->
  (1000000 <= num -> num mod 100000 <> 50000 /\ num < 1000000000000) ->
  formatNumber num
  = if num <? 1000 then showZ num
    else if num <? 1000000 then
      let tenths := (num + 50) / 100 in
      showZ (tenths / 10) ++ "." ++ showZ (tenths mod 10) ++ "k"
    else
      let tenths := (num + 50000) / 100000 in
      showZ (tenths / 10) ++ "." ++ showZ (tenths mod 10) ++ "M".
Proof.
  intros _ _. unfold formatNumber.
  destruct (Z.ltb_spec num 1000) as [H1|H1].
  - destruct (Z.geb_spec num 1000000); [lia|]. destruct (Z.geb_spec num 1000); [lia|].
    reflexivity.
  - destruct (Z.ltb_spec num 1000000) as [H2|H2].
    + destruct (Z.geb_spec num 1000000); [lia|]. destruct (Z.geb_spec num 1000); [|lia].
      change (inject_Z num / 1000)%Q with (inject_Z num / inject_Z (Zpos 1000))%Q.
      rewrite toFixed1_ratio by lia. cbv zeta.
      replace ((20 * num + 1000) / (2 * 1000)) with ((num + 50) / 100);
        [now rewrite !append_assoc|].
      replace (20 * num + 1000) with (20 * (num + 50)) by lia.
      change (2 * 1000) with (20 * 100). now rewrite Z.div_mul_cancel_l.
    + destruct (Z.geb_spec num 1000000); [|lia].
      change (inject_Z num / 1000000)%Q with (inject_Z num / inject_Z (Zpos 1000000))%Q.
      rewrite toFixed1_ratio by lia. cbv zeta.
      replace ((20 * num + 1000000) / (2 * 1000000)) with ((num + 50000) / 100000);
        [now rewrite !append_assoc|].
      replace (20 * num + 1000000) with (20 * (num + 50000)) by lia.
      change (2 * 1000000) with (20 * 100000). now rewrite Z.div_mul_cancel_l.
Qed.

Lemma X18_format_number_witness :
  formatNumber 999999 = "1000.0k".
Proof.
  apply (X18_format_number 999999).
  - intros _. discriminate.
  - intros H. exfalso. revert H. apply Z.lt_nge. reflexivity.
Defined.

Section SampleSize.

Lemma excerpt_length (content : string) :
  (String.length (excerpt content) <= 1003)%nat.
Proof.
  unfold excerpt. rewrite length_append.
  destruct (Nat.ltb_spec 1000 (String.length content)) as [H|H].
  - destruct (slice0_long 1000 content) as (rest & _ & ->); [lia|]. cbn. lia.
  - rewrite slice0_short by lia. cbn. lia.
Qed.

Lemma sampleBlock_length (path content : string) :
  (String.length (sampleBlock path content) <= String.length path + 1020)%nat.
Proof.
  unfold sampleBlock. pose proof (excerpt_length content) as H.
  rewrite !length_append. unfold LF. cbn [String.length]. lia.
Qed.

Lemma sampleCodeOf_length (api : GitHub.Api) (owner repo : string)
    (codeFiles : list GitHub.TreeItem) :
  (String.length (sampleCodeOf api owner repo codeFiles)
   <= 1020 * length codeFiles
      + list_sum (map (fun file => String.length (GitHub.path file)) codeFiles))%nat.
Proof.
  unfold sampleCodeOf. rewrite sampleCodeOf_from. cbn [append]. unfold list_sum.
  induction codeFiles as [|file files IH];
    cbn [map appendAll fold_right List.length String.length]; [lia|].
  rewrite length_append.
  destruct (GitHub.getContents api _) as [[content|]|].
  - pose proof (sampleBlock_length (GitHub.path file) content). lia.
  - cbn [String.length]. lia.
  - cbn [String.length]. lia.
Qed.

End SampleSize.

(** X19.  The code sample sent with a whole-repository analysis is bounded
    whatever the size of the files: its length is at most 5 times 1020
    characters plus the lengths of the paths of the selected files. *)
Theorem X19_sample_is_bounded (api : GitHub.Api) (owner repo : string)
    (tree : list GitHub.TreeItem) :
  (String.length (sampleCodeOf api owner repo (codeFilesOf tree))
   <= 5 * 1020 + list_sum (map (fun file => String.length (GitHub.path file))
                           (codeFilesOf tree)))%nat.
Proof.
  pose proof (sampleCodeOf_length api owner repo (codeFilesOf tree)) as H.
  assert (Hfive : (length (codeFilesOf tree) <= 5)%nat)
    by (unfold codeFilesOf; apply firstn_le_length).
  lia.
Qed.

(** ** Joining and splitting *)

Section Joining.

Variable sep : ascii.

Lemma includes_char (c : ascii) (s : string) :
  includes (String c s) (String sep "") = (Ascii.eqb c sep || includes s (String sep ""))%bool.
Proof.
  cbn [includes prefix].
  destruct (ascii_dec sep c) as [<-|Hne].
  - rewrite Ascii.eqb_refl. now destruct s.
  - destruct (Ascii.eqb_spec c sep) as [->|_]; [contradiction|reflexivity].
Qed.

Lemma includes_char_app (a b : string) :
  includes (a ++ b) (String sep "")
  = (includes a (String sep "") || includes b (String sep ""))%bool.
Proof.
  induction a as [|c a IH].
  - cbn [append]. now destruct b.
  - cbn [append]. rewrite !includes_char, IH. now rewrite orb_assoc.
Qed.

Lemma split_free (w : string) :
  includes w (String sep "") = false -> split sep w = [w].
Proof.
  induction w as [|c w IH]; [reflexivity|].
  rewrite includes_char. intros H. apply orb_false_iff in H as [Hc Hw].
  cbn. rewrite Hc, (IH Hw). reflexivity.
Qed.

Lemma split_parts_free (s : string) :
  Forall (fun part => includes part (String sep "") = false) (split sep s).
Proof.
  induction s as [|c s IH]; cbn [split].
  - now constructor.
  - destruct (Ascii.eqb c sep) eqn:Hc; [now constructor|].
    pose proof (split_not_nil sep s) as Hne.
    destruct (split sep s) as [|w ws]; [contradiction|].
    inversion IH as [|? ? Hw Hws]; subst. constructor; [|exact Hws].
    now rewrite includes_char, Hc, Hw.
Qed.

Lemma concat_cons (x y : string) (l : list string) :
  String.concat (String sep "") (x :: y :: l)
  = x ++ String sep (String.concat (String sep "") (y :: l)).
Proof.
  reflexivity.
Qed.

(** [s.split(sep).join(sep)] is [s]. *)
Lemma concat_split (s : string) : String.concat (String sep "") (split sep s) = s.
Proof.
  induction s as [|c s IH]; [reflexivity|].
  cbn [split]. pose proof (split_not_nil sep s) as Hne.
  destruct (Ascii.eqb_spec c sep) as [->|_].
  - destruct (split sep s) as [|w ws]; [contradiction|].
    rewrite concat_cons, IH. reflexivity.
  - destruct (split sep s) as [|w ws]; [contradiction|].
    destruct ws as [|w' ws].
    + cbn in IH |- *. now rewrite IH.
    + rewrite concat_cons in IH |- *. cbn [append]. now rewrite IH.
Qed.

(** [l.join(sep).split(sep)] is [l], for parts without the separator. *)
Lemma split_concat (l : list string) :
  l <> [] ->
  Forall (fun part => includes part (String sep "") = false) l ->
  split sep (String.concat (String sep "") l) = l.
Proof.
  intros Hne H. induction H as [|x l Hx Hl IH]; [contradiction|].
  destruct l as [|y l].
  - cbn [String.concat]. now apply split_free.
  - rewrite concat_cons, split_app, (split_free x Hx), IH by discriminate. reflexivity.
Qed.

Lemma concat_app (a b : list string) :
  a <> [] -> b <> [] ->
  String.concat (String sep "") (a ++ b)
  = String.concat (String sep "") a ++ String sep (String.concat (String sep "") b).
Proof.
  intros Ha Hb. induction a as [|x a IH]; [contradiction|].
  destruct a as [|y a].
  - destruct b as [|z b]; [contradiction|]. reflexivity.
  - change ((x :: y :: a) ++ b)%list with (x :: y :: (a ++ b))%list.
    rewrite !concat_cons. change (y :: (a ++ b))%list with ((y :: a) ++ b)%list.
    rewrite IH by discriminate. now rewrite append_assoc.
Qed.

End Joining.

(** X20.  The listing sent with a prompt can be read back line by line: when
    no path contains a line feed and the tree has at least one directory or
    file, the lines of the listing are, in the order of the tree, one line
    "directory: path" for every directory and one line "file: path" for
    every file; submodule entries have no line. *)
Theorem X20_listing_lines (tree : list GitHub.TreeItem) :
  Forall (fun item => includes (GitHub.path item) LF = false) tree ->
  (exists item, In item tree /\ GitHub.type item <> GitHub.commit) ->
  split (ascii_of_nat 10) (directoryListing tree)
  = map (fun item =>
           (match GitHub.type item with GitHub.tree => "directory" | _ => "file" end)
           ++ ": " ++ GitHub.path item)
        (filter (fun item =>
                   match GitHub.type item with GitHub.commit => false | _ => true end)
                tree).
Proof.
  intros Hfree [item [Hin Htype]]. unfold directoryListing.
  replace (filter (fun item0 => match GitHub.type item0 with
                                | GitHub.commit => false
                                | _ => true
                                end) tree)
    with (filter (fun item0 => match GitHub.type item0 with
                               | GitHub.tree | GitHub.blob => true
                               | GitHub.commit => false
                               end) tree)
    by (apply filter_ext; intros []; now destruct type).
  apply (split_concat (ascii_of_nat 10)).
  - intros Hnil. apply map_eq_nil in Hnil.
    assert (Hitem : In item (filter (fun item0 => match GitHub.type item0 with
                                                  | GitHub.tree | GitHub.blob => true
                                                  | GitHub.commit => false
                                                  end) tree)).
    { apply filter_In. split; [exact Hin|]. destruct (GitHub.type item); congruence. }
    rewrite Hnil in Hitem. contradiction.
  - apply Forall_map. apply Forall_forall. intros entry Hentry.
    apply filter_In in Hentry as [Hentry _].
    rewrite Forall_forall in Hfree. specialize (Hfree entry Hentry).
    rewrite !includes_char_app. change (String (ascii_of_nat 10) "") with LF.
    rewrite Hfree. now destruct (GitHub.type entry).
Qed.

Lemma X20_listing_lines_witness :
  length (split (ascii_of_nat 10) (directoryListing Sample.files)) = 11%nat.
Proof.
  rewrite (X20_listing_lines Sample.files).
  - reflexivity.
  - repeat constructor.
  - exists {| GitHub.path := "src"; GitHub.type := GitHub.tree |}.
    split; [now left|discriminate].
Defined.

(** ** The file explorer *)

Section Explorer.

Lemma split_first_segment (path : string) :
  path <> "" -> prefix "/" path = false ->
  exists first rest, split "/" path = first :: rest /\ first <> "".
Proof.
  intros Hne Hslash. destruct path as [|c path]; [contradiction|].
  cbn [split]. cbn [prefix] in Hslash.
  destruct (Ascii.eqb_spec c "/") as [->|Hc].
  - cbn in Hslash. now destruct path.
  - pose proof (split_not_nil "/" path) as Hnil.
    destruct (split "/" path) as [|w ws]; [contradiction|].
    exists (String c w), ws. split; [reflexivity|discriminate].
Qed.

Lemma concat_not_empty (sep first : string) (rest : list string) :
  first <> "" -> String.concat sep (first :: rest) <> "".
Proof.
  intros Hne. destruct first as [|c first]; [contradiction|].
  destruct rest; cbn; discriminate.
Qed.

Lemma prefix_concat_firstn (k : nat) (parts : list string) :
  (1 <= k)%nat ->
  prefix (String.concat "/" (firstn k parts)) (String.concat "/" parts) = true.
Proof.
  intros Hk. rewrite <- (firstn_skipn k parts) at 2.
  destruct (skipn k parts) as [|y ys] eqn:Hskip.
  - rewrite app_nil_r. rewrite <- (append_nil_r (String.concat "/" (firstn k parts))) at 2.
    apply prefix_append.
  - destruct (firstn k parts) as [|x xs] eqn:Hfirst.
    + destruct k; [lia|]. destruct parts; cbn in Hfirst, Hskip; discriminate.
    + change "/" with (String "/"%char "") at 2. rewrite concat_app by discriminate.
      apply prefix_append.
Qed.

End Explorer.

(** X21.  A click on a breadcrumb of the file explorer opens the directory
    made of the segments up to that breadcrumb.  After a directory with a
    non-empty path that does not begin with a slash has been opened, a click
    on the breadcrumb of index [index] leaves the first [index + 1]
    breadcrumbs, the path opened is a prefix of the former path, and a click
    on the last breadcrumb opens the former path again. *)
Theorem X21_breadcrumb_click (path : string) (index : Z) (s : FileExplorer.State) :
  path <> "" -> prefix "/" path = false ->
  0 <= index < Z.of_nat (length (split "/" path)) ->
  let opened := FileExplorer.loadFiles path s in
  let clicked := FileExplorer.handleBreadcrumbClick index opened in
  FileExplorer.breadcrumbs clicked
  = firstn (Z.to_nat (index + 1)) (FileExplorer.breadcrumbs opened)
  /\ prefix (FileExplorer.currentPath clicked) path = true
  /\ (index = Z.of_nat (length (split "/" path)) - 1 ->
      FileExplorer.currentPath clicked = path).
Proof.
  intros Hne Hslash Hindex opened clicked.
  assert (Hcrumbs : FileExplorer.breadcrumbs opened = split "/" path).
  { cbn. destruct (String.eqb_spec path ""); [contradiction|reflexivity]. }
  assert (Hpath : FileExplorer.currentPath clicked
                  = String.concat "/" (firstn (Z.to_nat (index + 1)) (split "/" path))).
  { unfold clicked, FileExplorer.handleBreadcrumbClick.
    destruct (Z.eqb_spec index (-1)); [lia|].
    cbn [FileExplorer.loadFiles FileExplorer.currentPath]. rewrite Hcrumbs.
    unfold FileExplorer.slice. destruct (Z.ltb_spec (index + 1) 0); [lia|].
    do 2 f_equal. lia. }
  destruct (split_first_segment path Hne Hslash) as (first & rest & Hsplit & Hfirst).
  split; [|split].
  - rewrite Hcrumbs.
    assert (Hb : FileExplorer.breadcrumbs clicked
                 = if String.eqb (FileExplorer.currentPath clicked) "" then []
                   else split "/" (FileExplorer.currentPath clicked)).
    { unfold clicked, FileExplorer.handleBreadcrumbClick.
      destruct (Z.eqb_spec index (-1)); [lia|]. reflexivity. }
    rewrite Hb, Hpath.
    replace (Z.to_nat (index + 1)) with (S (Z.to_nat index)) by lia.
    rewrite Hsplit. cbn [firstn].
    destruct (String.eqb_spec (String.concat "/" (first :: firstn (Z.to_nat index) rest)) "")
      as [E|_]; [now apply concat_not_empty in E|].
    apply (split_concat "/"%char); [discriminate|].
    pose proof (split_parts_free "/"%char path) as Hfree. rewrite Hsplit in Hfree.
    inversion Hfree as [|? ? Hf Hr]; subst. constructor; [exact Hf|].
    apply Forall_forall. intros part Hin. apply in_firstn in Hin.
    rewrite Forall_forall in Hr. now apply Hr.
  - rewrite Hpath. rewrite <- (concat_split "/"%char path) at 2.
    apply prefix_concat_firstn. lia.
  - intros Hlast. rewrite Hpath.
    replace (Z.to_nat (index + 1)) with (length (split "/" path)) by lia.
    rewrite firstn_all. apply (concat_split "/"%char).
Qed.

Lemma X21_breadcrumb_click_witness :
  FileExplorer.currentPath
    (FileExplorer.handleBreadcrumbClick 1
       (FileExplorer.loadFiles "client/src/components" FileExplorer.initial))
  = "client/src"
  /\ prefix "client/src" "client/src/components" = true.
Proof.
  split; [reflexivity|].
  apply (X21_breadcrumb_click "client/src/components" 1 FileExplorer.initial).
  - discriminate.
  - reflexivity.
  - cbn. lia.
Defined.

(** ** The commit chart *)

Section Bars.

Lemma max_count (counts : list Z) (first : Z) :
  first <= fold_left Z.max counts first
  /\ Forall (fun c => c <= fold_left Z.max counts first) counts
  /\ (fold_left Z.max counts first = first \/ In (fold_left Z.max counts first) counts).
Proof.
  revert first. induction counts as [|c counts IH]; intros first; cbn [fold_left].
  - repeat split; [lia|constructor|now left].
  - destruct (IH (Z.max first c)) as (Hfirst & Hall & Hin). repeat split.
    + lia.
    + constructor; [lia|exact Hall].
    + destruct Hin as [E|Hin]; [|right; now right].
      destruct (Z.max_spec first c) as [[_ Hm]|[_ Hm]].
      * right. left. congruence.
      * left. congruence.
Qed.

Lemma height_positive (c : Z) (p : positive) :
  0 < c <= Zpos p ->
  (0 < inject_Z c / inject_Z (Zpos p) * 100)%Q
  /\ (inject_Z c / inject_Z (Zpos p) * 100 <= 100)%Q.
Proof.
  intros [Hc Hp]. unfold Qlt, Qle, Qdiv, Qmult, Qinv, inject_Z. cbn [Qnum Qden].
  split; nia.
Qed.

Lemma height_full (p : positive) :
  (inject_Z (Zpos p) / inject_Z (Zpos p) * 100 == 100)%Q.
Proof.
  unfold Qeq, Qdiv, Qmult, Qinv, inject_Z. cbn [Qnum Qden]. nia.
Qed.

Lemma height_zero (m : Z) : (inject_Z 0 / inject_Z m * 100 == 0)%Q.
Proof.
  unfold Qeq, Qdiv, Qmult, inject_Z. cbn [Qnum Qden]. lia.
Qed.

Lemma barsFrom_length (index maxCommitCount : Z) (l : list CommitActivity) :
  length (CommitChart.barsFrom index maxCommitCount l) = length l.
Proof.
  revert index. induction l as [|a l IH]; intros index; cbn; [reflexivity|].
  now rewrite IH.
Qed.

Lemma barsFrom_heights (index maxCommitCount : Z) (l : list CommitActivity) :
  Forall (fun a => 0 <= count a <= maxCommitCount) l ->
  Forall (fun bar => (0 < CommitChart.height bar)%Q /\ (CommitChart.height bar <= 100)%Q)
         (CommitChart.barsFrom index maxCommitCount l).
Proof.
  intros H. revert index. induction H as [|a l Ha _ IH]; intros index;
    cbn [CommitChart.barsFrom]; constructor; [|apply IH].
  cbn [CommitChart.height].
  destruct (Z.eq_dec (count a) 0) as [E|E].
  - rewrite E.
    assert (Hz : Qeq_bool (inject_Z 0
                           / inject_Z (if maxCommitCount =? 0 then 1 else maxCommitCount)
                           * 100) 0 = true)
      by (apply Qeq_bool_iff, height_zero).
    rewrite Hz. split; [reflexivity|discriminate].
  - destruct (Z.eqb_spec maxCommitCount 0); [lia|].
    destruct maxCommitCount as [|p|p]; try lia.
    destruct (height_positive (count a) p ltac:(lia)) as [Hpos Hle].
    destruct (Qeq_bool _ 0) eqn:Hq; [|now split].
    apply Qeq_bool_iff in Hq. rewrite Hq in Hpos. discriminate.
Qed.

Lemma barsFrom_full (index : Z) (p : positive) (l : list CommitActivity) (a : CommitActivity) :
  In a l -> count a = Zpos p ->
  exists bar, In bar (CommitChart.barsFrom index (Zpos p) l)
              /\ (CommitChart.height bar == 100)%Q.
Proof.
  intros Hin Hcount. revert index. induction l as [|b l IH]; intros index; [contradiction|].
  cbn [CommitChart.barsFrom]. destruct Hin as [->|Hin].
  - eexists. split; [now left|]. cbn [CommitChart.height Z.eqb]. rewrite Hcount.
    pose proof (height_full p) as Hfull.
    destruct (Qeq_bool _ 0) eqn:Hq; [|exact Hfull].
    apply Qeq_bool_iff in Hq. rewrite Hq in Hfull. discriminate.
  - destruct (IH Hin (index + 1)) as (bar & Hbar & Hheight).
    exists bar. split; [now right|exact Hheight].
Qed.


Lemma barsFrom_exact (index maxCommitCount : Z) (l : list CommitActivity) :
  Forall (fun a => 0 <= count a <= maxCommitCount) l ->
  Forall2 (fun activity bar =>
             (count activity = 0 -> CommitChart.height bar = 5%Q)
             /\ (0 < count activity ->
                 CommitChart.height bar
                 = (inject_Z (count activity) / inject_Z maxCommitCount * 100)%Q))
          l (CommitChart.barsFrom index maxCommitCount l).
Proof.
  intros H. revert index. induction H as [|a l Ha _ IH]; intros index;
    cbn [CommitChart.barsFrom]; constructor; [|apply IH].
  cbn [CommitChart.height]. split.
  - intros E. rewrite E.
    assert (Hz : Qeq_bool (inject_Z 0
                           / inject_Z (if maxCommitCount =? 0 then 1 else maxCommitCount)
                           * 100) 0 = true)
      by (apply Qeq_bool_iff, height_zero).
    now rewrite Hz.
  - intros Hpos. destruct (Z.eqb_spec maxCommitCount 0); [lia|].
    destruct maxCommitCount as [|p|p]; try lia.
    destruct (height_positive (count a) p ltac:(lia)) as [Hh _].
    destruct (Qeq_bool _ 0) eqn:Hq; [|reflexivity].
    apply Qeq_bool_iff in Hq. rewrite Hq in Hh. discriminate.
Qed.

End Bars.

(** X22.  The bars of the commit chart.  For a list of entries that is not
    empty and has no negative count, the chart has one bar and one label
    for each entry.  An entry without commits is drawn 5 per cent high, and
    an entry with commits as high as its share of the largest count of the
    list, in per cent.  So every bar has a height above 0 and at most 100
    per cent, and when some entry has commits some bar is 100 per cent
    high. *)
Theorem X22_chart_heights (commitActivity : list CommitActivity) :
  commitActivity <> [] ->
  Forall (fun activity => 0 <= count activity) commitActivity ->
  exists bars,
    CommitChart.commitChart commitActivity = CommitChart.Chart bars (map month commitActivity)
    /\ length bars = length commitActivity
    /\ Forall (fun bar => (0 < CommitChart.height bar)%Q
                          /\ (CommitChart.height bar <= 100)%Q) bars
    /\ ((exists activity, In activity commitActivity /\ 0 < count activity) ->
        exists bar, In bar bars /\ (CommitChart.height bar == 100)%Q)
    /\ (exists largest,
          In largest (map count commitActivity)
          /\ Forall (fun activity => count activity <= largest) commitActivity
          /\ Forall2 (fun activity bar =>
                        (count activity = 0 -> CommitChart.height bar = 5%Q)
                        /\ (0 < count activity ->
                            CommitChart.height bar
                            = (inject_Z (count activity) / inject_Z largest * 100)%Q))
                     commitActivity bars).
Proof.
  intros Hne Hcounts. destruct commitActivity as [|first rest]; [contradiction|].
  unfold CommitChart.commitChart.
  destruct (max_count (map count rest) (count first)) as (Hfirst & Hrest & Hmax).
  set (maxCommitCount := fold_left Z.max (map count rest) (count first)) in *.
  eexists. split; [reflexivity|]. split; [apply barsFrom_length|].
  assert (Hall : Forall (fun a => 0 <= count a <= maxCommitCount) (first :: rest)).
  { inversion Hcounts as [|? ? Hf Hr]; subst. constructor; [lia|].
    rewrite Forall_map in Hrest. rewrite Forall_forall in Hr, Hrest |- *.
    intros a Ha. split; [now apply Hr|now apply Hrest]. }
  split; [now apply barsFrom_heights|].
  split.
  - intros (activity & Hin & Hpos).
    assert (Hbig : 0 < maxCommitCount).
    { rewrite Forall_forall in Hall. specialize (Hall activity Hin). lia. }
    assert (Hwho : exists a, In a (first :: rest) /\ count a = maxCommitCount).
    { destruct Hmax as [E|Hin'].
      - exists first. split; [now left|now rewrite E].
      - apply in_map_iff in Hin' as (a & Ea & Ha). exists a. split; [now right|exact Ea]. }
    destruct Hwho as (a & Ha & Ea).
    destruct maxCommitCount as [|p|p] eqn:Hm; try lia.
    now apply (barsFrom_full 0 p (first :: rest) a).
  - exists maxCommitCount. split; [|split].
    + cbn [map]. destruct Hmax as [E|Hin']; [left; now rewrite E|now right].
    + eapply Forall_impl; [|exact Hall]. cbn beta. intros a Ha. lia.
    + now apply barsFrom_exact.
Qed.

Lemma X22_chart_heights_witness :
  exists bars,
    CommitChart.commitChart [ {| month := Some "Oct"; count := 3 |};
                              {| month := Some "Nov"; count := 0 |} ]
    = CommitChart.Chart bars [Some "Oct"; Some "Nov"]
    /\ length bars = 2%nat.
Proof.
  destruct (X22_chart_heights [ {| month := Some "Oct"; count := 3 |};
                                {| month := Some "Nov"; count := 0 |} ])
    as (bars & Hview & Hlength & _).
  - discriminate.
  - repeat constructor; cbn; lia.
  - exists bars. split; [exact Hview|exact Hlength].
Defined.



(** ** The address form and the check boxes *)

Section Form.

Lemma prefix_weaken (p q s : string) : prefix (p ++ q) s = true -> prefix p s = true.
Proof.
  revert s. induction p as [|c p IH]; intros s; [now destruct s|].
  destruct s as [|d s]; cbn; [discriminate|].
  destruct (ascii_dec c d); [apply IH|discriminate].
Qed.

Lemma includes_weaken (s p q : string) :
  includes s (p ++ q) = true -> includes s p = true.
Proof.
  induction s as [|c s IH]; cbn [includes]; intros H; apply orb_true_iff in H as [H|H].
  - rewrite (prefix_weaken _ _ _ H). reflexivity.
  - discriminate.
  - rewrite (prefix_weaken _ _ _ H). reflexivity.
  - rewrite (IH H). apply orb_true_r.
Qed.

Lemma toggles_from (clicks : list ReadmeGenerator.Key) (a b c d : bool) :
  fold_left (fun prev option => ReadmeGenerator.toggleOption option prev) clicks
    {| includeInstallation := Some a; includeUsage := Some b;
       includeContributing := Some c; includeLicense := Some d;
       customSections := None |}
  = {| includeInstallation :=
         Some (xorb a (Nat.odd (ReadmeGenerator.clicksOn ReadmeGenerator.installation clicks)));
       includeUsage :=
         Some (xorb b (Nat.odd (ReadmeGenerator.clicksOn ReadmeGenerator.usage clicks)));
       includeContributing :=
         Some (xorb c (Nat.odd (ReadmeGenerator.clicksOn ReadmeGenerator.contributing clicks)));
       includeLicense :=
         Some (xorb d (Nat.odd (ReadmeGenerator.clicksOn ReadmeGenerator.license clicks)));
       customSections := None |}.
Proof.
  revert a b c d. induction clicks as [|key clicks IH]; intros a b c d.
  - cbn. now rewrite !xorb_false_r.
  - cbn [fold_left]. unfold ReadmeGenerator.toggleOption, ReadmeGenerator.flip.
    cbn [includeInstallation includeUsage includeContributing includeLicense
         customSections orDefault].
    unfold ReadmeGenerator.clicksOn. cbn [filter].
    destruct key; cbn [ReadmeGenerator.sameKey length]; rewrite IH;
      unfold ReadmeGenerator.clicksOn; rewrite ?Nat.odd_succ, <- ?Nat.negb_odd;
      now rewrite <- negb_xorb_l, <- negb_xorb_r.
Qed.

End Form.

(** X24.  What the address form lets through, the server does not refuse as
    foreign: a value that the form accepts is submitted unchanged, and the
    validation of the server either accepts it or refuses it with "Invalid
    URL format", never with "URL must be a GitHub repository". *)
Theorem X24_form_then_server (value submitted : string) :
  RepositoryInput.formSchema value = Ok submitted ->
  submitted = value
  /\ forall isUrl,
       parseAnalyzeBody isUrl submitted
       = if isUrl value then Ok value else Throw (ZodError "Invalid URL format").
Proof.
  unfold RepositoryInput.formSchema.
  destruct (String.length value <? 1)%nat; [discriminate|].
  destruct (includes value "github.com/") eqn:Hin; cbn [negb]; [|discriminate].
  intros H. apply Ok_injective in H. subst submitted. split; [reflexivity|].
  intros isUrl. unfold parseAnalyzeBody.
  destruct (isUrl value); cbn [negb]; [|reflexivity].
  change "github.com/" with ("github.com" ++ "/") in Hin.
  now rewrite (includes_weaken _ _ _ Hin).
Qed.

Lemma X24_form_then_server_witness :
  parseAnalyzeBody Sample.isUrl "github.com/octocat/Hello-World"
  = Throw (ZodError "Invalid URL format").
Proof.
  apply (proj2 (X24_form_then_server "github.com/octocat/Hello-World"
                  "github.com/octocat/Hello-World" eq_refl) Sample.isUrl).
Defined.

(** X25.  The check boxes of the generator.  After any sequence of clicks,
    each of the four flags sent to the server is set, and it is true exactly
    when its box has been clicked an even number of times; custom sections
    are never sent. *)
Theorem X25_check_boxes (clicks : list ReadmeGenerator.Key) :
  let options := ReadmeGenerator.afterClicks clicks in
  includeInstallation options
  = Some (Nat.even (ReadmeGenerator.clicksOn ReadmeGenerator.installation clicks))
  /\ includeUsage options
     = Some (Nat.even (ReadmeGenerator.clicksOn ReadmeGenerator.usage clicks))
  /\ includeContributing options
     = Some (Nat.even (ReadmeGenerator.clicksOn ReadmeGenerator.contributing clicks))
  /\ includeLicense options
     = Some (Nat.even (ReadmeGenerator.clicksOn ReadmeGenerator.license clicks))
  /\ customSections options = None.
Proof.
  cbv zeta. unfold ReadmeGenerator.afterClicks, ReadmeGenerator.initial.
  rewrite toggles_from.
  cbn [includeInstallation includeUsage includeContributing includeLicense customSections].
  rewrite <- !Nat.negb_odd. repeat split; now rewrite xorb_true_l.
Qed.

(** ** The frame of the document *)

(** X26.  Every document that the generator returns begins with the title
    line, "# " and the second segment of the full name, and ends with the
    footer that names the date, whatever the options. *)
Theorem X26_document_frame today repository options document :
  generateReadmeContent today repository options = Ok document ->
  prefix ("# " ++ render (nth_error (split "/" (fullName repository)) 1) ++ LF) document
  = true
  /\ endsWith document
       ("---" ++ LF ++ LF ++ "Generated by GitHub Repository Analyzer on " ++ today ++ LF)
     = true.
Proof.
  unfold generateReadmeContent. cbv zeta.
  destruct (lowerOf "null" (description repository)) as [lowerDescription|e];
    cbn [bind]; [|discriminate].
  destruct (if orDefault true (includeUsage options) then _ else _) as [usage|e];
    cbn [bind]; [|discriminate].
  intros H. apply Ok_injective in H. subst document. split.
  - unfold readmeHead.
    set (r := render (nth_error (split "/" (fullName repository)) 1)).
    rewrite !append_assoc.
    match goal with
    | |- prefix _ ("# " ++ r ++ LF ++ ?rest) = true =>
        replace ("# " ++ r ++ LF ++ rest) with (("# " ++ r ++ LF) ++ rest)
          by (now rewrite !append_assoc)
    end.
    apply prefix_append.
  - rewrite <- !append_assoc. apply (endsWith_append _ (readmeFooter today)).
Qed.

Lemma X26_document_frame_witness :
  exists document,
    generateReadmeContent "11/2/2026" Sample.helloRecord (Sample.options None []) = Ok document
    /\ prefix ("# Hello-World" ++ LF) document = true.
Proof.
  eexists. split; [reflexivity|].
  apply (X26_document_frame "11/2/2026" Sample.helloRecord (Sample.options None []) _ eq_refl).
Defined.

(** ** Instants that are not in the past *)

(** X27.  The relative time is "just now" exactly when the instant lies less
    than a minute before the present one; this includes every instant in the
    future.  Every other answer ends with " ago". *)
Theorem X27_just_now (now date : Z) :
  (getRelativeTimeString now date = "just now" <-> now - date < 60000)
  /\ (60000 <= now - date -> endsWith (getRelativeTimeString now date) " ago" = true).
Proof.
  unfold getRelativeTimeString. cbv zeta.
  destruct (Z.ltb_spec ((now - date) / 1000) 60) as [H|H].
  - split; [|intros Hge; exfalso; Z.to_euclidean_division_equations; lia].
    split; [|reflexivity]. intros _. Z.to_euclidean_division_equations; lia.
  - assert (Hago : endsWith
                     (if (now - date) / 1000 / 60 <? 60
                      then showZ ((now - date) / 1000 / 60) ++ " minute"
                           ++ (if (now - date) / 1000 / 60 >? 1 then "s" else "") ++ " ago"
                      else if (now - date) / 1000 / 60 / 60 <? 24
                      then showZ ((now - date) / 1000 / 60 / 60) ++ " hour"
                           ++ (if (now - date) / 1000 / 60 / 60 >? 1 then "s" else "")
                           ++ " ago"
                      else if (now - date) / 1000 / 60 / 60 / 24 <? 30
                      then showZ ((now - date) / 1000 / 60 / 60 / 24) ++ " day"
                           ++ (if (now - date) / 1000 / 60 / 60 / 24 >? 1 then "s" else "")
                           ++ " ago"
                      else if (now - date) / 1000 / 60 / 60 / 24 / 30 <? 12
                      then showZ ((now - date) / 1000 / 60 / 60 / 24 / 30) ++ " month"
                           ++ (if (now - date) / 1000 / 60 / 60 / 24 / 30 >? 1
                               then "s" else "")
                           ++ " ago"
                      else showZ ((now - date) / 1000 / 60 / 60 / 24 / 30 / 12) ++ " year"
                           ++ (if (now - date) / 1000 / 60 / 60 / 24 / 30 / 12 >? 1
                               then "s" else "")
                           ++ " ago")
                     " ago" = true).
    { repeat match goal with |- context [if ?b then _ else _] => destruct b end;
        rewrite <- ?append_assoc; apply endsWith_append. }
    split; [|intros _; exact Hago].
    split; [|intros Hlt; exfalso; Z.to_euclidean_division_equations; lia].
    intros E. rewrite E in Hago. discriminate Hago.
Qed.

Lemma X27_just_now_witness :
  endsWith (getRelativeTimeString 1762041600000 1761955200000) " ago" = true.
Proof.
  apply (proj2 (X27_just_now 1762041600000 1761955200000)).
  intros H. discriminate H.
Defined.

(** ** Sessions of the file explorer *)

Section Sessions.

Lemma loadFiles_spelled (path : string) (s : FileExplorer.State) :
  String.concat "/" (FileExplorer.breadcrumbs (FileExplorer.loadFiles path s)) = path
  /\ hd "" (FileExplorer.fetched (FileExplorer.loadFiles path s)) = path.
Proof.
  split; [|reflexivity]. cbn [FileExplorer.loadFiles FileExplorer.breadcrumbs].
  destruct (String.eqb_spec path "") as [->|_]; [reflexivity|].
  apply (concat_split "/"%char).
Qed.

End Sessions.

(** X28.  In the file explorer the breadcrumbs always spell the current
    path, and the files last requested are those of the current path: after
    any sequence of clicks (explore, a file or a directory of any name, a
    breadcrumb of any index, analyse the repository), the breadcrumbs joined
    with slashes are the current path, and the path of the latest request for
    files is the current path. *)
Theorem X28_breadcrumbs_spell_path (clicks : list FileExplorer.Click) :
  let s := FileExplorer.session clicks in
  String.concat "/" (FileExplorer.breadcrumbs s) = FileExplorer.currentPath s
  /\ hd "" (FileExplorer.fetched s) = FileExplorer.currentPath s.
Proof.
  cbv zeta. unfold FileExplorer.session.
  assert (H : forall s,
             String.concat "/" (FileExplorer.breadcrumbs s) = FileExplorer.currentPath s
             /\ hd "" (FileExplorer.fetched s) = FileExplorer.currentPath s ->
             String.concat "/" (FileExplorer.breadcrumbs (fold_left FileExplorer.handle clicks s))
             = FileExplorer.currentPath (fold_left FileExplorer.handle clicks s)
             /\ hd "" (FileExplorer.fetched (fold_left FileExplorer.handle clicks s))
                = FileExplorer.currentPath (fold_left FileExplorer.handle clicks s)).
  { induction clicks as [|click clicks IH]; intros s Hs; [exact Hs|].
    cbn [fold_left]. apply IH.
    destruct click as [|clicked|index|]; cbn [FileExplorer.handle].
    - apply loadFiles_spelled.
    - unfold FileExplorer.handleFileClick.
      destruct (FileExplorer.type clicked); [exact Hs|apply loadFiles_spelled].
    - unfold FileExplorer.handleBreadcrumbClick.
      destruct (index =? -1); apply loadFiles_spelled.
    - exact Hs. }
  apply H. split; reflexivity.
Qed.
